(** * predictor.py: model and pipeline comparison on QC signal features

    A shallow embedding of [src/predictor.py] and the properties of its
    data loader, feature selector, imputer, search loop and results
    aggregator.

    Numbers are IEEE binary64 values (numpy's float64), modelled by the
    primitive floats; numpy arrays are row lists with an explicit column
    count; Python dicts are association lists in insertion order; the
    exceptions a step can raise are values of [exn]; the database reads,
    the console output and the files written are the trace and the file
    map of an explicit [world], which also knows the directories that
    exist, threaded through a state-and-exception monad. The calls into
    scikit-learn are functions given from outside that return or raise. *)

From Stdlib Require Import ZArith Floats.
From Stdlib Require OrderedTypeEx.
From stdpp Require Import base option list strings gmap sorting.

Local Open Scope float_scope.
Set Warnings "-inexact-float".

(** ** Floats *)

Abbreviation float := PrimFloat.float.

(** The missing-value marker compared against in [== -1]. *)
Definition sentinel : float := -1.

(** [numpy.isnan]. *)
Definition isnan (x : float) : bool := negb (x =? x).

(** ** numpy.median on a one-dimensional float64 array *)

(** The order numpy sorts floats by: NaN goes last. Entries that compare
    equal (0.0 and -0.0) keep their input order in [np_sort]. *)
Definition np_lt (x y : float) : bool :=
  (x <? y) || (isnan y && negb (isnan x)).

Fixpoint np_insert (x : float) (l : list float) : list float :=
  match l with
  | [] => [x]
  | y :: l' => if np_lt y x then y :: np_insert x l' else x :: l
  end.

Definition np_sort (l : list float) : list float := foldr np_insert [] l.

(** [numpy.mean] of the middle of sorted data: of the entry at [n / 2] for
    an odd size [n], of the entries at [n / 2 - 1] and [n / 2] for an even
    size. The mean is a sum that starts at [0.0], divided by the number of
    entries summed, so a middle [-0.0] comes out as [0.0]. *)
Definition middle_mean (part : list float) : float :=
  let sz := length part in
  if Nat.even sz
  then (0 + nth (sz / 2 - 1) part nan + nth (sz / 2) part nan) / 2
  else (0 + nth (sz / 2) part nan) / 1.

(** [numpy.median(a)]: NaN for an empty array or when a NaN is present
    (it is then the last entry of the sorted data), and otherwise the mean
    of the middle of the sorted data. *)
Definition median (a : list float) : float :=
  let part := np_sort a in
  match length a with
  | O => nan
  | _ => if isnan (List.last part nan) then nan else middle_mean part
  end.

(** ** The built-in round on a float64 *)

(** [numpy.rint]: the nearest integer, ties to the even one, with the sign
    of the argument. Below [2^52] in magnitude adding and subtracting
    [2^52] rounds to an integer in the rounding mode of the arithmetic;
    from [2^52] on every float64 is an integer, and infinities and NaN are
    returned as they are. *)
Definition rint (y : float) : float :=
  if abs y <? 0x1p52 then
    if y =? 0 then y
    else if y <? 0 then - abs ((y - 0x1p52) + 0x1p52)
    else abs ((y + 0x1p52) - 0x1p52)
  else y.

(** [10 ** n] as a float64. *)
Definition pow10 (n : nat) : float := Nat.iter n (λ p, p * 10) 1.

(** [round(x, ndigits)] for a [numpy.float64] [x]: the scalar's
    [__round__] is [numpy.round], which scales by [10 ** ndigits], rounds
    to the nearest integer and scales back, all in float64 arithmetic. An
    infinite or NaN [x] is returned as it is. *)
Definition round (x : float) (ndigits : Z) : float :=
  let p := pow10 (Z.abs_nat ndigits) in
  if (0 <=? ndigits)%Z then rint (x * p) / p else rint (x / p) * p.

(** ** Two-dimensional arrays *)

(** A 2-D ndarray of shape [(length nd_rows, shape1)]. *)
Record ndarray (A : Type) := NDArray { shape1 : nat; nd_rows : list (list A) }.
Arguments NDArray {A} _ _.
Arguments shape1 {A} _.
Arguments nd_rows {A} _.

Definition shape0 {A} (a : ndarray A) : nat := length (nd_rows a).

(** Every row has [shape1] entries. *)
Definition rectangular {A} (a : ndarray A) : Prop :=
  Forall (λ r, length r = shape1 a) (nd_rows a).

(** [a[:, i]] for a float array. A row too short to have an entry [i],
    which no rectangular array has, reads as NaN. *)
Definition column (a : ndarray float) (i : nat) : list float :=
  map (λ r, default nan (r !! i)) (nd_rows a).

(** [numpy.where(c == v)]: the positions of [c] whose entry compares equal
    to [v], in increasing order. *)
Fixpoint where_eq_from (k : nat) (c : list float) (v : float) : list nat :=
  match c with
  | [] => []
  | x :: c' => if x =? v then k :: where_eq_from (S k) c' v
               else where_eq_from (S k) c' v
  end.

Definition where_eq (c : list float) (v : float) : list nat := where_eq_from 0 c v.

(** [a[ks, i] = v]: the entry of column [i] is overwritten in each row
    listed in [ks]. *)
Definition setitem (a : ndarray float) (ks : list nat) (i : nat) (v : float)
  : ndarray float :=
  NDArray (shape1 a)
    (fold_left (λ rows k, alter (λ r, <[i := v]> r) k rows) ks (nd_rows a)).

(** ** The imputer (lines 166-167 and 222-223) *)

(** One iteration of the loop body:
    [sf[numpy.where(sf[:, i] == -1), i] = numpy.median(sf[:, i])]. *)
Definition impute_column (a : ndarray float) (i : nat) : ndarray float :=
  setitem a (where_eq (column a i) sentinel) i (median (column a i)).

(** [for i in range(sf.shape[1]): ...], mutating [sf] in place. *)
Definition impute (a : ndarray float) : ndarray float :=
  fold_left impute_column (seq 0 (shape1 a)) a.


(** ** Python exceptions and the effects of the script *)

(** The built-in exception classes that matter here. *)
Inductive exn : Set :=
  | ValueError | TypeError | LookupError | IndexError | KeyError
  | OSError | ConnectionError.

Global Instance exn_eq_dec : EqDecision exn.
Proof. solve_decision. Defined.

(** The direct base class, [None] for a direct subclass of [Exception]. *)
Definition exn_base (e : exn) : option exn :=
  match e with
  | IndexError | KeyError => Some LookupError
  | ConnectionError => Some OSError
  | ValueError | TypeError | LookupError | OSError => None
  end.

(** [isinstance(e, c)]: what [except c] catches. *)
Definition isinstance (e c : exn) : bool :=
  bool_decide (e = c) || bool_decide (exn_base e = Some c).

(** [pandas.DataFrame]: row labels, column labels and the cells by rows. *)
Record DataFrame := mkDataFrame {
  df_index : list string;
  df_columns : list string;
  df_values : list (list float)
}.

(** Hyperparameter grids and the catalog entries. *)
Inductive score_func := f_regression | mutual_info_regression.

Inductive param_value :=
  | PInt (n : Z) | PFloat (x : float) | PBool (b : bool) | PFunc (f : score_func).

Definition param_grid := list (string * list param_value).

Inductive scaler := MinMaxScaler | StandardScaler | RobustScaler.
Inductive selector := SelectPercentile | SelectKBest.
Inductive regressor :=
  | ElasticNet (max_iter random_state : Z)
  | Lasso (max_iter random_state : Z)
  | Ridge (max_iter random_state : Z)
  | BayesianRidge (n_iter : Z)
  | Lars (random_state : Z).

Inductive step := Scaler (s : scaler) | Selector (s : selector) | Model (r : regressor).

(** [sklearn.pipeline.Pipeline]: the named steps in order. *)
Definition Pipeline := list (string * step).

(** What a [print] call of the search loop shows. The elapsed seconds
    depend on the wall clock and carry no value here. *)
Inductive event :=
  | PrintFitting (name feature : string)
  | PrintBestScore (s : float)
  | PrintMedian (m : float)
  | PrintRelativeError (e : float)
  | PrintR2 (r : float)
  | PrintParameters (p : list (string * param_value))
  | PrintElapsed.

(** What the script does to the outside, in the order it does it. *)
Inductive effect :=
  | DbRead (table : string)
  | Stdout (ev : event)
  | CsvWrite (path : string).

(** The state the script acts on: what it has done so far, the files
    with their content, and the directories that exist. *)
Record world := mkWorld {
  trace : list effect;
  files : gmap string DataFrame;
  dirs : gset string
}.

Inductive outcome (A : Type) :=
  | Ok (a : A)
  | Raise (e : exn).
Arguments Ok {A} _.
Arguments Raise {A} _.

Global Instance outcome_ret : MRet outcome := @Ok.
Global Instance outcome_bind : MBind outcome := λ A B f o,
  match o with Ok a => f a | Raise e => Raise e end.
Global Instance outcome_fmap : FMap outcome := λ A B f o,
  match o with Ok a => Ok (f a) | Raise e => Raise e end.

(** A computation either returns or raises, and leaves a world behind. *)
Definition py (A : Type) : Type := world → outcome A * world.

Global Instance py_ret : MRet py := λ A a w, (Ok a, w).
Global Instance py_bind : MBind py := λ A B f m w,
  match m w with
  | (Ok a, w') => f a w'
  | (Raise e, w') => (Raise e, w')
  end.

Definition raise {A} (e : exn) : py A := λ w, (Raise e, w).

Definition lift {A} (o : outcome A) : py A := λ w, (o, w).

(** [None] raises [e]. *)
Definition or_raise {A} (e : exn) (o : option A) : outcome A :=
  match o with Some a => Ok a | None => Raise e end.

Definition print (ev : event) : py unit :=
  λ w, (Ok (), mkWorld (trace w ++ [Stdout ev]) (files w) (dirs w)).

(** Whether a [/] occurs in the string. *)
Fixpoint has_slash (s : string) : bool :=
  match s with
  | EmptyString => false
  | String _ s' => String.prefix "/" s || has_slash s'
  end.

(** [os.path.dirname]: what precedes the last [/]; empty for a file name
    without a directory part. *)
Fixpoint dirname (s : string) : string :=
  match s with
  | EmptyString => EmptyString
  | String c s' => if has_slash s' then String c (dirname s') else EmptyString
  end.

(** Whether a file can be created at [path]: its directory part is empty
    (the file goes to the working directory) or names a directory that
    exists. *)
Definition can_create (w : world) (path : string) : bool :=
  bool_decide (dirname path = EmptyString) || bool_decide (dirname path ∈ dirs w).

(** [df.to_csv(path)]: creates the file or replaces its content; when the
    directory of [path] does not exist it raises [OSError] (its subclass
    [FileNotFoundError]) and writes nothing. *)
Definition to_csv (df : DataFrame) (path : string) : py unit :=
  λ w, if can_create w path
       then (Ok (), mkWorld (trace w ++ [CsvWrite path])
                            (<[path := df]> (files w)) (dirs w))
       else (Raise OSError, w).

(** [for x in xs: ...] collecting one value per iteration. *)
Fixpoint for_each {A B} (xs : list A) (body : A → py B) : py (list B) :=
  match xs with
  | [] => mret []
  | x :: xs' => b ← body x; bs ← for_each xs' body; mret (b :: bs)
  end.

(** ** Python lists, dicts and strings *)

(** [l.index(x)]: the first position of [x]; [None] is the [ValueError]
    Python raises when [x] is not in the list. *)
Fixpoint list_index (l : list string) (x : string) : option nat :=
  match l with
  | [] => None
  | y :: l' => if String.eqb y x then Some 0%nat else S <$> list_index l' x
  end.

(** A dict as its items in insertion order. *)
Definition dict (V : Type) := list (string * V).

Definition keys {V} (d : dict V) : list string := map fst d.

(** [d[k]]; [None] is the [KeyError]. *)
Fixpoint getitem {V} (d : dict V) (k : string) : option V :=
  match d with
  | [] => None
  | (k', v) :: d' => if String.eqb k' k then Some v else getitem d' k
  end.

(** [sorted] on strings: ascending in the code-point order of [str]. *)
Fixpoint sorted_insert (x : string) (l : list string) : list string :=
  match l with
  | [] => [x]
  | y :: l' => if String.leb x y then x :: l else y :: sorted_insert x l'
  end.

Definition sorted (l : list string) : list string := foldr sorted_insert [] l.

(** [str.upper] on the ASCII letters. *)
Definition upper_ascii (c : Ascii.ascii) : Ascii.ascii :=
  let n := Ascii.nat_of_ascii c in
  if (97 <=? n)%nat && (n <=? 122)%nat then Ascii.ascii_of_nat (n - 32) else c.

Fixpoint upper (s : string) : string :=
  match s with
  | EmptyString => EmptyString
  | String c s' => String (upper_ascii c) (upper s')
  end.

(** ** numpy helpers of the loader and the selector *)

(** [numpy.array(rows)] read as a 2-D array. [None] stands for a result
    that is not two-dimensional: an empty row list gives shape [(0,)], and
    rows of unequal lengths give a 1-D array of objects. *)
Definition np_array {A} (rows : list (list A)) : option (ndarray A) :=
  match rows with
  | [] => None
  | r :: _ =>
    if forallb (λ r', length r' =? length r)%nat rows
    then Some (NDArray (length r) rows) else None
  end.

(** [a[:, :n]] and [a[:, n:]]. *)
Definition cols_to {A} (n : nat) (a : ndarray A) : ndarray A :=
  NDArray (shape1 a `min` n) (map (take n) (nd_rows a)).

Definition cols_from {A} (n : nat) (a : ndarray A) : ndarray A :=
  NDArray (shape1 a - n) (map (drop n) (nd_rows a)).

(** [numpy.hstack([a, b])]; the row counts must agree ([ValueError]). *)
Definition hstack {A} (a b : ndarray A) : outcome (ndarray A) :=
  if (shape0 a =? shape0 b)%nat
  then Ok (NDArray (shape1 a + shape1 b) (zip_with app (nd_rows a) (nd_rows b)))
  else Raise ValueError.

(** How numpy reads an index [k] on an axis of size [n]: a negative index
    counts from the end; [None] is the [IndexError] for [k] outside
    [-n .. n-1]. *)
Definition wrap_index (n : nat) (k : Z) : option nat :=
  if (k <? 0)%Z
  then (if (- Z.of_nat n <=? k)%Z then Some (Z.to_nat (Z.of_nat n + k)) else None)
  else (if (k <? Z.of_nat n)%Z then Some (Z.to_nat k) else None).

(** [a[:, numpy.array(idx)]]: a fresh array with the columns listed in
    [idx]. An empty [idx] makes a float64 index array, which numpy refuses
    with [IndexError], as it does an index out of bounds. *)
Definition take_columns (a : ndarray float) (idx : list Z) : outcome (ndarray float) :=
  match idx with
  | [] => Raise IndexError
  | _ =>
    match mapM (wrap_index (shape1 a)) idx with
    | None => Raise IndexError
    | Some js =>
      Ok (NDArray (length js) (map (λ r, map (λ j, default nan (r !! j)) js) (nd_rows a)))
    end
  end.

(** [numpy.delete(a, i, axis=1)]. *)
Definition delete_column (a : ndarray float) (i : nat) : ndarray float :=
  NDArray (shape1 a - 1) (map (delete i) (nd_rows a)).

(** ** pandas *)

(** [pandas.DataFrame(data, columns=columns, index=index)]; the labels
    must match the shape of [data] ([ValueError]). *)
Definition new_DataFrame (data : list (list float)) (columns index : list string)
  : outcome DataFrame :=
  if (length data =? length index)%nat
     && forallb (λ r, length r =? length columns)%nat data
  then Ok (mkDataFrame index columns data)
  else Raise ValueError.

(** [df.T]. *)
Definition transpose (df : DataFrame) : DataFrame :=
  mkDataFrame (df_columns df) (df_index df)
    (map (λ j, map (λ r, default nan (r !! j)) (df_values df))
         (seq 0 (length (df_columns df)))).

(** The cell in row [r] and column [c], by position. *)
Definition df_cell (df : DataFrame) (r c : nat) : option float :=
  df_values df !! r ≫= (.!! c).

(** ** The model and pipeline catalog (lines 36-152) *)

(** [range(start, stop, step)] for a positive [step]. *)
Definition py_range (start stop step : Z) : list Z :=
  map (λ k, (start + step * Z.of_nat k)%Z)
      (seq 0 (Z.to_nat ((stop - start + step - 1) / step))).

Definition score_funcs : list param_value :=
  [PFunc f_regression; PFunc mutual_info_regression].

Definition percentiles_11 : list param_value :=
  [PInt 5; PInt 15; PInt 25; PInt 35; PInt 45; PInt 55; PInt 65; PInt 75;
   PInt 85; PInt 95; PInt 100].

Definition alphas : list param_value :=
  [PFloat 5e-05; PFloat 0.0001; PFloat 0.0005; PFloat 0.001; PFloat 0.005;
   PFloat 0.01; PFloat 0.05; PFloat 0.1; PFloat 0.5; PInt 1; PInt 5; PInt 10;
   PInt 50; PInt 100; PInt 200].

Definition l1_ratios : list param_value :=
  [PFloat 0.1; PFloat 0.2; PFloat 0.3; PFloat 0.4; PFloat 0.5; PFloat 0.6;
   PFloat 0.7; PFloat 0.8; PFloat 0.9; PFloat 1].

Definition intercepts : list param_value := [PBool true; PBool false].

Definition precisions : list param_value := [PFloat 1e-7; PFloat 1e-6; PFloat 1e-5].

Definition get_models_and_parameters (random_state : Z)
  : dict regressor * dict param_grid :=
  let models := [
    ("elastic", ElasticNet 5000 random_state);
    ("lasso", Lasso 5000 random_state);
    ("ridge", Ridge 5000 random_state);
    ("bayes_ridge", BayesianRidge 2000);
    ("lars", Lars random_state)
  ] in
  let parameters := [
    ("elastic", [
      ("selector__score_func", score_funcs);
      ("selector__percentile", percentiles_11);
      ("model__alpha", alphas);
      ("model__l1_ratio", l1_ratios);
      ("model__fit_intercept", intercepts)]);
    ("lasso", [
      ("selector__score_func", score_funcs);
      ("selector__percentile", [PInt 10; PInt 50; PInt 100]);
      ("model__alpha", alphas);
      ("model__fit_intercept", intercepts)]);
    ("ridge", [
      ("selector__score_func", score_funcs);
      ("selector__percentile", percentiles_11);
      ("model__alpha", alphas);
      ("model__fit_intercept", intercepts)]);
    ("bayes_ridge", [
      ("selector__score_func", score_funcs);
      ("selector__percentile", percentiles_11);
      ("model__alpha_1", precisions);
      ("model__alpha_2", precisions);
      ("model__lambda_1", precisions);
      ("model__lambda_2", precisions);
      ("model__fit_intercept", intercepts)]);
    ("lars", [
      ("selector__score_func", score_funcs);
      ("selector__percentile", percentiles_11);
      ("model__fit_intercept", intercepts)])
  ] in
  (models, parameters).

Definition get_elastic_pipelines (random_state : Z)
  : dict Pipeline * dict param_grid :=
  let model := ElasticNet 5000 random_state in
  let pipelines := [
    ("min_max_perc", [("scaler", Scaler MinMaxScaler); ("selector", Selector SelectPercentile); ("model", Model model)]);
    ("standard_perc", [("scaler", Scaler StandardScaler); ("selector", Selector SelectPercentile); ("model", Model model)]);
    ("robust_perc", [("scaler", Scaler RobustScaler); ("selector", Selector SelectPercentile); ("model", Model model)]);
    ("min_max_kbest", [("scaler", Scaler MinMaxScaler); ("selector", Selector SelectKBest); ("model", Model model)]);
    ("standard_kbest", [("scaler", Scaler StandardScaler); ("selector", Selector SelectKBest); ("model", Model model)]);
    ("robust_kbest", [("scaler", Scaler RobustScaler); ("selector", Selector SelectKBest); ("model", Model model)]);
    ("min_max", [("scaler", Scaler MinMaxScaler); ("model", Model model)]);
    ("standard", [("scaler", Scaler StandardScaler); ("model", Model model)]);
    ("robust", [("scaler", Scaler RobustScaler); ("model", Model model)])
  ] in
  let parameters_perc := [
    ("selector__score_func", score_funcs);
    ("selector__percentile", percentiles_11);
    ("model__alpha", alphas);
    ("model__l1_ratio", l1_ratios);
    ("model__fit_intercept", intercepts)] in
  let parameters_kbest := [
    ("selector__score_func", score_funcs);
    ("selector__k", map PInt (py_range 1 37 3));
    ("model__alpha", alphas);
    ("model__l1_ratio", l1_ratios);
    ("model__fit_intercept", intercepts)] in
  let parameters_no := [
    ("model__alpha", alphas);
    ("model__l1_ratio", l1_ratios);
    ("model__fit_intercept", intercepts)] in
  let parameters := [
    ("min_max_perc", parameters_perc);
    ("standard_perc", parameters_perc);
    ("robust_perc", parameters_perc);
    ("min_max_kbest", parameters_kbest);
    ("standard_kbest", parameters_kbest);
    ("robust_kbest", parameters_kbest);
    ("min_max", parameters_no);
    ("standard", parameters_no);
    ("robust", parameters_no)
  ] in
  (pipelines, parameters).

(** ** What the script is given from outside *)

(** The database layer ([src.db_connector]), the declared signal features
    ([src.constants]) and scikit-learn. A call into scikit-learn returns a
    value or raises. *)
Record Externals := mkExternals {
  (** a connection object, and a value stored in a table *)
  conn : Type;
  cell : Type;
  (** [db_connector.create_connection(path)], [None] as in Python *)
  create_connection : string → option conn;
  (** [db_connector.fetch_table(conn, name)]: the rows and the column names *)
  fetch_table : conn → string → list (list cell) * list string;
  (** the cast of one value by [.astype(numpy.float)]; [None] is its [ValueError] *)
  astype_float : cell → option float;
  (** [src.constants.signal_features_names] *)
  signal_features_names : list string;
  (** [train_test_split(X, y, test_size=.., random_state=..)] *)
  train_test_split : ndarray float → list float → float → Z →
    outcome (ndarray float * ndarray float * list float * list float);
  (** a fitted [GridSearchCV] *)
  fitted : Type;
  (** [GridSearchCV(pipeline, grid, scoring=.., cv=.., n_jobs=..).fit(X, y)] *)
  grid_search_fit : Pipeline → param_grid → string → Z → Z →
    ndarray float → list float → outcome fitted;
  best_score_ : fitted → float;
  best_params_ : fitted → list (string * param_value);
  (** [grid.predict(X)] *)
  predict : fitted → ndarray float → outcome (list float);
  (** [r2_score(y_true, y_pred)] *)
  r2_score : list float → list float → outcome float
}.

(** ** The script *)

Section Script.
Context (E : Externals).

(** [db_connector.fetch_table] as an effect: the read is recorded. *)
Definition fetch (c : conn E) (name : string)
  : py (list (list (cell E)) * list string) :=
  λ w, (Ok (fetch_table E c name),
        mkWorld (trace w ++ [DbRead name]) (files w) (dirs w)).

(** [a.astype(numpy.float)]: every entry is cast, the first failure raises. *)
Definition astype (a : ndarray (cell E)) : outcome (ndarray float) :=
  or_raise ValueError
    (NDArray (shape1 a) <$> mapM (mapM (astype_float E)) (nd_rows a)).

(** Two-index slicing [a[:, ...]] needs a 2-D array ([IndexError]). *)
Definition two_dim {A} (a : option (ndarray A)) : outcome (ndarray A) :=
  or_raise IndexError a.

(** Lines 15-33. *)
Definition get_features_data (path : string)
  : py (ndarray (cell E) * ndarray float * list string) :=
  match create_connection E path with
  | None => raise ValueError
  | Some c =>
    '(database_1, colnames_1) ← fetch c "qc_features_1";
    '(database_2, colnames_2) ← fetch c "qc_features_2";
    let features_1 := np_array database_1 in
    let features_2 := np_array database_2 in
    meta ← lift (cols_to 4 <$> two_dim features_1);
    numeric_1 ← lift (a ← two_dim features_1; astype (cols_from 4 a));
    numeric_2 ← lift (a ← two_dim features_2; astype (cols_from 4 a));
    features ← lift (hstack numeric_1 numeric_2);
    let colnames := colnames_1 ++ drop 4 colnames_2 in
    mret (meta, features, colnames)
  end.

Definition RANDOM_STATE : Z := 2401.

Definition qc_features_database_path : string :=
  "/Users/andreidm/ETH/projects/monitoring_system/res/nas2/qc_features_database.sqlite".

(** [features_names.index(feature) - 4]. *)
Definition feature_offset (features_names : list string) (feature : string)
  : outcome Z :=
  i ← or_raise ValueError (list_index features_names feature);
  Ok (Z.of_nat i - 4)%Z.

(** Lines 162-163 and 218-219: the list comprehension, then the fancy
    indexing. *)
Definition select_signal_features (features : ndarray float)
    (features_names : list string) : outcome (ndarray float) :=
  signal_features_indices ←
    mapM (feature_offset features_names) (signal_features_names E);
  take_columns features signal_features_indices.

(** [round(-grid.best_score_ / numpy.median(y) * 100, 1)]. *)
Definition relative_error (grid : fitted E) (y : list float) : float :=
  round (- best_score_ E grid / median y * 100) 1.

(** Lines 155-208. *)
Definition run_different_models (save_to : string) : py unit :=
  '(features_meta, features, features_names) ←
    get_features_data qc_features_database_path;
  signal_features ← lift (select_signal_features features features_names);
  let signal_features := impute signal_features in
  let '(models, parameters) := get_models_and_parameters RANDOM_STATE in
  let models_names := sorted (keys models) in
  results ← for_each (seq 0 (shape1 signal_features)) (λ i,
    let X := delete_column signal_features i in
    let y := column signal_features i in
    '(X_train, X_test, y_train, y_test) ←
      lift (train_test_split E X y 0.3 RANDOM_STATE);
    for_each models_names (λ name,
      model ← lift (or_raise KeyError (getitem models name));
      let pipeline := [("scaler", Scaler MinMaxScaler);
                       ("selector", Selector SelectPercentile);
                       ("model", Model model)] in
      feature ← lift (or_raise IndexError (signal_features_names E !! i));
      print (PrintFitting (upper name) feature);;
      grid_parameters ← lift (or_raise KeyError (getitem parameters name));
      grid ← lift (grid_search_fit E pipeline grid_parameters
                     "neg_median_absolute_error" 3 (-1) X_train y_train);
      let relative_error_percent := relative_error grid y in
      print (PrintBestScore (best_score_ E grid));;
      print (PrintMedian (median y));;
      print (PrintRelativeError relative_error_percent);;
      print (PrintParameters (best_params_ E grid));;
      print PrintElapsed;;
      mret relative_error_percent));
  results ← lift (new_DataFrame results models_names (signal_features_names E));
  to_csv (transpose results) (save_to +:+ "grid_search_results.csv").

(** Lines 211-262. *)
Definition run_different_pipelines (save_to : string) : py unit :=
  '(features_meta, features, features_names) ←
    get_features_data qc_features_database_path;
  signal_features ← lift (select_signal_features features features_names);
  let signal_features := impute signal_features in
  let '(pipelines, parameters) := get_elastic_pipelines RANDOM_STATE in
  let pipe_names := sorted (keys pipelines) in
  results ← for_each (seq 0 (shape1 signal_features)) (λ i,
    let X := delete_column signal_features i in
    let y := column signal_features i in
    '(X_train, X_test, y_train, y_test) ←
      lift (train_test_split E X y 0.3 RANDOM_STATE);
    for_each pipe_names (λ name,
      feature ← lift (or_raise IndexError (signal_features_names E !! i));
      print (PrintFitting (upper name) feature);;
      pipeline ← lift (or_raise KeyError (getitem pipelines name));
      grid_parameters ← lift (or_raise KeyError (getitem parameters name));
      grid ← lift (grid_search_fit E pipeline grid_parameters
                     "neg_median_absolute_error" 3 (-1) X_train y_train);
      let relative_error_percent := relative_error grid y in
      y_pred ← lift (predict E grid X_test);
      r2 ← lift (r2_score E y_test y_pred);
      print (PrintBestScore (best_score_ E grid));;
      print (PrintMedian (median y));;
      print (PrintRelativeError relative_error_percent);;
      print (PrintR2 r2);;
      print (PrintParameters (best_params_ E grid));;
      print PrintElapsed;;
      mret relative_error_percent));
  results ← lift (new_DataFrame results pipe_names (signal_features_names E));
  to_csv (transpose results) (save_to +:+ "grid_search_pipelines_results.csv").

End Script.

(** ** Small stores to run the script on *)

Module Fixture.

Definition table : Type := list (list float) * list string.

Definition table_1 : table :=
  ([[0; 0; 0; 0; 4; -1];
    [1; 0; 0; 0; -1; -1];
    [2; 0; 0; 0; 8; 6]],
   ["id"; "date"; "quality"; "batch"; "a"; "b"]).

Definition table_2 : table :=
  ([[0; 0; 0; 0; 10];
    [1; 0; 0; 0; 20];
    [2; 0; 0; 0; 40]],
   ["id"; "date"; "quality"; "batch"; "c"]).

Definition float_of_nat (n : nat) : float := Nat.iter n (λ x, x + 1) 0.

(** A store with the two given tables and stand-ins for scikit-learn: the
    split hands back the data as both parts, the best score is minus an
    eighth of one plus the number of grid entries, every R² is 0.75. *)
Definition store_with (connect : string → option ()) (t1 t2 : table)
    (declared : list string) : Externals := {|
  conn := unit;
  cell := float;
  create_connection := connect;
  fetch_table := λ _ name, if String.eqb name "qc_features_1" then t1 else t2;
  astype_float := Some;
  signal_features_names := declared;
  train_test_split := λ X y _ _, Ok (X, X, y, y);
  fitted := nat;
  grid_search_fit := λ _ grid _ _ _ _ _, Ok (length grid);
  best_score_ := λ g, - (float_of_nat (S g) / 8);
  best_params_ := λ _, [];
  predict := λ _ _, Ok [];
  r2_score := λ _ _, Ok 0.75
|}.

Definition store : Externals :=
  store_with (λ _, Some ()) table_1 table_2 ["a"; "c"].

(** No connection can be opened. *)
Definition offline : Externals :=
  store_with (λ _, None) table_1 table_2 ["a"; "c"].

(** Both tables exist and have no rows. *)
Definition no_rows : Externals :=
  store_with (λ _, Some ()) ([], snd table_1) ([], snd table_2) ["a"; "c"].

(** One numeric column in all, and a metadata column declared as a signal
    feature. *)
Definition narrow : Externals :=
  store_with (λ _, Some ())
    ([[0; 0; 0; 0; 4]; [1; 0; 0; 0; 5]], ["id"; "date"; "quality"; "batch"; "a"])
    ([[0; 0; 0; 0]; [1; 0; 0; 0]], ["id"; "date"; "quality"; "batch"])
    ["id"].


(** Nothing done yet, no file, and one directory, [out]. *)
Definition empty_world : world := mkWorld [] ∅ {["out"]}.

(** The signal features of [store] once imputed, and the world once both
    tables have been read. *)
Definition prepared : ndarray float := NDArray 2 [[4; 10]; [4; 20]; [8; 40]].

Definition loaded : world :=
  mkWorld [DbRead "qc_features_1"; DbRead "qc_features_2"] ∅ {["out"]}.

End Fixture.


(** * Properties *)

(** ** The sentinel test *)

(** [-1.0] has a single float64 encoding: a value that compares equal to
    it is it. *)
Lemma eqb_sentinel_eq (x : float) : (x =? sentinel) = true → x = sentinel.
Proof.
  intros H. apply Prim2SF_inj.
  rewrite FloatAxioms.eqb_spec in H.
  change (Prim2SF sentinel) with (S754_finite true 4503599627370496 (-52)) in *.
  unfold SFeqb, SFcompare in H.
  destruct (Prim2SF x) as [s| s| |s m e]; try destruct s; try discriminate.
  destruct (e ?= -52)%Z eqn:He; try discriminate.
  destruct (Pos.compare_cont Eq m 4503599627370496) eqn:Hm; try discriminate.
  apply Z.compare_eq in He. apply Pos.compare_eq in Hm. by subst.
Qed.

Lemma nan_not_sentinel : (nan =? sentinel) = false.
Proof. reflexivity. Qed.

(** What the imputer does to one entry of a column whose median is [m]. *)
Definition fill (m x : float) : float := if x =? sentinel then m else x.

Lemma fill_sentinel (x : float) : fill sentinel x = x.
Proof.
  unfold fill. destruct (x =? sentinel) eqn:H; [|done].
  symmetry. by apply eqb_sentinel_eq.
Qed.

(** ** The imputer *)

Section Imputer.
Implicit Types (a b : ndarray float) (r : list float) (i j k n : nat).

(** The rows [numpy.where] finds are altered, the others kept. *)
Lemma fold_alter_where (f : list float → list float) (g : list float → float)
    (v : float) (pre rows : list (list float)) :
  fold_left (λ rs k, alter f k rs) (where_eq_from (length pre) (map g rows) v)
            (pre ++ rows)
  = pre ++ map (λ r, if g r =? v then f r else r) rows.
Proof.
  revert pre. induction rows as [|r rows IH]; intros pre; [done|].
  cbn [map where_eq_from].
  destruct (g r =? v).
  - cbn [fold_left].
    replace (alter f (length pre) (pre ++ r :: rows))
      with ((pre ++ [f r]) ++ rows).
    + specialize (IH (pre ++ [f r])).
      rewrite length_app, Nat.add_1_r in IH.
      rewrite IH. by rewrite <- app_assoc.
    + rewrite <- app_assoc. symmetry.
      rewrite alter_app_r_alt by lia. by rewrite Nat.sub_diag.
  - specialize (IH (pre ++ [r])).
    rewrite length_app, Nat.add_1_r, <- !app_assoc in IH. apply IH.
Qed.

(** One pass of the loop body over one row. *)
Definition impute_entry (i : nat) (m : float) (r : list float) : list float :=
  if default nan (r !! i) =? sentinel then <[i := m]> r else r.

Lemma impute_column_rows a i :
  nd_rows (impute_column a i)
  = map (impute_entry i (median (column a i))) (nd_rows a).
Proof.
  unfold impute_column, setitem, where_eq, column. cbn [nd_rows].
  apply (fold_alter_where _ (λ r, default nan (r !! i)) sentinel []).
Qed.

Lemma impute_column_shape1 a i : shape1 (impute_column a i) = shape1 a.
Proof. done. Qed.

Lemma fold_impute_shape1 (l : list nat) a :
  shape1 (fold_left impute_column l a) = shape1 a.
Proof. revert a. induction l as [|i l IH]; intros a; [done|]. cbn. by rewrite IH. Qed.

(** A row after the first [n] columns have been processed. *)
Definition imputed_row a n r : list float :=
  imap (λ j x, if (j <? n)%nat && (x =? sentinel)
               then median (column a j) else x) r.

Lemma imputed_row_step a a' n r :
  column a' n = column a n →
  impute_entry n (median (column a' n)) (imputed_row a n r) = imputed_row a (S n) r.
Proof.
  intros ->. unfold impute_entry, imputed_row.
  rewrite list_lookup_imap, Nat.ltb_irrefl. cbn [andb].
  apply list_eq; intros j.
  destruct (r !! n) as [x|] eqn:Hn; cbn [fmap option_fmap option_map default id].
  - destruct (x =? sentinel) eqn:Hx.
    + destruct (decide (n = j)) as [<-|Hne].
      * rewrite list_lookup_insert_eq
          by (rewrite length_imap; by eapply lookup_lt_Some).
        rewrite list_lookup_imap, Hn. cbn [fmap option_fmap option_map default id].
        rewrite Hx. by rewrite (proj2 (Nat.ltb_lt n (S n))) by lia.
      * rewrite list_lookup_insert_ne by done.
        rewrite !list_lookup_imap. destruct (r !! j) as [y|]; [|done]. cbn [fmap option_fmap option_map default id].
        f_equal. destruct (decide (j < n)) as [Hlt|Hge].
        -- by rewrite !(proj2 (Nat.ltb_lt _ _)) by lia.
        -- by rewrite !(proj2 (Nat.ltb_ge _ _)) by lia.
    + rewrite !list_lookup_imap. destruct (r !! j) as [y|] eqn:Hj; [|done]. cbn [fmap option_fmap option_map default id].
      f_equal. destruct (decide (j < n)) as [Hlt|Hge].
      * by rewrite !(proj2 (Nat.ltb_lt _ _)) by lia.
      * destruct (decide (j = n)) as [->|Hne].
        -- simplify_eq. rewrite Hx. by rewrite !andb_false_r.
        -- by rewrite !(proj2 (Nat.ltb_ge _ _)) by lia.
  - rewrite nan_not_sentinel.
    rewrite !list_lookup_imap. destruct (r !! j) as [y|] eqn:Hj; [|done]. cbn [fmap option_fmap option_map default id].
    f_equal. destruct (decide (j < n)) as [Hlt|Hge].
    + by rewrite !(proj2 (Nat.ltb_lt _ _)) by lia.
    + destruct (decide (j = n)) as [->|Hne]; [congruence|].
      by rewrite !(proj2 (Nat.ltb_ge _ _)) by lia.
Qed.

(** Column [n] is as in the input until the loop reaches it. *)
Lemma column_imputed_row_ge a n j (rows : list (list float)) :
  n ≤ j →
  map (λ r, default nan (r !! j)) (map (imputed_row a n) rows)
  = map (λ r, default nan (r !! j)) rows.
Proof.
  intros Hle. rewrite map_map. apply map_ext; intros r.
  unfold imputed_row. rewrite list_lookup_imap.
  destruct (r !! j) as [x|]; [|done]. cbn [fmap option_fmap option_map default id].
  by rewrite (proj2 (Nat.ltb_ge _ _)) by lia.
Qed.

Lemma fold_impute_rows a n :
  nd_rows (fold_left impute_column (seq 0 n) a)
  = map (imputed_row a n) (nd_rows a).
Proof.
  induction n as [|n IH].
  - cbn. rewrite <- (map_id (nd_rows a)) at 1. apply map_ext; intros r.
    unfold imputed_row. apply list_eq; intros j.
    rewrite list_lookup_imap. by destruct (r !! j).
  - rewrite seq_S, fold_left_app. cbn [fold_left Nat.add].
    rewrite impute_column_rows, IH, map_map.
    apply map_ext; intros r. apply imputed_row_step.
    unfold column. rewrite IH. by apply column_imputed_row_ge.
Qed.

(** The whole pass, row by row. *)
Lemma impute_rows a :
  nd_rows (impute a) = map (imputed_row a (shape1 a)) (nd_rows a).
Proof. apply fold_impute_rows. Qed.

Lemma impute_shape1 a : shape1 (impute a) = shape1 a.
Proof. apply fold_impute_shape1. Qed.

Lemma impute_shape0 a : shape0 (impute a) = shape0 a.
Proof. unfold shape0. by rewrite impute_rows, length_map. Qed.

(** The whole pass, column by column. *)
Lemma impute_column_spec a i :
  i < shape1 a →
  column (impute a) i = map (fill (median (column a i))) (column a i).
Proof.
  intros Hi. unfold column. rewrite impute_rows, !map_map.
  apply map_ext; intros r. unfold imputed_row, fill.
  rewrite list_lookup_imap. destruct (r !! i) as [x|]; cbn [fmap option_fmap option_map default id].
  - by rewrite (proj2 (Nat.ltb_lt _ _)) by lia.
  - by rewrite nan_not_sentinel.
Qed.

End Imputer.

Lemma ndarray_eq {A} (a b : ndarray A) :
  shape1 a = shape1 b → nd_rows a = nd_rows b → a = b.
Proof. destruct a, b. cbn. by intros -> ->. Qed.

(** No entry of the column compares equal to the sentinel. *)
Definition sentinel_free (c : list float) : Prop :=
  Forall (λ x, (x =? sentinel) = false) c.

Lemma sentinel_free_fill (m : float) (c : list float) :
  sentinel_free (map (fill m) c) ↔ (m =? sentinel) = false ∨ sentinel_free c.
Proof.
  unfold sentinel_free. rewrite Forall_map. split.
  - intros H. destruct (m =? sentinel) eqn:Hm; [right|by left].
    eapply Forall_impl; [exact H|]. intros x Hx. unfold fill in Hx. cbn in Hx.
    destruct (x =? sentinel); [congruence|done].
  - intros [Hm|Hc].
    + apply Forall_forall. intros x _. unfold fill. cbn.
      by destruct (x =? sentinel) eqn:Hx.
    + eapply Forall_impl; [exact Hc|]. intros x Hx. unfold fill. cbn in *.
      by rewrite Hx.
Qed.

(** A matrix whose only column is mostly missing. *)
Definition mostly_missing : ndarray float := NDArray 1 [[-1]; [-1]; [5]].

(** ** numpy.median: NaN, and columns of missing values *)

Section Median.
Implicit Types (a : ndarray float) (c : list float) (i : nat).

(** A NaN is below nothing. *)
Lemma nan_ltb_false (x y : float) : isnan x = true → (x <? y) = false.
Proof.
  unfold isnan. rewrite negb_true_iff, FloatAxioms.eqb_spec, ltb_spec.
  unfold SFeqb, SFltb, SFcompare.
  destruct (Prim2SF x) as [s| s| |s m e]; try done.
  - by destruct s.
  - destruct s; rewrite Z.compare_refl, Pos.compare_cont_refl; done.
Qed.

Lemma np_lt_nan_l (x y : float) : isnan x = true → np_lt x y = false.
Proof.
  intros Hx. unfold np_lt. rewrite (nan_ltb_false x y Hx), Hx.
  by rewrite andb_false_r.
Qed.

Lemma np_insert_Exists (P : float → Prop) (x : float) (l : list float) :
  Exists P (np_insert x l) ↔ P x ∨ Exists P l.
Proof.
  induction l as [|y l IH]; cbn.
  - rewrite Exists_cons, Exists_nil. tauto.
  - destruct (np_lt y x); rewrite !Exists_cons; [rewrite IH|]; tauto.
Qed.

Lemma np_sort_Exists (P : float → Prop) (l : list float) :
  Exists P (np_sort l) ↔ Exists P l.
Proof.
  induction l as [|x l IH]; [done|]. cbn.
  by rewrite np_insert_Exists, Exists_cons, IH.
Qed.

Lemma np_insert_not_nil (x : float) (l : list float) : np_insert x l ≠ [].
Proof. destruct l as [|y l]; cbn; [done|]. by destruct (np_lt y x). Qed.

(** Sorting keeps the NaNs at the end. *)
Definition nan_last (l : list float) : Prop :=
  Exists (λ x, isnan x = true) l → isnan (List.last l nan) = true.

Lemma nan_last_tail (y : float) (l : list float) :
  nan_last (y :: l) → nan_last l.
Proof.
  intros H Hex. destruct l as [|z l]; [by apply Exists_nil in Hex|].
  apply (H (Exists_cons_tl _ Hex)).
Qed.

Lemma np_insert_nan_last (x : float) (l : list float) :
  nan_last l → nan_last (np_insert x l).
Proof.
  induction l as [|y l IH]; intros Hl.
  - intros Hex. cbn in *. by apply Exists_cons in Hex as [?|?%Exists_nil].
  - cbn [np_insert]. destruct (np_lt y x) eqn:Hlt.
    + intros Hex.
      assert (List.last (y :: np_insert x l) nan
              = List.last (np_insert x l) nan) as ->.
      { pose proof (np_insert_not_nil x l).
        cbn. by destruct (np_insert x l). }
      apply IH; [by eapply nan_last_tail|].
      apply Exists_cons in Hex as [Hy|?]; [|done].
      by rewrite (np_lt_nan_l y x Hy) in Hlt.
    + intros Hex. change (List.last (x :: y :: l) nan)
        with (List.last (y :: l) nan).
      apply Hl. apply Exists_cons in Hex as [Hx|?]; [|done].
      apply Exists_cons_hd. unfold np_lt in Hlt.
      rewrite Hx in Hlt. cbn in Hlt.
      apply orb_false_iff in Hlt as [_ Hlt]. by apply negb_false_iff in Hlt.
Qed.

Lemma np_sort_nan_last (l : list float) : nan_last (np_sort l).
Proof.
  induction l as [|x l IH]; [by intros ?%Exists_nil|].
  cbn. by apply np_insert_nan_last.
Qed.

(** [numpy.median] of data with a NaN is NaN. *)
Lemma median_nan c : Exists (λ x, isnan x = true) c → median c = nan.
Proof.
  intros Hex. unfold median.
  destruct c as [|x c]; [done|]. cbn [length].
  by rewrite (np_sort_nan_last (x :: c)) by (by apply np_sort_Exists).
Qed.

Lemma np_sort_repeat_sentinel (n : nat) :
  np_sort (repeat sentinel n) = repeat sentinel n.
Proof.
  induction n as [|n IH]; [done|]. cbn [repeat np_sort foldr].
  fold (np_sort (repeat sentinel n)). rewrite IH.
  destruct n; [done|]. reflexivity.
Qed.

Lemma nth_repeat_lt {A} (x d : A) (n k : nat) : k < n → nth k (repeat x n) d = x.
Proof.
  revert k. induction n as [|n IH]; intros k Hk; [lia|].
  destruct k; [done|]. cbn. apply IH. lia.
Qed.

Lemma last_repeat {A} (x d : A) (n : nat) : List.last (repeat x (S n)) d = x.
Proof. induction n as [|n IH]; [done|]. exact IH. Qed.

(** The median of nothing but missing values is the missing-value marker. *)
Lemma median_repeat_sentinel (n : nat) : median (repeat sentinel (S n)) = sentinel.
Proof.
  unfold median, middle_mean.
  rewrite np_sort_repeat_sentinel, repeat_length, last_repeat.
  change (isnan sentinel) with false. cbv iota.
  assert (S n / 2 < S n) by (apply Nat.div_lt; lia).
  destruct (Nat.even (S n)); rewrite !nth_repeat_lt by lia; reflexivity.
Qed.

Lemma Forall_sentinel_repeat c :
  Forall (λ x, (x =? sentinel) = true) c → c = repeat sentinel (length c).
Proof.
  induction 1 as [|x c Hx _ IH]; [done|]. cbn.
  by rewrite (eqb_sentinel_eq x Hx), <- IH.
Qed.

End Median.

(** ** numpy.median: the middle of the sorted column *)

Section FloatOrder.
Local Open Scope Z_scope.

(** Where a float64 that is not NaN stands in the order: its class (the
    infinities outermost, the zeros in the middle), then its exponent and
    its mantissa, both counted downwards for a negative value. *)
Definition order_key (f : spec_float) : Z * Z * Z :=
  match f with
  | S754_zero _ | S754_nan => (0, 0, 0)
  | S754_infinity s => (if s then -2 else 2, 0, 0)
  | S754_finite s m e => if s then (-1, - e, - Z.pos m) else (1, e, Z.pos m)
  end.

Definition key_lt (k k' : Z * Z * Z) : Prop :=
  k.1.1 < k'.1.1
  ∨ (k.1.1 = k'.1.1 ∧ (k.1.2 < k'.1.2 ∨ (k.1.2 = k'.1.2 ∧ k.2 < k'.2))).

Lemma SFltb_key_lt (f g : spec_float) :
  f ≠ S754_nan → g ≠ S754_nan →
  SFltb f g = true ↔ key_lt (order_key f) (order_key g).
Proof.
  intros Hf Hg. unfold SFltb, SFcompare, key_lt.
  destruct f as [s| s| |s m e], g as [s'| s'| |s' m' e']; try done;
    try destruct s; try destruct s'; cbn; try (split; [done|lia]);
    try (split; [lia|done]); try (split; [intros _; lia|done]).
  all: destruct (Z.compare_spec e e') as [He|He|He]; cbn;
    try (split; [done|lia]); try (split; [intros _; lia|done]).
  all: change (PosDef.Pos.compare_cont Eq m m') with (Pos.compare m m');
    destruct (Pos.compare_spec m m') as [Hm|Hm|Hm]; cbn;
    try (split; [done|lia]); try (split; [intros _; lia|done]).
Qed.

End FloatOrder.

Section MedianSpec.
Implicit Types (c s : list float) (x y z m : float).

Lemma isnan_false_Prim2SF x : isnan x = false → Prim2SF x ≠ S754_nan.
Proof.
  unfold isnan. rewrite negb_false_iff, FloatAxioms.eqb_spec. intros H Hn.
  by rewrite Hn in H.
Qed.

Lemma ltb_key_lt x y :
  isnan x = false → isnan y = false →
  (x <? y) = true ↔ key_lt (order_key (Prim2SF x)) (order_key (Prim2SF y)).
Proof.
  intros Hx Hy. rewrite ltb_spec.
  apply SFltb_key_lt; by apply isnan_false_Prim2SF.
Qed.

(** [x] is not above [y], the way a sorted array has its entries. *)
Definition not_above x y : Prop := (y <? x) = false.

Lemma not_above_trans x y z :
  isnan x = false → isnan y = false → isnan z = false →
  not_above x y → not_above y z → not_above x z.
Proof.
  unfold not_above. intros Hx Hy Hz Hxy Hyz.
  apply not_true_iff_false. apply not_true_iff_false in Hxy, Hyz.
  rewrite ltb_key_lt in Hxy, Hyz |- * by done.
  unfold key_lt in *. lia.
Qed.

Lemma ltb_not_above x y :
  isnan x = false → isnan y = false → (x <? y) = true → not_above x y.
Proof.
  unfold not_above. intros Hx Hy Hxy. apply not_true_iff_false.
  rewrite ltb_key_lt in Hxy |- * by done. unfold key_lt in *. lia.
Qed.

Definition no_nan c : Prop := Forall (λ x, isnan x = false) c.

Lemma np_lt_ltb x y : isnan x = false → np_lt y x = (y <? x).
Proof. intros Hx. unfold np_lt. rewrite Hx. cbn. by rewrite orb_false_r. Qed.

Lemma np_insert_Permutation x c : np_insert x c ≡ₚ x :: c.
Proof.
  induction c as [|y c IH]; [done|]. cbn.
  destruct (np_lt y x); [|done]. by rewrite IH, Permutation_swap.
Qed.

Lemma np_sort_Permutation c : np_sort c ≡ₚ c.
Proof.
  induction c as [|x c IH]; [done|]. cbn.
  by rewrite np_insert_Permutation, IH.
Qed.

Lemma np_insert_sorted x s :
  isnan x = false → no_nan s →
  StronglySorted not_above s → StronglySorted not_above (np_insert x s).
Proof.
  intros Hx Hs Hsorted.
  induction Hsorted as [|y s Hsorted IH Hy]; [repeat constructor|].
  apply Forall_cons in Hs as [Hny Hs]. cbn.
  rewrite np_lt_ltb by done. destruct (y <? x) eqn:Hlt.
  - constructor; [by apply IH|].
    rewrite np_insert_Permutation. constructor; [|done].
    by apply ltb_not_above.
  - constructor; [by constructor|]. constructor; [done|].
    apply Forall_forall. intros z Hz.
    rewrite Forall_forall in Hy, Hs.
    apply (not_above_trans x y z); auto.
Qed.

Lemma np_sort_sorted c : no_nan c → StronglySorted not_above (np_sort c).
Proof.
  induction 1 as [|x c Hx Hc IH]; [constructor|]. cbn.
  apply np_insert_sorted; [done| |done].
  unfold no_nan. by rewrite np_sort_Permutation.
Qed.

Lemma last_elem_of {A} (l : list A) (d : A) : l ≠ [] → List.last l d ∈ l.
Proof.
  induction l as [|x l IH]; [done|]. intros _.
  destruct l as [|y l]; [by left|]. right. by apply IH.
Qed.

(** What [numpy.median] returns for the data [c], stated from the data
    alone: NaN when there are no data or a NaN among them; otherwise, with
    the data put in ascending order, the entry in the middle for an odd
    number [n] of data and the mean of the two entries in the middle for
    an even one, a mean being a sum started at [0.0] and divided by the
    number of entries summed. *)
Definition is_median c m : Prop :=
  (c = [] → m = nan)
  ∧ (Exists (λ x, isnan x = true) c → m = nan)
  ∧ (c ≠ [] → no_nan c →
     ∃ s, s ≡ₚ c ∧ StronglySorted not_above s
          ∧ let n := length c in
            m = if Nat.even n
                then (0 + nth (n / 2 - 1) s nan + nth (n / 2) s nan) / 2
                else (0 + nth (n / 2) s nan) / 1).

Lemma median_is_median c : is_median c (median c).
Proof.
  split; [by intros ->|]. split; [apply median_nan|].
  intros Hc Hnan. exists (np_sort c).
  split; [apply np_sort_Permutation|]. split; [by apply np_sort_sorted|].
  cbv zeta. rewrite <- (Permutation_length (np_sort_Permutation c)).
  unfold median. destruct c as [|x c]; [done|]. cbn [length].
  assert (isnan (List.last (np_sort (x :: c)) nan) = false) as ->; [|done].
  assert (np_sort (x :: c) ≠ []) as Hne.
  { intros Heq. pose proof (np_sort_Permutation (x :: c)) as Hp.
    rewrite Heq in Hp. by apply Permutation_nil_cons in Hp. }
  pose proof (last_elem_of _ nan Hne) as Hin.
  apply (elem_of_Permutation_proper _ _ _ (np_sort_Permutation (x :: c))) in Hin.
  unfold no_nan in Hnan. rewrite Forall_forall in Hnan. by apply Hnan.
Qed.

End MedianSpec.

(** A middle [-0.0] gives the median [0.0]. *)
Lemma median_signed_zero :
  median [-1; -0; 0] = 0 ∧ median [-0; -0] = 0 ∧ median [-0; -0; 3] = 0.
Proof. by vm_compute. Qed.

(** ** round on what is not a number *)

Section Round.
Implicit Types (x : float).

(** Neither infinite nor NaN. *)
Definition is_finite x : bool := abs x <? infinity.

Lemma not_finite_cases x :
  is_finite x = false → x = infinity ∨ x = neg_infinity ∨ x = nan.
Proof.
  unfold is_finite. rewrite ltb_spec, abs_spec.
  change (Prim2SF infinity) with (S754_infinity false).
  destruct (Prim2SF x) as [s|s| |s m e] eqn:Hx; cbn; try discriminate; intros _.
  - destruct s; [right; left|left]; by apply Prim2SF_inj.
  - right; right. by apply Prim2SF_inj.
Qed.

(** Ties go to the even digit, the sign is kept, and what has no
    fractional part is returned as it is. *)
Lemma round_examples :
  round 18.75 1 = 18.8 ∧ round 0.25 1 = 0.2 ∧ round 0.75 1 = 0.8
  ∧ round (-0.25) 1 = -0.2 ∧ round 12.34 1 = 12.3 ∧ round (-0.04) 1 = -0
  ∧ round 2.5 0 = 2 ∧ round 3.5 0 = 4 ∧ round 1250 (-2) = 1200
  ∧ round 0x1p60 1 = 0x1p60.
Proof. by vm_compute. Qed.

(** Rounding to one decimal place returns an infinite or NaN argument as
    it is. *)
Lemma round_not_finite x : is_finite x = false → round x 1 = x.
Proof. intros [->|[->| ->]]%not_finite_cases; reflexivity. Qed.

End Round.

(** ** Claims on the imputer *)

(** A matrix with missing entries in both columns. *)
Definition partly_missing : ndarray float :=
  NDArray 2 [[-1; 10]; [3; -1]; [5; 20]; [-1; 40]; [7; 30]].

(** C1. In every column [i] of the extracted matrix the imputer overwrites
    exactly the entries equal to -1, each with the median of column [i]
    taken over all its rows (the -1 entries included), and keeps every
    other entry. That median is numpy's: NaN if the column holds a NaN,
    and otherwise the mean of the middle of the column put in ascending
    order. The outcome for column [i] depends on column [i] of the input
    alone. *)
Theorem impute_overwrites_sentinels (a : ndarray float) (i : nat) :
  i < shape1 a →
  column (impute a) i
  = map (λ x, if x =? sentinel then median (column a i) else x) (column a i)
  ∧ is_median (column a i) (median (column a i))
  ∧ ∀ b : ndarray float,
      i < shape1 b → column b i = column a i →
      column (impute b) i = column (impute a) i.
Proof.
  intros Hi. split; [|split].
  - by apply impute_column_spec.
  - apply median_is_median.
  - intros b Hb Hab. rewrite !impute_column_spec by done. by rewrite Hab.
Qed.

Lemma impute_overwrites_sentinels_witness :
  column partly_missing 0 = [-1; 3; 5; -1; 7]
  ∧ median (column partly_missing 0) = 3
  ∧ median [-1; 4; 2; 8] = 3
  ∧ median [-1; -0; 0] = 0
  ∧ column (impute partly_missing) 0 = [3; 3; 5; 3; 7]
  ∧ column (impute partly_missing) 1 = [10; 20; 20; 40; 30]
  ∧ (column (impute partly_missing) 0
     = map (λ x, if x =? sentinel then median (column partly_missing 0) else x)
           (column partly_missing 0)
     ∧ is_median (column partly_missing 0) (median (column partly_missing 0))
     ∧ ∀ b : ndarray float,
         0 < shape1 b → column b 0 = column partly_missing 0 →
         column (impute b) 0 = column (impute partly_missing) 0).
Proof.
  split; [reflexivity|]. split; [reflexivity|]. split; [reflexivity|].
  split; [reflexivity|]. split; [reflexivity|]. split; [reflexivity|].
  apply (impute_overwrites_sentinels partly_missing 0). cbn. lia.
Defined.

(** C2, as stated, fails: when the median of a column is itself -1 (here
    two of three entries are missing) the missing entries are overwritten
    with -1 and stay. *)
Lemma sentinel_survives_imputation :
  0 < shape1 mostly_missing
  ∧ column (impute mostly_missing) 0 = [-1; -1; 5]
  ∧ ¬ sentinel_free (column (impute mostly_missing) 0).
Proof.
  split; [cbn; lia|]. split; [by vm_compute|].
  intros H. apply Forall_inv in H. vm_compute in H. discriminate.
Qed.

(** C2, amended. After the imputer has run on column [i], no entry equals
    -1 exactly when the median of the input column (taken with its -1
    entries) is not -1, or the input column had no -1 entry. *)
Theorem impute_sentinel_free (a : ndarray float) (i : nat) :
  i < shape1 a →
  sentinel_free (column (impute a) i)
  ↔ (median (column a i) =? sentinel) = false ∨ sentinel_free (column a i).
Proof.
  intros Hi. rewrite impute_column_spec by done. apply sentinel_free_fill.
Qed.

Lemma impute_sentinel_free_witness :
  sentinel_free (column (impute (NDArray 1 [[-1]; [3]; [5]])) 0)
  ↔ (median (column (NDArray 1 [[-1]; [3]; [5]]) 0) =? sentinel) = false
    ∨ sentinel_free (column (NDArray 1 [[-1]; [3]; [5]]) 0).
Proof. apply (impute_sentinel_free (NDArray 1 [[-1]; [3]; [5]]) 0). cbn. lia. Defined.

(** C7. Running the imputer on its own output changes nothing. *)
Theorem impute_idempotent (a : ndarray float) : impute (impute a) = impute a.
Proof.
  apply ndarray_eq; [by rewrite !impute_shape1|].
  rewrite (impute_rows (impute a)), impute_shape1, impute_rows, map_map.
  apply map_ext; intros r. apply list_eq; intros j.
  unfold imputed_row at 1. rewrite list_lookup_imap.
  destruct (imputed_row a (shape1 a) r !! j) as [y|] eqn:Hy; [|done].
  cbn [fmap option_fmap option_map]. f_equal.
  destruct (j <? shape1 a)%nat eqn:Hj; [|done].
  destruct (y =? sentinel) eqn:Hys; [|done]. cbn [andb].
  apply Nat.ltb_lt in Hj. apply eqb_sentinel_eq in Hys as ->.
  unfold imputed_row in Hy. rewrite list_lookup_imap in Hy.
  destruct (r !! j) as [x|]; [|done].
  cbn [fmap option_fmap option_map] in Hy. injection Hy as Hy.
  rewrite (proj2 (Nat.ltb_lt _ _)) in Hy by done. cbn [andb] in Hy.
  destruct (x =? sentinel) eqn:Hx.
  - rewrite impute_column_spec, Hy by done.
    rewrite (map_ext _ id) by apply fill_sentinel.
    by rewrite map_id.
  - subst x. by vm_compute in Hx.
Qed.

(** ** The data loader *)

Section Loader.
Context (E : Externals).
Implicit Types (w : world) (path : string).

Lemma np_array_rectangular {A} (rows : list (list A)) (n : nat) :
  rows ≠ [] → Forall (λ r, length r = n) rows →
  np_array rows = Some (NDArray n rows).
Proof.
  intros Hne Hall. destruct rows as [|r rows]; [done|].
  unfold np_array. pose proof (Forall_inv Hall) as Hr. cbn beta in Hr.
  rewrite Hr.
  replace (forallb (λ r', (length r' =? n)%nat) (r :: rows)) with true; [done|].
  symmetry. apply forallb_forall. intros r' Hin.
  apply Nat.eqb_eq. rewrite Forall_forall in Hall. apply Hall.
  by apply list_elem_of_In.
Qed.

(** Every entry of the array can be cast. *)
Definition castable (a : ndarray (cell E)) : Prop :=
  Forall (Forall (λ c, is_Some (astype_float E c))) (nd_rows a).

Lemma astype_castable (a : ndarray (cell E)) :
  castable a →
  ∃ rows, astype E a = Ok (NDArray (shape1 a) rows)
          ∧ Forall2 (λ r r', length r = length r') (nd_rows a) rows.
Proof.
  intros Hc. unfold astype.
  assert (is_Some (mapM (mapM (astype_float E)) (nd_rows a))) as [rows Hrows].
  { apply mapM_is_Some. eapply Forall_impl; [exact Hc|].
    intros r Hr. by apply mapM_is_Some. }
  exists rows. rewrite Hrows. split; [done|].
  apply mapM_Some in Hrows. eapply Forall2_impl; [exact Hrows|].
  intros r r' Hr. cbn in Hr. by apply length_mapM in Hr.
Qed.

(** The loader reads tables and does nothing else to the world. *)
Lemma get_features_data_quiet path w o w' :
  get_features_data E path w = (o, w') →
  files w' = files w ∧ ∃ tables, trace w' = trace w ++ map DbRead tables.
Proof.
  unfold get_features_data.
  destruct (create_connection E path) as [c|].
  - unfold mbind, py_bind, fetch, lift, mret, py_ret.
    destruct (fetch_table E c "qc_features_1") as [db1 cn1].
    destruct (fetch_table E c "qc_features_2") as [db2 cn2].
    intros H.
    assert (w' = mkWorld ((trace w ++ [DbRead "qc_features_1"])
                          ++ [DbRead "qc_features_2"]) (files w) (dirs w)) as ->
      by (repeat case_match; by simplify_eq).
    split; [done|]. exists ["qc_features_1"; "qc_features_2"].
    cbn. by rewrite <- app_assoc.
  - intros [= <- <-]. split; [done|]. exists []. cbn. by rewrite app_nil_r.
Qed.

Lemma get_features_data_dirs path w o w' :
  get_features_data E path w = (o, w') → dirs w' = dirs w.
Proof.
  unfold get_features_data.
  destruct (create_connection E path) as [c|].
  - unfold mbind, py_bind, fetch, lift, mret, py_ret.
    destruct (fetch_table E c "qc_features_1") as [db1 cn1].
    destruct (fetch_table E c "qc_features_2") as [db2 cn2].
    intros H. repeat case_match; by simplify_eq.
  - by intros [= <- <-].
Qed.

End Loader.

Section LoaderClaims.
Context (E : Externals).
Implicit Types (w : world) (path : string).

(** C5, as stated, fails: with no connection the loader raises
    [ValueError], which is not a [ConnectionError]. *)
Lemma no_connection_not_ConnectionError :
  create_connection Fixture.offline "metrics.sqlite" = None
  ∧ get_features_data Fixture.offline "metrics.sqlite" Fixture.empty_world
    = (Raise ValueError, Fixture.empty_world)
  ∧ isinstance ValueError ConnectionError = false.
Proof. by vm_compute. Qed.

(** C5, amended. When the connection attempt returns no connection the
    loader raises [ValueError] and the world is as before: no table has
    been fetched. *)
Theorem no_connection_raises path w :
  create_connection E path = None →
  get_features_data E path w = (Raise ValueError, w).
Proof. intros H. unfold get_features_data. by rewrite H. Qed.

(** C8, as stated, fails: two tables with equally many rows, namely none,
    make the loader raise [IndexError] at the first column slice. *)
Lemma no_rows_raises :
  length (fetch_table Fixture.no_rows () "qc_features_1").1
  = length (fetch_table Fixture.no_rows () "qc_features_2").1
  ∧ (get_features_data Fixture.no_rows "metrics.sqlite" Fixture.empty_world).1
    = Raise IndexError.
Proof. by vm_compute. Qed.

(** C8, amended. For two tables with the same non-zero number of rows, of
    [n1] and [n2] columns, at least four each, whose columns from the fifth
    on can be cast to float, the loader returns; the feature matrix has as
    many rows as either table and [(n1 - 4) + (n2 - 4)] columns, and the
    metadata matrix is the first four columns of table 1. *)
Theorem loader_shapes path (c : conn E) (db1 db2 : list (list (cell E)))
    (cn1 cn2 : list string) (n1 n2 : nat) w :
  create_connection E path = Some c →
  fetch_table E c "qc_features_1" = (db1, cn1) →
  fetch_table E c "qc_features_2" = (db2, cn2) →
  db1 ≠ [] → length db1 = length db2 →
  Forall (λ r, length r = n1) db1 → Forall (λ r, length r = n2) db2 →
  4 ≤ n1 → 4 ≤ n2 →
  castable E (cols_from 4 (NDArray n1 db1)) →
  castable E (cols_from 4 (NDArray n2 db2)) →
  ∃ features w',
    get_features_data E path w
    = (Ok (NDArray 4 (map (take 4) db1), features, cn1 ++ drop 4 cn2), w')
    ∧ shape0 features = length db1
    ∧ shape0 features = length db2
    ∧ (Z.of_nat (shape1 features) = (Z.of_nat n1 - 4) + (Z.of_nat n2 - 4))%Z
    ∧ rectangular features.
Proof.
  intros Hc Hf1 Hf2 Hne Hlen Hr1 Hr2 Hn1 Hn2 Hc1 Hc2.
  assert (db2 ≠ []) as Hne2 by (destruct db1, db2; done).
  destruct (astype_castable E _ Hc1) as (rows1 & Ha1 & Hl1).
  destruct (astype_castable E _ Hc2) as (rows2 & Ha2 & Hl2).
  cbn [cols_from nd_rows shape1] in *.
  unfold get_features_data. rewrite Hc.
  unfold mbind at 1, py_bind at 1, fetch at 1. rewrite Hf1.
  unfold mbind at 1, py_bind at 1, fetch at 1. rewrite Hf2.
  rewrite (np_array_rectangular db1 n1), (np_array_rectangular db2 n2) by done.
  unfold mbind at 1, py_bind at 1, lift at 1.
  cbn [two_dim or_raise fmap outcome_fmap cols_to shape1 nd_rows].
  unfold mbind at 1, py_bind at 1, lift at 1.
  cbn [two_dim or_raise mbind outcome_bind]. rewrite Ha1.
  unfold mbind at 1, py_bind at 1, lift at 1.
  cbn [two_dim or_raise mbind outcome_bind]. rewrite Ha2.
  pose proof (Forall2_length _ _ _ Hl1) as Hlen1.
  pose proof (Forall2_length _ _ _ Hl2) as Hlen2.
  rewrite length_map in Hlen1, Hlen2.
  unfold mbind at 1, py_bind at 1, lift at 1, hstack, shape0.
  cbn [nd_rows shape1].
  rewrite (proj2 (Nat.eqb_eq (length rows1) (length rows2))) by congruence.
  unfold cols_to. cbn [nd_rows shape1]. rewrite (Nat.min_r n1 4) by done.
  eexists _, _. split; [reflexivity|].
  cbn [nd_rows shape1]. rewrite length_zip_with.
  repeat split; try lia.
  unfold rectangular. cbn [nd_rows shape1].
  apply Forall_forall. intros r Hr.
  apply list_elem_of_lookup in Hr as [k Hk].
  apply lookup_zip_with_Some in Hk as (r1 & r2 & -> & Hk1 & Hk2).
  rewrite length_app.
  destruct (Forall2_lookup_r _ _ _ _ _ Hl1 Hk1) as (s1 & Hs1 & Hls1).
  destruct (Forall2_lookup_r _ _ _ _ _ Hl2 Hk2) as (s2 & Hs2 & Hls2).
  apply list_lookup_fmap_Some in Hs1 as (t1 & -> & Ht1).
  apply list_lookup_fmap_Some in Hs2 as (t2 & -> & Ht2).
  rewrite length_drop in Hls1, Hls2.
  rewrite Forall_lookup in Hr1, Hr2.
  specialize (Hr1 _ _ Ht1). specialize (Hr2 _ _ Ht2). cbn beta in *. lia.
Qed.

End LoaderClaims.

Lemma no_connection_raises_witness :
  get_features_data Fixture.offline "metrics.sqlite" Fixture.empty_world
  = (Raise ValueError, Fixture.empty_world).
Proof. apply (no_connection_raises Fixture.offline). reflexivity. Defined.

Lemma loader_shapes_witness :
  ∃ features w',
    get_features_data Fixture.store "metrics.sqlite" Fixture.empty_world
    = (Ok (NDArray 4 (map (take 4) Fixture.table_1.1), features,
           Fixture.table_1.2 ++ drop 4 Fixture.table_2.2), w')
    ∧ shape0 features = length Fixture.table_1.1
    ∧ shape0 features = length Fixture.table_2.1
    ∧ (Z.of_nat (shape1 features) = (Z.of_nat 6 - 4) + (Z.of_nat 5 - 4))%Z
    ∧ rectangular features.
Proof.
  apply (loader_shapes Fixture.store "metrics.sqlite" ()
           Fixture.table_1.1 Fixture.table_2.1
           Fixture.table_1.2 Fixture.table_2.2 6 5 Fixture.empty_world);
    try reflexivity; try discriminate; try (cbn; lia);
    repeat (constructor; try by eexists).
Defined.

(** ** The feature selector *)

Section Selector.
Implicit Types (names : list string) (f : string) (i k : nat).

Lemma list_index_None names f : f ∉ names → list_index names f = None.
Proof.
  induction names as [|g names IH]; [done|]. intros Hnot.
  apply not_elem_of_cons in Hnot as [Hne Hnot]. cbn.
  destruct (String.eqb_spec g f) as [->|_]; [done|]. by rewrite IH.
Qed.

(** [list.index] finds the first occurrence. *)
Lemma list_index_first names f i :
  names !! i = Some f → (∀ j, j < i → names !! j ≠ Some f) →
  list_index names f = Some i.
Proof.
  revert i. induction names as [|g names IH]; intros i Hi Hfirst; [done|].
  cbn. destruct (String.eqb_spec g f) as [->|Hne].
  - destruct i as [|i]; [done|]. by destruct (Hfirst 0%nat ltac:(lia)).
  - destruct i as [|i]; [by simplify_eq/=|].
    rewrite (IH i); [done|done|]. intros j Hj. apply (Hfirst (S j)). lia.
Qed.

Lemma list_index_Some names f i :
  list_index names f = Some i →
  names !! i = Some f ∧ ∀ j, j < i → names !! j ≠ Some f.
Proof.
  revert i. induction names as [|g names IH]; intros i; [done|]. cbn.
  destruct (String.eqb_spec g f) as [->|Hne].
  - intros [= <-]. split; [done|]. lia.
  - destruct (list_index names f) as [i'|]; [|done]. intros [= <-].
    destruct (IH i' eq_refl) as [Hi Hfirst]. split; [done|].
    intros [|j] Hj; cbn; [congruence|]. apply Hfirst. lia.
Qed.

End Selector.

Section SelectorClaims.
Context (E : Externals).
Implicit Types (names : list string) (f g : string) (features : ndarray float).

Lemma mapM_outcome_Ok {A B} (m : A → outcome B) (h : A → B) (l : list A) :
  Forall (λ x, m x = Ok (h x)) l → mapM m l = Ok (map h l).
Proof.
  induction 1 as [|x l Hx _ IH]; [done|].
  cbn. rewrite Hx. cbn. rewrite IH. done.
Qed.

Lemma mapM_outcome_Raise {A B} (m : A → outcome B) (e : exn) (l : list A) :
  Forall (λ x, (∃ y, m x = Ok y) ∨ m x = Raise e) l →
  Exists (λ x, m x = Raise e) l →
  mapM m l = Raise e.
Proof.
  induction 1 as [|x l Hx _ IH]; intros Hex; [by inversion Hex|].
  cbn. destruct Hx as [[y Hy]| ->]; [|done]. rewrite Hy. cbn.
  rewrite IH; [done|]. inversion Hex; [congruence|done].
Qed.

(** A declared name that is absent stops the selector with [ValueError],
    whatever the other names are. *)
Lemma select_absent_raises features names f :
  f ∈ signal_features_names E → f ∉ names →
  select_signal_features E features names = Raise ValueError.
Proof.
  intros Hin Hnot. unfold select_signal_features.
  rewrite (mapM_outcome_Raise _ ValueError); [done| |].
  - apply Forall_forall. intros g _. unfold feature_offset.
    destruct (list_index names g); cbn; eauto.
  - apply Exists_exists. exists f. split; [done|].
    unfold feature_offset. by rewrite list_index_None.
Qed.

(** C6, as stated, fails: for an absent name the lookup raises
    [ValueError], which is not a [LookupError]. *)
Lemma absent_name_not_LookupError :
  ("tic" ∉ ["id"; "date"; "quality"; "batch"; "resolution"])
  ∧ feature_offset ["id"; "date"; "quality"; "batch"; "resolution"] "tic"
    = Raise ValueError
  ∧ isinstance ValueError LookupError = false.
Proof.
  split; [|done]. rewrite !not_elem_of_cons. repeat split; try done.
  apply not_elem_of_nil.
Qed.

(** C6, amended. For a name absent from the combined column names the
    offset computation raises [ValueError], and so does the selector when
    the name is a declared one; for a present name the offset is the
    position of its first occurrence minus 4. *)
Theorem feature_offset_spec names f :
  (f ∉ names → feature_offset names f = Raise ValueError)
  ∧ (∀ features, f ∈ signal_features_names E → f ∉ names →
       select_signal_features E features names = Raise ValueError)
  ∧ (∀ i : nat, names !! i = Some f → (∀ j, j < i → names !! j ≠ Some f) →
       feature_offset names f = Ok (Z.of_nat i - 4)%Z).
Proof.
  split; [|split].
  - intros Hnot. unfold feature_offset. by rewrite list_index_None.
  - intros features. apply select_absent_raises.
  - intros i Hi Hfirst. unfold feature_offset.
    by rewrite (list_index_first _ _ i).
Qed.


(** The column an in-range offset [j - 4] selects in [n] columns. *)
Definition selected_column (n j : nat) : nat :=
  if (j <? 4)%nat then n + j - 4 else j - 4.

Lemma wrap_index_offset (n j : nat) :
  4 ≤ j + n → j < 4 + n →
  wrap_index n (Z.of_nat j - 4) = Some (selected_column n j).
Proof.
  intros Hlo Hhi. unfold wrap_index, selected_column.
  destruct (Nat.ltb_spec j 4).
  - rewrite (proj2 (Z.ltb_lt _ _)) by lia.
    rewrite (proj2 (Z.leb_le _ _)) by lia. f_equal. lia.
  - rewrite (proj2 (Z.ltb_ge _ _)) by lia.
    rewrite (proj2 (Z.ltb_lt _ _)) by lia. f_equal. lia.
Qed.




End SelectorClaims.

Lemma feature_offset_spec_witness :
  feature_offset ["id"; "date"; "quality"; "batch"; "a"] "c" = Raise ValueError
  ∧ select_signal_features Fixture.store (NDArray 1 [[4]; [5]])
      ["id"; "date"; "quality"; "batch"; "a"] = Raise ValueError
  ∧ feature_offset ["id"; "date"; "quality"; "batch"; "a"] "a"
    = Ok (Z.of_nat 4 - 4)%Z.
Proof.
  assert ("c" ∉ ["id"; "date"; "quality"; "batch"; "a"]) as Hnot.
  { rewrite !not_elem_of_cons. repeat split; try done. apply not_elem_of_nil. }
  destruct (feature_offset_spec Fixture.store
              ["id"; "date"; "quality"; "batch"; "a"] "c") as (H1 & H2 & _).
  destruct (feature_offset_spec Fixture.store
              ["id"; "date"; "quality"; "batch"; "a"] "a") as (_ & _ & H3).
  split; [exact (H1 Hnot)|]. split.
  - apply H2; [|exact Hnot]. cbn. apply elem_of_cons. right. by left.
  - apply (H3 4%nat); [reflexivity|].
    intros j Hj. do 4 (destruct j as [|j]; [cbn; congruence|]). lia.
Defined.


(** ** The search loop and the results table *)

Section SearchLoop.
Context (E : Externals).
Implicit Types (w : world) (sf : ndarray float) (save_to name : string).

(** The world after more has been printed. *)
Definition printed (w : world) (evs : list event) : world :=
  mkWorld (trace w ++ map Stdout evs) (files w) (dirs w).

Lemma printed_nil w : printed w [] = w.
Proof. destruct w. unfold printed. cbn. by rewrite app_nil_r. Qed.

Lemma printed_app w (evs evs' : list event) :
  printed (printed w evs) evs' = printed w (evs ++ evs').
Proof. unfold printed. cbn. by rewrite map_app, app_assoc. Qed.

Lemma for_each_cons {A B} (x : A) (xs : list A) (body : A → py B) w :
  for_each (x :: xs) body w
  = match body x w with
    | (Ok b, w') =>
      match for_each xs body w' with
      | (Ok bs, w'') => (Ok (b :: bs), w'')
      | (Raise e, w'') => (Raise e, w'')
      end
    | (Raise e, w') => (Raise e, w')
    end.
Proof. reflexivity. Qed.

Lemma mapM_outcome_cons {A B} (m : A → outcome B) (x : A) (l : list A) :
  mapM m (x :: l)
  = match m x with
    | Ok y => match mapM m l with Ok k => Ok (y :: k) | Raise e => Raise e end
    | Raise e => Raise e
    end.
Proof. reflexivity. Qed.

(** A loop whose body, at each entry, returns a value once it has printed,
    or raises once it has printed: the loop returns the values when every
    entry has one, and raises otherwise; printing is all it does. *)
Lemma for_each_outcome {A B} (xs : list A) (body : A → py B)
    (value : A → outcome B) (evs : A → list event) :
  (∀ x w, x ∈ xs →
     match value x with
     | Ok v => body x w = (Ok v, printed w (evs x))
     | Raise _ => ∃ e evs', body x w = (Raise e, printed w evs')
     end) →
  ∀ w, match mapM value xs with
       | Ok vs => for_each xs body w
                  = (Ok vs, printed w (concat (map evs xs)))
       | Raise _ => ∃ e evs', for_each xs body w = (Raise e, printed w evs')
       end.
Proof.
  induction xs as [|x xs IH]; intros Hbody w.
  - cbn. by rewrite printed_nil.
  - rewrite mapM_outcome_cons, for_each_cons. cbn [map concat].
    pose proof (Hbody x w ltac:(left)) as Hx.
    destruct (value x) as [v|e].
    + rewrite Hx.
      specialize (IH (λ y w' Hy, Hbody y w' (list_elem_of_further _ _ _ Hy))
                     (printed w (evs x))).
      destruct (mapM value xs) as [vs|e].
      * rewrite IH. by rewrite printed_app.
      * destruct IH as (e' & evs' & ->). exists e', (evs x ++ evs').
        by rewrite printed_app.
    + destruct Hx as (e' & evs' & ->). by exists e', evs'.
Qed.

(** Lines 160-167 and 216-223, common to both modes: load, select, impute. *)
Definition load_signal_features : py (ndarray float) :=
  '(features_meta, features, features_names) ←
    get_features_data E qc_features_database_path;
  signal_features ← lift (select_signal_features E features features_names);
  mret (impute signal_features).

Lemma load_signal_features_quiet w o w' :
  load_signal_features w = (o, w') →
  files w' = files w ∧ ∃ tables, trace w' = trace w ++ map DbRead tables.
Proof.
  unfold load_signal_features, mbind at 1, py_bind at 1.
  destruct (get_features_data E qc_features_database_path w)
    as [[[[meta features] names]|e] w0] eqn:Hload;
    apply get_features_data_quiet in Hload.
  - unfold mbind, py_bind, lift, mret, py_ret.
    destruct (select_signal_features E features names); by intros [= <- <-].
  - by intros [= <- <-].
Qed.

Lemma load_signal_features_dirs w o w' :
  load_signal_features w = (o, w') → dirs w' = dirs w.
Proof.
  unfold load_signal_features, mbind at 1, py_bind at 1.
  destruct (get_features_data E qc_features_database_path w)
    as [[[[meta features] names]|e] w0] eqn:Hload;
    apply get_features_data_dirs in Hload.
  - unfold mbind, py_bind, lift, mret, py_ret.
    destruct (select_signal_features E features names); by intros [= <- <-].
  - by intros [= <- <-].
Qed.

Lemma mapM_outcome_length {A B} (m : A → outcome B) (l : list A) (k : list B) :
  mapM m l = Ok k → length k = length l.
Proof.
  revert k. induction l as [|x l IH]; intros k; cbn.
  - by intros [= <-].
  - destruct (m x) as [y|]; [|done]. cbn.
    destruct (mapM m l) as [k'|]; [|done]. cbn. intros [= <-].
    cbn. f_equal. by apply IH.
Qed.

(** The value at each position of a list mapped without an exception. *)
Lemma mapM_outcome_lookup {A B} (m : A → outcome B) (l : list A) (k : list B)
    (i : nat) (x : A) :
  mapM m l = Ok k → l !! i = Some x → ∃ y, k !! i = Some y ∧ m x = Ok y.
Proof.
  revert k i. induction l as [|x' l IH]; intros k i; cbn; [done|].
  destruct (m x') as [y|] eqn:Hy; [|done]. cbn.
  destruct (mapM m l) as [k'|]; [|done]. cbn. intros [= <-].
  destruct i as [|i]; cbn.
  - intros [= <-]. by exists y.
  - by apply IH.
Qed.

(** Two maps that agree wherever both return give the same list. *)
Lemma mapM_outcome_agree {A B} (m m' : A → outcome B) (l : list A)
    (k k' : list B) :
  (∀ x y y', x ∈ l → m x = Ok y → m' x = Ok y' → y = y') →
  mapM m l = Ok k → mapM m' l = Ok k' → k = k'.
Proof.
  revert k k'. induction l as [|x l IH]; intros k k' Hagree; cbn.
  - by intros [= <-] [= <-].
  - destruct (m x) as [y|] eqn:Hy; [|done].
    destruct (m' x) as [y'|] eqn:Hy'; [|done]. cbn.
    destruct (mapM m l) as [k0|]; [|done].
    destruct (mapM m' l) as [k0'|]; [|done]. cbn.
    intros [= <-] [= <-]. f_equal.
    + eapply Hagree; [by left|done..].
    + apply IH; [|done..]. intros ??? Hin. apply Hagree. by right.
Qed.

(** The extracted matrix has one column per declared name. *)
Lemma load_signal_features_shape1 w sf w' :
  load_signal_features w = (Ok sf, w') →
  shape1 sf = length (signal_features_names E).
Proof.
  unfold load_signal_features, mbind at 1, py_bind at 1.
  destruct (get_features_data E qc_features_database_path w)
    as [[[[meta features] names]|e] w0]; [|done].
  unfold mbind, py_bind, lift, mret, py_ret.
  destruct (select_signal_features E features names) as [sf0|] eqn:Hsel; [|done].
  intros [= <- <-]. rewrite impute_shape1.
  unfold select_signal_features in Hsel.
  destruct (mapM _ (signal_features_names E)) as [idx|] eqn:Hidx; [|done].
  apply mapM_outcome_length in Hidx. rewrite <- Hidx.
  cbn in Hsel. unfold take_columns in Hsel.
  destruct idx as [|z idx]; [done|].
  destruct (mapM _ (z :: idx)) as [js|] eqn:Hjs; [|done].
  injection Hsel as <-. cbn [shape1]. symmetry. by eapply length_mapM.
Qed.

(** Lines 176-179 and 232-235: the split of target column [i] from its
    predictors into a training and a held-out part. *)
Definition split_target sf (i : nat)
  : outcome (ndarray float * ndarray float * list float * list float) :=
  train_test_split E (delete_column sf i) (column sf i) 0.3 RANDOM_STATE.

(** The table the frame is built from is well-shaped. *)
Lemma new_DataFrame_Ok (data : list (list float)) (columns index : list string) :
  length data = length index → Forall (λ r, length r = length columns) data →
  new_DataFrame data columns index = Ok (mkDataFrame index columns data).
Proof.
  intros Hlen Hrows. unfold new_DataFrame.
  rewrite (proj2 (Nat.eqb_eq _ _)) by done.
  replace (forallb _ data) with true; [done|].
  symmetry. apply forallb_forall. intros r Hr. apply Nat.eqb_eq.
  rewrite Forall_forall in Hrows. apply Hrows. by apply list_elem_of_In.
Qed.

(** One row of scores per feature, one score per candidate. *)
Lemma scores_shape {A} (score : nat → A → outcome float) (names : list A)
    (n : nat) (scores : list (list float)) :
  mapM (λ i, mapM (score i) names) (seq 0 n) = Ok scores →
  length scores = n ∧ Forall (λ r, length r = length names) scores.
Proof.
  intros Hscores. split.
  - apply mapM_outcome_length in Hscores. by rewrite length_seq in Hscores.
  - apply Forall_forall. intros r Hr.
    apply list_elem_of_lookup in Hr as [i Hi].
    assert (is_Some (seq 0 n !! i)) as [i' Hi'].
    { apply lookup_lt_is_Some. apply lookup_lt_Some in Hi.
      by rewrite <- (mapM_outcome_length _ _ _ Hscores). }
    destruct (mapM_outcome_lookup _ _ _ _ _ Hscores Hi') as (r' & Hr' & Hrow).
    simplify_eq. by apply mapM_outcome_length in Hrow.
Qed.

(** What [to_csv] leaves when it returns, and that it changes no file when
    it raises. *)
Lemma to_csv_Ok (df : DataFrame) (path : string) w w2 :
  to_csv df path w = (Ok (), w2) →
  can_create w path = true
  ∧ w2 = mkWorld (trace w ++ [CsvWrite path]) (<[path := df]> (files w)) (dirs w).
Proof. unfold to_csv. destruct (can_create w path); by intros [= <-]. Qed.

Lemma to_csv_Raise (df : DataFrame) (path : string) w (e : exn) w2 :
  to_csv df path w = (Raise e, w2) →
  can_create w path = false ∧ e = OSError ∧ w2 = w.
Proof. unfold to_csv. destruct (can_create w path); [done|]. by intros [= <- <-]. Qed.

End SearchLoop.

(** ** Mode A: the models compared *)

Section ModelSearch.
Context (E : Externals).
Implicit Types (w : world) (sf : ndarray float) (save_to name : string).

Definition models_names : list string :=
  sorted (keys (get_models_and_parameters RANDOM_STATE).1).

(** Lines 176-194: the grid search fitted for target column [i] and the
    model called [name], on the training part of the split. *)
Definition fit_model sf (i : nat) name : outcome (fitted E) :=
  '(X_train, X_test, y_train, y_test) ← split_target E sf i;
  model ← or_raise KeyError
            (getitem (get_models_and_parameters RANDOM_STATE).1 name);
  grid_parameters ← or_raise KeyError
            (getitem (get_models_and_parameters RANDOM_STATE).2 name);
  grid_search_fit E
    [("scaler", Scaler MinMaxScaler);
     ("selector", Selector SelectPercentile);
     ("model", Model model)]
    grid_parameters "neg_median_absolute_error" 3 (-1) X_train y_train.

(** The value appended to [feature_preds]. *)
Definition model_score sf (i : nat) name : outcome float :=
  grid ← fit_model sf i name;
  Ok (relative_error E grid (column sf i)).

(** What one inner iteration prints when it returns. *)
Definition model_events sf (i : nat) name : list event :=
  match fit_model sf i name, signal_features_names E !! i with
  | Ok grid, Some feature =>
    [PrintFitting (upper name) feature;
     PrintBestScore (best_score_ E grid);
     PrintMedian (median (column sf i));
     PrintRelativeError (relative_error E grid (column sf i));
     PrintParameters (best_params_ E grid);
     PrintElapsed]
  | _, _ => []
  end.

(** [results] when the loops are over: one row per feature. *)
Definition model_scores sf : outcome (list (list float)) :=
  mapM (λ i, mapM (model_score sf i) models_names) (seq 0 (shape1 sf)).

Definition model_console sf : list event :=
  concat (map (λ i, concat (map (model_events sf i) models_names))
              (seq 0 (shape1 sf))).

(** Lines 169-208: the run from the imputed signal features on. *)
Definition search_models save_to (signal_features : ndarray float) : py unit :=
  let '(models, parameters) := get_models_and_parameters RANDOM_STATE in
  let models_names := sorted (keys models) in
  results ← for_each (seq 0 (shape1 signal_features)) (λ i,
    let X := delete_column signal_features i in
    let y := column signal_features i in
    '(X_train, X_test, y_train, y_test) ←
      lift (train_test_split E X y 0.3 RANDOM_STATE);
    for_each models_names (λ name,
      model ← lift (or_raise KeyError (getitem models name));
      let pipeline := [("scaler", Scaler MinMaxScaler);
                       ("selector", Selector SelectPercentile);
                       ("model", Model model)] in
      feature ← lift (or_raise IndexError (signal_features_names E !! i));
      print (PrintFitting (upper name) feature);;
      grid_parameters ← lift (or_raise KeyError (getitem parameters name));
      grid ← lift (grid_search_fit E pipeline grid_parameters
                     "neg_median_absolute_error" 3 (-1) X_train y_train);
      let relative_error_percent := relative_error E grid y in
      print (PrintBestScore (best_score_ E grid));;
      print (PrintMedian (median y));;
      print (PrintRelativeError relative_error_percent);;
      print (PrintParameters (best_params_ E grid));;
      print PrintElapsed;;
      mret relative_error_percent));
  results ← lift (new_DataFrame results models_names (signal_features_names E));
  to_csv (transpose results) (save_to +:+ "grid_search_results.csv").

Lemma run_different_models_unfold save_to w :
  run_different_models E save_to w
  = (load_signal_features E ≫= search_models save_to) w.
Proof.
  unfold load_signal_features, run_different_models.
  unfold mbind, py_bind, lift, mret, py_ret.
  destruct (get_features_data E qc_features_database_path w)
    as [[[[meta features] names]|e] w0]; [|done].
  by destruct (select_signal_features E features names).
Qed.

Lemma models_names_eq :
  models_names = ["bayes_ridge"; "elastic"; "lars"; "lasso"; "ridge"].
Proof. reflexivity. Qed.

Lemma models_names_catalog name :
  name ∈ models_names →
  ∃ model grid_parameters,
    getitem (get_models_and_parameters RANDOM_STATE).1 name = Some model
    ∧ getitem (get_models_and_parameters RANDOM_STATE).2 name
      = Some grid_parameters.
Proof.
  rewrite models_names_eq. intros H.
  repeat (apply elem_of_cons in H as [-> | H]);
    [by eexists _, _ .. | by apply elem_of_nil in H].
Qed.

(** What the search of Mode A does from the imputed signal features on:
    when every fit returns it prints the console lines and hands the
    transposed table to [to_csv]; otherwise it raises, having printed. *)
Lemma search_models_outcome save_to sf w :
  shape1 sf = length (signal_features_names E) →
  match model_scores sf with
  | Ok scores =>
    search_models save_to sf w
    = to_csv (transpose (mkDataFrame (signal_features_names E) models_names
                                     scores))
             (save_to +:+ "grid_search_results.csv")
             (printed w (model_console sf))
  | Raise _ => ∃ e evs, search_models save_to sf w = (Raise e, printed w evs)
  end.
Proof.
  intros Hshape. unfold search_models.
  rewrite (surjective_pairing (get_models_and_parameters RANDOM_STATE)).
  cbv beta iota zeta. fold models_names.
  unfold mbind at 1, py_bind at 1.
  match goal with
  | |- context [for_each (seq 0 (shape1 sf)) ?body w] => set (outer := body)
  end.
  pose proof (for_each_outcome (seq 0 (shape1 sf)) outer
                (λ i, mapM (model_score sf i) models_names)
                (λ i, concat (map (model_events sf i) models_names))) as Hloop.
  cbv beta in Hloop. fold (model_scores sf) (model_console sf) in Hloop.
  assert (∀ i, i < shape1 sf →
            ∃ feature, signal_features_names E !! i = Some feature) as Hnames.
  { intros i Hi. apply lookup_lt_is_Some. lia. }
  specialize (Hloop ltac:(
    intros i w' [_ Hi]%elem_of_seq; cbn in Hi;
    destruct (Hnames i Hi) as [feature Hfeature];
    unfold outer, mbind at 1, py_bind at 1, lift at 1;
    destruct (train_test_split E _ _ _ _)
      as [[[[X_train X_test] y_train] y_test]|e] eqn:Hsplit;
    [ apply for_each_outcome; intros name w'' Hname;
      destruct (models_names_catalog name Hname) as (model & g & Hm & Hg);
      unfold model_score, model_events, fit_model, split_target;
      rewrite Hsplit, Hfeature, Hm, Hg;
      cbn [or_raise mbind outcome_bind];
      unfold mbind, py_bind, lift, print, mret, py_ret, printed;
      cbn [or_raise trace files dirs map];
      destruct (grid_search_fit E _ _ _ _ _ _ _) as [grid|e];
      [ by rewrite <- !app_assoc
      | by exists e, [PrintFitting (upper name) feature] ]
    | rewrite models_names_eq, mapM_outcome_cons;
      unfold model_score, fit_model, split_target; rewrite Hsplit;
      exists e, []; by rewrite printed_nil ]) w).
  destruct (model_scores sf) as [scores|e] eqn:Hscores.
  - rewrite Hloop. unfold mbind at 1, py_bind at 1, lift at 1.
    destruct (scores_shape _ _ _ _ Hscores) as [Hlen Hrows].
    rewrite new_DataFrame_Ok by (done || by rewrite Hlen).
    reflexivity.
  - destruct Hloop as (e' & evs & Hloop). exists e', evs.
    unfold mbind at 1, py_bind at 1. by rewrite Hloop.
Qed.

(** A failed preparation of the signal features ends the run. *)
Lemma run_different_models_raises save_to w (e : exn) w1 :
  load_signal_features E w = (Raise e, w1) →
  run_different_models E save_to w = (Raise e, w1).
Proof.
  intros Hload. rewrite run_different_models_unfold.
  unfold mbind, py_bind. by rewrite Hload.
Qed.

(** A run of Mode A that returns has prepared the signal features, fitted
    every model for every feature, printed, and written the table last. *)
Lemma run_different_models_returns save_to w w2 :
  run_different_models E save_to w = (Ok (), w2) →
  ∃ sf w1 scores,
    load_signal_features E w = (Ok sf, w1)
    ∧ model_scores sf = Ok scores
    ∧ can_create w1 (save_to +:+ "grid_search_results.csv") = true
    ∧ w2 = mkWorld ((trace w1 ++ map Stdout (model_console sf))
                    ++ [CsvWrite (save_to +:+ "grid_search_results.csv")])
             (<[save_to +:+ "grid_search_results.csv" :=
                  transpose (mkDataFrame (signal_features_names E) models_names
                                         scores)]> (files w1))
             (dirs w1).
Proof.
  rewrite run_different_models_unfold. unfold mbind, py_bind.
  destruct (load_signal_features E w) as [[sf|e] w1] eqn:Hload; [|done].
  pose proof (load_signal_features_shape1 E _ _ _ Hload) as Hshape.
  pose proof (search_models_outcome save_to sf w1 Hshape) as Hsearch.
  destruct (model_scores sf) as [scores|e] eqn:Hscores;
    [|by destruct Hsearch as (? & ? & ->)].
  rewrite Hsearch. intros [Hdir ->]%to_csv_Ok.
  exists sf, w1, scores. split; [done|]. split; [done|]. by split; [exact Hdir|].
Qed.

(** A run of Mode A that raises has written no file. *)
Lemma run_different_models_fails save_to w (e : exn) w2 :
  run_different_models E save_to w = (Raise e, w2) → files w2 = files w.
Proof.
  rewrite run_different_models_unfold. unfold mbind, py_bind.
  destruct (load_signal_features E w) as [[sf|e'] w1] eqn:Hload.
  - pose proof (load_signal_features_shape1 E _ _ _ Hload) as Hshape.
    apply load_signal_features_quiet in Hload as [Hfiles _].
    pose proof (search_models_outcome save_to sf w1 Hshape) as Hsearch.
    destruct (model_scores sf) as [scores|e''].
    + rewrite Hsearch. by intros (_ & _ & ->)%to_csv_Raise.
    + destruct Hsearch as (? & ? & ->). by intros [= _ <-].
  - apply load_signal_features_quiet in Hload as [Hfiles _]. by intros [= _ <-].
Qed.

End ModelSearch.

(** ** Mode B: the pipelines compared *)

Section PipelineSearch.
Context (E : Externals).
Implicit Types (w : world) (sf : ndarray float) (save_to name : string).

Definition pipe_names : list string :=
  sorted (keys (get_elastic_pipelines RANDOM_STATE).1).

(** Lines 232-244: the grid search fitted for target column [i] and the
    pipeline called [name], on the training part of the split. *)
Definition fit_pipeline sf (i : nat) name : outcome (fitted E) :=
  '(X_train, X_test, y_train, y_test) ← split_target E sf i;
  pipeline ← or_raise KeyError
               (getitem (get_elastic_pipelines RANDOM_STATE).1 name);
  grid_parameters ← or_raise KeyError
               (getitem (get_elastic_pipelines RANDOM_STATE).2 name);
  grid_search_fit E pipeline grid_parameters
    "neg_median_absolute_error" 3 (-1) X_train y_train.

(** Lines 247-248: R² of the fitted search on the held-out part. *)
Definition held_out_r2 sf (i : nat) (grid : fitted E) : outcome float :=
  '(X_train, X_test, y_train, y_test) ← split_target E sf i;
  y_pred ← predict E grid X_test;
  r2_score E y_test y_pred.

(** The value appended to [feature_preds], once the iteration has got
    through the fit, the prediction and the R². *)
Definition pipeline_score sf (i : nat) name : outcome float :=
  grid ← fit_pipeline sf i name;
  _ ← held_out_r2 sf i grid;
  Ok (relative_error E grid (column sf i)).

(** What one inner iteration prints when it returns. *)
Definition pipeline_events sf (i : nat) name : list event :=
  match fit_pipeline sf i name, signal_features_names E !! i with
  | Ok grid, Some feature =>
    match held_out_r2 sf i grid with
    | Ok r2 =>
      [PrintFitting (upper name) feature;
       PrintBestScore (best_score_ E grid);
       PrintMedian (median (column sf i));
       PrintRelativeError (relative_error E grid (column sf i));
       PrintR2 r2;
       PrintParameters (best_params_ E grid);
       PrintElapsed]
    | Raise _ => []
    end
  | _, _ => []
  end.

Definition pipeline_scores sf : outcome (list (list float)) :=
  mapM (λ i, mapM (pipeline_score sf i) pipe_names) (seq 0 (shape1 sf)).

Definition pipeline_console sf : list event :=
  concat (map (λ i, concat (map (pipeline_events sf i) pipe_names))
              (seq 0 (shape1 sf))).

(** Lines 225-262: the run from the imputed signal features on. *)
Definition search_pipelines save_to (signal_features : ndarray float)
  : py unit :=
  let '(pipelines, parameters) := get_elastic_pipelines RANDOM_STATE in
  let pipe_names := sorted (keys pipelines) in
  results ← for_each (seq 0 (shape1 signal_features)) (λ i,
    let X := delete_column signal_features i in
    let y := column signal_features i in
    '(X_train, X_test, y_train, y_test) ←
      lift (train_test_split E X y 0.3 RANDOM_STATE);
    for_each pipe_names (λ name,
      feature ← lift (or_raise IndexError (signal_features_names E !! i));
      print (PrintFitting (upper name) feature);;
      pipeline ← lift (or_raise KeyError (getitem pipelines name));
      grid_parameters ← lift (or_raise KeyError (getitem parameters name));
      grid ← lift (grid_search_fit E pipeline grid_parameters
                     "neg_median_absolute_error" 3 (-1) X_train y_train);
      let relative_error_percent := relative_error E grid y in
      y_pred ← lift (predict E grid X_test);
      r2 ← lift (r2_score E y_test y_pred);
      print (PrintBestScore (best_score_ E grid));;
      print (PrintMedian (median y));;
      print (PrintRelativeError relative_error_percent);;
      print (PrintR2 r2);;
      print (PrintParameters (best_params_ E grid));;
      print PrintElapsed;;
      mret relative_error_percent));
  results ← lift (new_DataFrame results pipe_names (signal_features_names E));
  to_csv (transpose results) (save_to +:+ "grid_search_pipelines_results.csv").

Lemma run_different_pipelines_unfold save_to w :
  run_different_pipelines E save_to w
  = (load_signal_features E ≫= search_pipelines save_to) w.
Proof.
  unfold load_signal_features, run_different_pipelines.
  unfold mbind, py_bind, lift, mret, py_ret.
  destruct (get_features_data E qc_features_database_path w)
    as [[[[meta features] names]|e] w0]; [|done].
  by destruct (select_signal_features E features names).
Qed.

Lemma pipe_names_eq :
  pipe_names = ["min_max"; "min_max_kbest"; "min_max_perc";
                "robust"; "robust_kbest"; "robust_perc";
                "standard"; "standard_kbest"; "standard_perc"].
Proof. reflexivity. Qed.

Lemma pipe_names_catalog name :
  name ∈ pipe_names →
  ∃ pipeline grid_parameters,
    getitem (get_elastic_pipelines RANDOM_STATE).1 name = Some pipeline
    ∧ getitem (get_elastic_pipelines RANDOM_STATE).2 name
      = Some grid_parameters.
Proof.
  rewrite pipe_names_eq. intros H.
  repeat (apply elem_of_cons in H as [-> | H]);
    [by eexists _, _ .. | by apply elem_of_nil in H].
Qed.

(** What the search of Mode B does from the imputed signal features on:
    when every fit, prediction and R² returns it prints the console lines
    and hands the transposed table to [to_csv]; otherwise it raises,
    having printed. *)
Lemma search_pipelines_outcome save_to sf w :
  shape1 sf = length (signal_features_names E) →
  match pipeline_scores sf with
  | Ok scores =>
    search_pipelines save_to sf w
    = to_csv (transpose (mkDataFrame (signal_features_names E) pipe_names
                                     scores))
             (save_to +:+ "grid_search_pipelines_results.csv")
             (printed w (pipeline_console sf))
  | Raise _ => ∃ e evs, search_pipelines save_to sf w = (Raise e, printed w evs)
  end.
Proof.
  intros Hshape. unfold search_pipelines.
  rewrite (surjective_pairing (get_elastic_pipelines RANDOM_STATE)).
  cbv beta iota zeta. fold pipe_names.
  unfold mbind at 1, py_bind at 1.
  match goal with
  | |- context [for_each (seq 0 (shape1 sf)) ?body w] => set (outer := body)
  end.
  pose proof (for_each_outcome (seq 0 (shape1 sf)) outer
                (λ i, mapM (pipeline_score sf i) pipe_names)
                (λ i, concat (map (pipeline_events sf i) pipe_names))) as Hloop.
  cbv beta in Hloop. fold (pipeline_scores sf) (pipeline_console sf) in Hloop.
  assert (∀ i, i < shape1 sf →
            ∃ feature, signal_features_names E !! i = Some feature) as Hnames.
  { intros i Hi. apply lookup_lt_is_Some. lia. }
  specialize (Hloop ltac:(
    intros i w' [_ Hi]%elem_of_seq; cbn in Hi;
    destruct (Hnames i Hi) as [feature Hfeature];
    unfold outer, mbind at 1, py_bind at 1, lift at 1;
    destruct (train_test_split E _ _ _ _)
      as [[[[X_train X_test] y_train] y_test]|e] eqn:Hsplit;
    [ apply for_each_outcome; intros name w'' Hname;
      destruct (pipe_names_catalog name Hname) as (pipeline & g & Hm & Hg);
      unfold pipeline_score, pipeline_events, held_out_r2, fit_pipeline,
        split_target;
      rewrite Hsplit, Hfeature, Hm, Hg;
      cbn [or_raise mbind outcome_bind];
      unfold mbind, py_bind, lift, print, mret, py_ret, printed;
      cbn [or_raise trace files dirs map];
      destruct (grid_search_fit E _ _ _ _ _ _ _) as [grid|e];
      cbn [outcome_bind];
      [ destruct (predict E grid X_test) as [y_pred|e];
        cbn [outcome_bind];
        [ destruct (r2_score E y_test y_pred) as [r2|e] |] |];
      [ by rewrite <- !app_assoc
      | by exists e, [PrintFitting (upper name) feature] .. ]
    | rewrite pipe_names_eq, mapM_outcome_cons;
      unfold pipeline_score, fit_pipeline, split_target; rewrite Hsplit;
      exists e, []; by rewrite printed_nil ]) w).
  destruct (pipeline_scores sf) as [scores|e] eqn:Hscores.
  - rewrite Hloop. unfold mbind at 1, py_bind at 1, lift at 1.
    destruct (scores_shape _ _ _ _ Hscores) as [Hlen Hrows].
    rewrite new_DataFrame_Ok by (done || by rewrite Hlen).
    reflexivity.
  - destruct Hloop as (e' & evs & Hloop). exists e', evs.
    unfold mbind at 1, py_bind at 1. by rewrite Hloop.
Qed.

(** A failed preparation of the signal features ends the run. *)
Lemma run_different_pipelines_raises save_to w (e : exn) w1 :
  load_signal_features E w = (Raise e, w1) →
  run_different_pipelines E save_to w = (Raise e, w1).
Proof.
  intros Hload. rewrite run_different_pipelines_unfold.
  unfold mbind, py_bind. by rewrite Hload.
Qed.

(** A run of Mode B that returns has prepared the signal features, fitted
    every pipeline for every feature, predicted and scored on the held-out
    part, printed, and written the table last. *)
Lemma run_different_pipelines_returns save_to w w2 :
  run_different_pipelines E save_to w = (Ok (), w2) →
  ∃ sf w1 scores,
    load_signal_features E w = (Ok sf, w1)
    ∧ pipeline_scores sf = Ok scores
    ∧ can_create w1 (save_to +:+ "grid_search_pipelines_results.csv") = true
    ∧ w2 = mkWorld ((trace w1 ++ map Stdout (pipeline_console sf))
                    ++ [CsvWrite (save_to +:+ "grid_search_pipelines_results.csv")])
             (<[save_to +:+ "grid_search_pipelines_results.csv" :=
                  transpose (mkDataFrame (signal_features_names E) pipe_names
                                         scores)]> (files w1))
             (dirs w1).
Proof.
  rewrite run_different_pipelines_unfold. unfold mbind, py_bind.
  destruct (load_signal_features E w) as [[sf|e] w1] eqn:Hload; [|done].
  pose proof (load_signal_features_shape1 E _ _ _ Hload) as Hshape.
  pose proof (search_pipelines_outcome save_to sf w1 Hshape) as Hsearch.
  destruct (pipeline_scores sf) as [scores|e] eqn:Hscores;
    [|by destruct Hsearch as (? & ? & ->)].
  rewrite Hsearch. intros [Hdir ->]%to_csv_Ok.
  exists sf, w1, scores. split; [done|]. split; [done|]. by split; [exact Hdir|].
Qed.

(** A run of Mode B that raises has written no file. *)
Lemma run_different_pipelines_fails save_to w (e : exn) w2 :
  run_different_pipelines E save_to w = (Raise e, w2) → files w2 = files w.
Proof.
  rewrite run_different_pipelines_unfold. unfold mbind, py_bind.
  destruct (load_signal_features E w) as [[sf|e'] w1] eqn:Hload.
  - pose proof (load_signal_features_shape1 E _ _ _ Hload) as Hshape.
    apply load_signal_features_quiet in Hload as [Hfiles _].
    pose proof (search_pipelines_outcome save_to sf w1 Hshape) as Hsearch.
    destruct (pipeline_scores sf) as [scores|e''].
    + rewrite Hsearch. by intros (_ & _ & ->)%to_csv_Raise.
    + destruct Hsearch as (? & ? & ->). by intros [= _ <-].
  - apply load_signal_features_quiet in Hload as [Hfiles _]. by intros [= _ <-].
Qed.

End PipelineSearch.

(** ** The results table *)

(** The score at feature [i] and candidate [j] of a table of scores. *)
Lemma scores_lookup {A} (score : nat → A → outcome float) (names : list A)
    (n : nat) (scores : list (list float)) (i j : nat) (name : A) :
  mapM (λ i, mapM (score i) names) (seq 0 n) = Ok scores →
  i < n → names !! j = Some name →
  ∃ v, score i name = Ok v ∧ scores !! i ≫= (.!! j) = Some v.
Proof.
  intros Hscores Hi Hj.
  destruct (mapM_outcome_lookup _ _ _ i i Hscores) as (row & Hrow & Hmap);
    [by apply lookup_seq_lt|].
  destruct (mapM_outcome_lookup _ _ _ j name Hmap Hj) as (v & Hv & Hscore).
  exists v. split; [done|]. by rewrite Hrow.
Qed.

(** The cell of the transposed frame: candidate [j], feature [i]. *)
Lemma transpose_cell (index columns : list string) (data : list (list float))
    (i j : nat) :
  j < length columns →
  is_Some (data !! i ≫= (.!! j)) →
  df_cell (transpose (mkDataFrame index columns data)) j i
  = data !! i ≫= (.!! j).
Proof.
  intros Hj [v Hv]. unfold df_cell, transpose. cbn [df_values df_columns].
  rewrite list_lookup_fmap, lookup_seq_lt by done.
  cbn [fmap option_fmap option_map mbind option_bind Nat.add].
  rewrite list_lookup_fmap.
  destruct (data !! i) as [row|]; [|done]. cbn in Hv |- *. by rewrite Hv.
Qed.

(** Adjacent entries are in the order of [str]. *)
Fixpoint ascending (l : list string) : bool :=
  match l with
  | x :: (y :: _) as l' => String.leb x y && ascending l'
  | _ => true
  end.

Lemma sorted_insert_Permutation (x : string) (l : list string) :
  sorted_insert x l ≡ₚ x :: l.
Proof.
  induction l as [|y l IH]; [done|]. cbn.
  destruct (String.leb x y); [done|]. rewrite IH. apply Permutation_swap.
Qed.

Lemma sorted_Permutation (l : list string) : sorted l ≡ₚ l.
Proof.
  induction l as [|x l IH]; [done|]. cbn.
  by rewrite sorted_insert_Permutation, IH.
Qed.

Lemma sorted_insert_ascending (x : string) (l : list string) :
  ascending l = true → ascending (sorted_insert x l) = true.
Proof.
  induction l as [|y l IH]; [done|]. intros Hl. cbn [sorted_insert].
  destruct (String.leb x y) eqn:Hxy.
  - cbn [ascending]. by rewrite Hxy.
  - assert (String.leb y x = true) as Hyx
      by (destruct (String.leb_total x y); congruence).
    destruct l as [|z l].
    + cbn. by rewrite Hyx.
    + cbn [ascending] in Hl. apply andb_true_iff in Hl as [Hyz Hl].
      specialize (IH Hl). cbn [sorted_insert] in IH |- *.
      destruct (String.leb x z).
      * cbn [ascending] in IH |- *. by rewrite Hyx.
      * cbn [ascending] in IH |- *. by rewrite Hyz.
Qed.

Lemma sorted_ascending (l : list string) : ascending (sorted l) = true.
Proof.
  induction l as [|x l IH]; [done|]. cbn. by apply sorted_insert_ascending.
Qed.

(** The same externals with another [r2_score]. *)
Definition with_r2_score (E : Externals)
    (r2 : list float → list float → outcome float) : Externals :=
  mkExternals (conn E) (cell E) (create_connection E) (fetch_table E)
    (astype_float E) (signal_features_names E) (train_test_split E)
    (fitted E) (grid_search_fit E) (best_score_ E) (best_params_ E)
    (predict E) r2.

(** A store whose first signal feature has the median 0 and whose second
    holds a NaN. *)
Definition zero_median_store : Externals :=
  Fixture.store_with (λ _, Some ())
    ([[0; 0; 0; 0; 0; -1];
      [1; 0; 0; 0; 0; -1];
      [2; 0; 0; 0; 5; 6]], snd Fixture.table_1)
    ([[0; 0; 0; 0; 10];
      [1; 0; 0; 0; nan];
      [2; 0; 0; 0; 40]], snd Fixture.table_2)
    ["a"; "c"].

(** ** Claims on the search loop and the results *)

Section ResultClaims.
Context (E : Externals).
Implicit Types (w : world) (sf : ndarray float) (save_to name : string).

(** The cell written for feature [i] and the model at position [j]. *)
Lemma model_cell sf (scores : list (list float)) (i j : nat) feature name :
  shape1 sf = length (signal_features_names E) →
  model_scores E sf = Ok scores →
  signal_features_names E !! i = Some feature →
  models_names !! j = Some name →
  ∃ grid,
    fit_model E sf i name = Ok grid
    ∧ model_score E sf i name = Ok (relative_error E grid (column sf i))
    ∧ scores !! i ≫= (.!! j) = Some (relative_error E grid (column sf i))
    ∧ df_cell (transpose (mkDataFrame (signal_features_names E) models_names
                                      scores)) j i
      = Some (relative_error E grid (column sf i)).
Proof.
  intros Hshape Hscores Hi Hj.
  apply lookup_lt_Some in Hi as Hlt. rewrite <- Hshape in Hlt.
  destruct (scores_lookup _ _ _ _ i j name Hscores Hlt Hj) as (v & Hv & Hcell).
  pose proof Hv as Hv'. unfold model_score in Hv'.
  destruct (fit_model E sf i name) as [grid|] eqn:Hfit; [|done].
  cbn in Hv'. injection Hv' as <-.
  exists grid. split; [done|]. split; [done|]. split; [done|].
  rewrite transpose_cell; [done|by eapply lookup_lt_Some|by rewrite Hcell].
Qed.

(** The cell written for feature [i] and the pipeline at position [j]. *)
Lemma pipeline_cell sf (scores : list (list float)) (i j : nat) feature name :
  shape1 sf = length (signal_features_names E) →
  pipeline_scores E sf = Ok scores →
  signal_features_names E !! i = Some feature →
  pipe_names !! j = Some name →
  ∃ grid r2,
    fit_pipeline E sf i name = Ok grid
    ∧ held_out_r2 E sf i grid = Ok r2
    ∧ pipeline_score E sf i name = Ok (relative_error E grid (column sf i))
    ∧ scores !! i ≫= (.!! j) = Some (relative_error E grid (column sf i))
    ∧ df_cell (transpose (mkDataFrame (signal_features_names E) pipe_names
                                      scores)) j i
      = Some (relative_error E grid (column sf i)).
Proof.
  intros Hshape Hscores Hi Hj.
  apply lookup_lt_Some in Hi as Hlt. rewrite <- Hshape in Hlt.
  destruct (scores_lookup _ _ _ _ i j name Hscores Hlt Hj) as (v & Hv & Hcell).
  pose proof Hv as Hv'. unfold pipeline_score in Hv'.
  destruct (fit_pipeline E sf i name) as [grid|] eqn:Hfit; [|done].
  cbn in Hv'. destruct (held_out_r2 E sf i grid) as [r2|] eqn:Hr2; [|done].
  cbn in Hv'. injection Hv' as <-.
  exists grid, r2. split; [done|]. split; [done|]. split; [done|].
  split; [done|].
  rewrite transpose_cell; [done|by eapply lookup_lt_Some|by rewrite Hcell].
Qed.

(** C3, as stated, fails in its last part: on a store whose first signal
    feature has the median 0 and whose second holds a NaN, the run of
    Mode A returns and the values recorded for the first model are
    infinity and NaN, not numbers with one decimal place. *)
Lemma relative_error_not_a_decimal :
  ∃ w2 df,
    run_different_models zero_median_store "out/" Fixture.empty_world
    = (Ok (), w2)
    ∧ files w2 !! "out/grid_search_results.csv" = Some df
    ∧ df_cell df 0 0 = Some infinity
    ∧ df_cell df 0 1 = Some nan
    ∧ is_finite infinity = false
    ∧ is_finite nan = false.
Proof.
  eexists _, _.
  split; [vm_compute; reflexivity|].
  split; [vm_compute; reflexivity|].
  split; [vm_compute; reflexivity|].
  split; [vm_compute; reflexivity|].
  split; reflexivity.
Qed.

(** C3, amended. In both modes, in a run that returns, the value recorded
    for feature [i] and candidate [j] is
    [round(-best_score / median(y) * 100, 1)], where [best_score] is that
    of the search fitted on the training part of the split and [y] is the
    whole column [i] of the imputed matrix, the one handed to the split,
    with numpy's median of it. The rounding scales by 10, rounds to the
    nearest integer and divides by 10; a quotient that is infinite or NaN
    (as for a median of 0) is recorded as it is. *)
Theorem relative_error_recorded save_to w :
  (∀ w2,
     run_different_models E save_to w = (Ok (), w2) →
     ∃ sf w1 df,
       load_signal_features E w = (Ok sf, w1)
       ∧ files w2 !! (save_to +:+ "grid_search_results.csv") = Some df
       ∧ ∀ (i j : nat) feature name,
           signal_features_names E !! i = Some feature →
           models_names !! j = Some name →
           ∃ grid,
             fit_model E sf i name = Ok grid
             ∧ is_median (column sf i) (median (column sf i))
             ∧ let percent :=
                 - best_score_ E grid / median (column sf i) * 100 in
               df_cell df j i = Some (round percent 1)
               ∧ round percent 1 = rint (percent * 10) / 10
               ∧ (is_finite percent = false → df_cell df j i = Some percent))
  ∧ (∀ w2,
     run_different_pipelines E save_to w = (Ok (), w2) →
     ∃ sf w1 df,
       load_signal_features E w = (Ok sf, w1)
       ∧ files w2 !! (save_to +:+ "grid_search_pipelines_results.csv") = Some df
       ∧ ∀ (i j : nat) feature name,
           signal_features_names E !! i = Some feature →
           pipe_names !! j = Some name →
           ∃ grid,
             fit_pipeline E sf i name = Ok grid
             ∧ is_median (column sf i) (median (column sf i))
             ∧ let percent :=
                 - best_score_ E grid / median (column sf i) * 100 in
               df_cell df j i = Some (round percent 1)
               ∧ round percent 1 = rint (percent * 10) / 10
               ∧ (is_finite percent = false → df_cell df j i = Some percent)).
Proof.
  split; intros w2 Hrun.
  - apply run_different_models_returns in Hrun
      as (sf & w1 & scores & Hload & Hscores & _ & ->).
    pose proof (load_signal_features_shape1 E _ _ _ Hload) as Hshape.
    eexists sf, w1, _. split; [done|]. cbn [files].
    split; [by rewrite lookup_insert_eq|].
    intros i j feature name Hi Hj.
    destruct (model_cell sf scores i j feature name Hshape Hscores Hi Hj)
      as (grid & Hfit & _ & _ & Hcell).
    exists grid. split; [done|]. split; [apply median_is_median|].
    cbv zeta. split; [exact Hcell|]. split; [reflexivity|].
    intros Hinf. rewrite Hcell. unfold relative_error.
    by rewrite round_not_finite.
  - apply run_different_pipelines_returns in Hrun
      as (sf & w1 & scores & Hload & Hscores & _ & ->).
    pose proof (load_signal_features_shape1 E _ _ _ Hload) as Hshape.
    eexists sf, w1, _. split; [done|]. cbn [files].
    split; [by rewrite lookup_insert_eq|].
    intros i j feature name Hi Hj.
    destruct (pipeline_cell sf scores i j feature name Hshape Hscores Hi Hj)
      as (grid & r2 & Hfit & _ & _ & _ & Hcell).
    exists grid. split; [done|]. split; [apply median_is_median|].
    cbv zeta. split; [exact Hcell|]. split; [reflexivity|].
    intros Hinf. rewrite Hcell. unfold relative_error.
    by rewrite round_not_finite.
Qed.

(** Every R² of Mode B reaches the console. *)
Lemma held_out_r2_printed sf (i : nat) name feature (grid : fitted E)
    (r2 : float) :
  i < shape1 sf → name ∈ pipe_names →
  signal_features_names E !! i = Some feature →
  fit_pipeline E sf i name = Ok grid →
  held_out_r2 E sf i grid = Ok r2 →
  Stdout (PrintR2 r2) ∈ map Stdout (pipeline_console E sf).
Proof.
  intros Hi Hname Hfeature Hfit Hr2. unfold pipeline_console.
  apply list_elem_of_In, in_map, in_concat.
  exists (concat (map (pipeline_events E sf i) pipe_names)). split.
  - apply in_map_iff. exists i. split; [done|]. apply in_seq. lia.
  - apply in_concat. exists (pipeline_events E sf i name). split.
    + apply in_map. by apply list_elem_of_In.
    + unfold pipeline_events. rewrite Hfit, Hfeature, Hr2. cbn. tauto.
Qed.

(** The scores of Mode B are the same under another [r2_score], when both
    searches return. *)
Lemma pipeline_scores_r2 sf (r2 : list float → list float → outcome float)
    (scores scores' : list (list float)) :
  pipeline_scores E sf = Ok scores →
  pipeline_scores (with_r2_score E r2) sf = Ok scores' →
  scores' = scores.
Proof.
  intros Hscores Hscores'. symmetry.
  eapply mapM_outcome_agree; [|exact Hscores|exact Hscores'].
  intros i row row' _ Hrow Hrow'. cbv beta in Hrow, Hrow'.
  eapply mapM_outcome_agree; [|exact Hrow|exact Hrow'].
  intros name v v' _. unfold pipeline_score.
  change (fit_pipeline (with_r2_score E r2) sf i name)
    with (fit_pipeline E sf i name).
  destruct (fit_pipeline E sf i name) as [grid|]; [|done].
  cbn [mbind outcome_bind]. intros Hv Hv'.
  destruct (held_out_r2 E sf i grid); [|done].
  destruct (held_out_r2 (with_r2_score E r2) sf i grid); [|done].
  cbn in Hv, Hv'. congruence.
Qed.

(** C4, as stated, fails: on the small store the R² of the first feature
    and the first pipeline is 0.75; the cell written for them holds the
    relative error 12.5, and no cell of the table holds 0.75. *)
Lemma r2_not_in_table :
  ∃ w2 df sf grid,
    run_different_pipelines Fixture.store "out/" Fixture.empty_world
    = (Ok (), w2)
    ∧ files w2 !! "out/grid_search_pipelines_results.csv" = Some df
    ∧ (load_signal_features Fixture.store Fixture.empty_world).1 = Ok sf
    ∧ fit_pipeline Fixture.store sf 0 "min_max" = Ok grid
    ∧ held_out_r2 Fixture.store sf 0 grid = Ok 0.75
    ∧ df_cell df 0 0 = Some 12.5
    ∧ Forall (Forall (λ x, (x =? 0.75) = false)) (df_values df).
Proof.
  eexists _, _, _, _.
  split; [vm_compute; reflexivity|].
  split; [vm_compute; reflexivity|].
  split; [vm_compute; reflexivity|].
  split; [vm_compute; reflexivity|].
  split; [vm_compute; reflexivity|].
  split; [vm_compute; reflexivity|].
  vm_compute. repeat constructor.
Qed.

(** C4, amended. In a run of Mode B that returns, for every feature and
    pipeline the cell written holds the relative error percentage alone;
    the held-out R² has been computed and printed on the console, and the
    file written is the same whatever [r2_score] computes, as long as the
    run returns with it. *)
Theorem held_out_r2_printed_not_recorded save_to w w2 :
  run_different_pipelines E save_to w = (Ok (), w2) →
  ∃ sf w1 df,
    load_signal_features E w = (Ok sf, w1)
    ∧ files w2 !! (save_to +:+ "grid_search_pipelines_results.csv") = Some df
    ∧ (∀ (i j : nat) feature name,
         signal_features_names E !! i = Some feature →
         pipe_names !! j = Some name →
         ∃ grid r2,
           fit_pipeline E sf i name = Ok grid
           ∧ held_out_r2 E sf i grid = Ok r2
           ∧ df_cell df j i = Some (relative_error E grid (column sf i))
           ∧ Stdout (PrintR2 r2) ∈ trace w2)
    ∧ ∀ (r2 : list float → list float → outcome float) w2',
        run_different_pipelines (with_r2_score E r2) save_to w = (Ok (), w2') →
        files w2' = files w2.
Proof.
  intros Hrun.
  apply run_different_pipelines_returns in Hrun
    as (sf & w1 & scores & Hload & Hscores & _ & ->).
  pose proof (load_signal_features_shape1 E _ _ _ Hload) as Hshape.
  eexists sf, w1, _. split; [done|]. cbn [files trace].
  split; [by rewrite lookup_insert_eq|]. split.
  - intros i j feature name Hi Hj.
    destruct (pipeline_cell sf scores i j feature name Hshape Hscores Hi Hj)
      as (grid & r2 & Hfit & Hr2 & _ & _ & Hcell).
    exists grid, r2. split; [done|]. split; [done|]. split; [done|].
    apply elem_of_app. left. apply elem_of_app. right.
    apply lookup_lt_Some in Hi as Hlt. rewrite <- Hshape in Hlt.
    eapply held_out_r2_printed; [done| |done..].
    by eapply list_elem_of_lookup_2.
  - intros r2 w2' Hrun'.
    apply run_different_pipelines_returns in Hrun'
      as (sf' & w1' & scores' & Hload' & Hscores' & _ & ->).
    change (load_signal_features (with_r2_score E r2) w)
      with (load_signal_features E w) in Hload'.
    rewrite Hload in Hload'. injection Hload' as <- <-.
    rewrite (pipeline_scores_r2 sf r2 scores scores') by done.
    reflexivity.
Qed.

(** C9. In both modes, in a run that returns, the files are as before but
    for one: the path [save_to] followed by the file name of the mode,
    which now holds the table, whatever it held; that write is the one
    write of the run and its last effect, after the reads and the
    printing. The rows of the table are the candidate names of the catalog
    in ascending order, its columns the declared feature names in their
    order, and the cell in row [j] and column [i] is the score of feature
    [i] under candidate [j]: the per-feature rows transposed. A run that
    raises, at whatever point, has written no file. *)
Theorem results_written_transposed save_to w :
  (∀ w2,
     run_different_models E save_to w = (Ok (), w2) →
     ∃ sf w1 scores df,
       load_signal_features E w = (Ok sf, w1)
       ∧ model_scores E sf = Ok scores
       ∧ files w2 = <[save_to +:+ "grid_search_results.csv" := df]> (files w)
       ∧ (∃ tables,
            trace w2 = trace w ++ map DbRead tables
                       ++ map Stdout (model_console E sf)
                       ++ [CsvWrite (save_to +:+ "grid_search_results.csv")])
       ∧ df_index df = sorted (keys (get_models_and_parameters RANDOM_STATE).1)
       ∧ df_index df ≡ₚ keys (get_models_and_parameters RANDOM_STATE).1
       ∧ df_index df = ["bayes_ridge"; "elastic"; "lars"; "lasso"; "ridge"]
       ∧ ascending (df_index df) = true
       ∧ df_columns df = signal_features_names E
       ∧ length (df_values df) = length (df_index df)
       ∧ ∀ (i j : nat) feature name,
           signal_features_names E !! i = Some feature →
           df_index df !! j = Some name →
           ∃ v, model_score E sf i name = Ok v
                ∧ scores !! i ≫= (.!! j) = Some v
                ∧ df_cell df j i = Some v)
  ∧ (∀ w2,
     run_different_pipelines E save_to w = (Ok (), w2) →
     ∃ sf w1 scores df,
       load_signal_features E w = (Ok sf, w1)
       ∧ pipeline_scores E sf = Ok scores
       ∧ files w2
         = <[save_to +:+ "grid_search_pipelines_results.csv" := df]> (files w)
       ∧ (∃ tables,
            trace w2 = trace w ++ map DbRead tables
                       ++ map Stdout (pipeline_console E sf)
                       ++ [CsvWrite (save_to +:+ "grid_search_pipelines_results.csv")])
       ∧ df_index df = sorted (keys (get_elastic_pipelines RANDOM_STATE).1)
       ∧ df_index df ≡ₚ keys (get_elastic_pipelines RANDOM_STATE).1
       ∧ df_index df = ["min_max"; "min_max_kbest"; "min_max_perc";
                        "robust"; "robust_kbest"; "robust_perc";
                        "standard"; "standard_kbest"; "standard_perc"]
       ∧ ascending (df_index df) = true
       ∧ df_columns df = signal_features_names E
       ∧ length (df_values df) = length (df_index df)
       ∧ ∀ (i j : nat) feature name,
           signal_features_names E !! i = Some feature →
           df_index df !! j = Some name →
           ∃ v, pipeline_score E sf i name = Ok v
                ∧ scores !! i ≫= (.!! j) = Some v
                ∧ df_cell df j i = Some v)
  ∧ (∀ (e : exn) w2,
       run_different_models E save_to w = (Raise e, w2)
       ∨ run_different_pipelines E save_to w = (Raise e, w2) →
       files w2 = files w).
Proof.
  split; [|split].
  - intros w2 Hrun.
    apply run_different_models_returns in Hrun
      as (sf & w1 & scores & Hload & Hscores & _ & ->).
    pose proof (load_signal_features_shape1 E _ _ _ Hload) as Hshape.
    destruct (load_signal_features_quiet E _ _ _ Hload)
      as [Hfiles [tables Htrace]].
    eexists sf, w1, scores, _. split; [done|]. split; [done|].
    cbn [files trace].
    split; [by rewrite Hfiles|].
    split; [exists tables; by rewrite Htrace, <- !app_assoc|].
    split; [done|]. split; [apply sorted_Permutation|]. split; [done|].
    split; [apply sorted_ascending|]. split; [done|].
    split; [unfold transpose; cbn [df_values df_index df_columns];
            by rewrite length_map, length_seq|].
    intros i j feature name Hi Hj. change (models_names !! j = Some name) in Hj.
    destruct (model_cell sf scores i j feature name Hshape Hscores Hi Hj)
      as (grid & _ & Hscore & Hlookup & Hcell).
    by exists (relative_error E grid (column sf i)).
  - intros w2 Hrun.
    apply run_different_pipelines_returns in Hrun
      as (sf & w1 & scores & Hload & Hscores & _ & ->).
    pose proof (load_signal_features_shape1 E _ _ _ Hload) as Hshape.
    destruct (load_signal_features_quiet E _ _ _ Hload)
      as [Hfiles [tables Htrace]].
    eexists sf, w1, scores, _. split; [done|]. split; [done|].
    cbn [files trace].
    split; [by rewrite Hfiles|].
    split; [exists tables; by rewrite Htrace, <- !app_assoc|].
    split; [done|]. split; [apply sorted_Permutation|]. split; [done|].
    split; [apply sorted_ascending|]. split; [done|].
    split; [unfold transpose; cbn [df_values df_index df_columns];
            by rewrite length_map, length_seq|].
    intros i j feature name Hi Hj. change (pipe_names !! j = Some name) in Hj.
    destruct (pipeline_cell sf scores i j feature name Hshape Hscores Hi Hj)
      as (grid & r2 & _ & _ & Hscore & Hlookup & Hcell).
    by exists (relative_error E grid (column sf i)).
  - intros e w2 [Hrun|Hrun].
    + by eapply run_different_models_fails.
    + by eapply run_different_pipelines_fails.
Qed.

End ResultClaims.

Lemma relative_error_recorded_witness :
  ∃ wA wB,
    run_different_models Fixture.store "out/" Fixture.empty_world = (Ok (), wA)
    ∧ run_different_pipelines Fixture.store "out/" Fixture.empty_world
      = (Ok (), wB)
    ∧ df_values <$> files wA !! "out/grid_search_results.csv"
      = Some [[25; 5]; [18.8; 3.8]; [12.5; 2.5]; [15.6; 3.1]; [15.6; 3.1]]
    ∧ df_values <$> files wB !! "out/grid_search_pipelines_results.csv"
      = Some [[12.5; 2.5]; [18.8; 3.8]; [18.8; 3.8];
              [12.5; 2.5]; [18.8; 3.8]; [18.8; 3.8];
              [12.5; 2.5]; [18.8; 3.8]; [18.8; 3.8]]
    ∧ round (- (- 0.75) / median [4; 4; 8] * 100) 1 = 18.8
    ∧ round (- (- 0.625) / median [4; 4; 8] * 100) 1 = 15.6
    ∧ (∃ sf w1 df,
         load_signal_features Fixture.store Fixture.empty_world = (Ok sf, w1)
         ∧ files wA !! ("out/" +:+ "grid_search_results.csv") = Some df
         ∧ ∀ (i j : nat) feature name,
             signal_features_names Fixture.store !! i = Some feature →
             models_names !! j = Some name →
             ∃ grid,
               fit_model Fixture.store sf i name = Ok grid
               ∧ is_median (column sf i) (median (column sf i))
               ∧ let percent :=
                   - best_score_ Fixture.store grid / median (column sf i) * 100 in
                 df_cell df j i = Some (round percent 1)
                 ∧ round percent 1 = rint (percent * 10) / 10
                 ∧ (is_finite percent = false → df_cell df j i = Some percent))
    ∧ (∃ sf w1 df,
         load_signal_features Fixture.store Fixture.empty_world = (Ok sf, w1)
         ∧ files wB !! ("out/" +:+ "grid_search_pipelines_results.csv") = Some df
         ∧ ∀ (i j : nat) feature name,
             signal_features_names Fixture.store !! i = Some feature →
             pipe_names !! j = Some name →
             ∃ grid,
               fit_pipeline Fixture.store sf i name = Ok grid
               ∧ is_median (column sf i) (median (column sf i))
               ∧ let percent :=
                   - best_score_ Fixture.store grid / median (column sf i) * 100 in
                 df_cell df j i = Some (round percent 1)
                 ∧ round percent 1 = rint (percent * 10) / 10
                 ∧ (is_finite percent = false → df_cell df j i = Some percent)).
Proof.
  destruct (relative_error_recorded Fixture.store "out/" Fixture.empty_world)
    as [HA HB].
  eexists _, _.
  split; [vm_compute; reflexivity|]. split; [vm_compute; reflexivity|].
  split; [vm_compute; reflexivity|]. split; [vm_compute; reflexivity|].
  split; [reflexivity|]. split; [reflexivity|].
  split; [apply HA | apply HB]; vm_compute; reflexivity.
Defined.

Lemma held_out_r2_printed_not_recorded_witness :
  ∃ w2,
    run_different_pipelines Fixture.store "out/" Fixture.empty_world
    = (Ok (), w2)
    ∧ ∃ sf w1 df,
        load_signal_features Fixture.store Fixture.empty_world = (Ok sf, w1)
        ∧ files w2 !! ("out/" +:+ "grid_search_pipelines_results.csv") = Some df
        ∧ (∀ (i j : nat) feature name,
             signal_features_names Fixture.store !! i = Some feature →
             pipe_names !! j = Some name →
             ∃ grid r2,
               fit_pipeline Fixture.store sf i name = Ok grid
               ∧ held_out_r2 Fixture.store sf i grid = Ok r2
               ∧ df_cell df j i
                 = Some (relative_error Fixture.store grid (column sf i))
               ∧ Stdout (PrintR2 r2) ∈ trace w2)
        ∧ ∀ (r2 : list float → list float → outcome float) w2',
            run_different_pipelines (with_r2_score Fixture.store r2) "out/"
              Fixture.empty_world = (Ok (), w2') →
            files w2' = files w2.
Proof.
  eexists. split; [vm_compute; reflexivity|].
  apply (held_out_r2_printed_not_recorded Fixture.store "out/"
           Fixture.empty_world).
  vm_compute; reflexivity.
Defined.

Lemma results_written_transposed_witness :
  ∃ wA wB wC,
    run_different_models Fixture.store "out/" Fixture.empty_world = (Ok (), wA)
    ∧ run_different_pipelines Fixture.store "out/" Fixture.empty_world
      = (Ok (), wB)
    ∧ run_different_pipelines Fixture.store "nowhere/" Fixture.empty_world
      = (Raise OSError, wC)
    ∧ files wC = files Fixture.empty_world
    ∧ (∃ sf w1 scores df,
         load_signal_features Fixture.store Fixture.empty_world = (Ok sf, w1)
         ∧ model_scores Fixture.store sf = Ok scores
         ∧ files wA = <["out/" +:+ "grid_search_results.csv" := df]>
                        (files Fixture.empty_world)
         ∧ (∃ tables,
              trace wA = trace Fixture.empty_world ++ map DbRead tables
                         ++ map Stdout (model_console Fixture.store sf)
                         ++ [CsvWrite ("out/" +:+ "grid_search_results.csv")])
         ∧ df_index df = sorted (keys (get_models_and_parameters RANDOM_STATE).1)
         ∧ df_index df ≡ₚ keys (get_models_and_parameters RANDOM_STATE).1
         ∧ df_index df = ["bayes_ridge"; "elastic"; "lars"; "lasso"; "ridge"]
         ∧ ascending (df_index df) = true
         ∧ df_columns df = signal_features_names Fixture.store
         ∧ length (df_values df) = length (df_index df)
         ∧ ∀ (i j : nat) feature name,
             signal_features_names Fixture.store !! i = Some feature →
             df_index df !! j = Some name →
             ∃ v, model_score Fixture.store sf i name = Ok v
                  ∧ scores !! i ≫= (.!! j) = Some v
                  ∧ df_cell df j i = Some v)
    ∧ (∃ sf w1 scores df,
         load_signal_features Fixture.store Fixture.empty_world = (Ok sf, w1)
         ∧ pipeline_scores Fixture.store sf = Ok scores
         ∧ files wB
           = <["out/" +:+ "grid_search_pipelines_results.csv" := df]>
               (files Fixture.empty_world)
         ∧ (∃ tables,
              trace wB = trace Fixture.empty_world ++ map DbRead tables
                         ++ map Stdout (pipeline_console Fixture.store sf)
                         ++ [CsvWrite ("out/" +:+ "grid_search_pipelines_results.csv")])
         ∧ df_index df = sorted (keys (get_elastic_pipelines RANDOM_STATE).1)
         ∧ df_index df ≡ₚ keys (get_elastic_pipelines RANDOM_STATE).1
         ∧ df_index df = ["min_max"; "min_max_kbest"; "min_max_perc";
                          "robust"; "robust_kbest"; "robust_perc";
                          "standard"; "standard_kbest"; "standard_perc"]
         ∧ ascending (df_index df) = true
         ∧ df_columns df = signal_features_names Fixture.store
         ∧ length (df_values df) = length (df_index df)
         ∧ ∀ (i j : nat) feature name,
             signal_features_names Fixture.store !! i = Some feature →
             df_index df !! j = Some name →
             ∃ v, pipeline_score Fixture.store sf i name = Ok v
                  ∧ scores !! i ≫= (.!! j) = Some v
                  ∧ df_cell df j i = Some v).
Proof.
  destruct (results_written_transposed Fixture.store "out/" Fixture.empty_world)
    as (HA & HB & _).
  destruct (results_written_transposed Fixture.store "nowhere/"
              Fixture.empty_world) as (_ & _ & HC).
  eexists _, _, _.
  split; [vm_compute; reflexivity|]. split; [vm_compute; reflexivity|].
  split; [vm_compute; reflexivity|].
  split; [apply (HC OSError); right; vm_compute; reflexivity|].
  split; [apply HA | apply HB]; vm_compute; reflexivity.
Defined.

(** * Further properties of the script *)

(** ** The imputer on edge inputs *)


Section ImputerExtras.
Implicit Types (a : ndarray float) (c : list float) (i : nat).

(** X1. The imputer keeps the shape of the matrix: the same number of rows
    and of columns, and every row as long as before. *)
Theorem impute_keeps_shape a :
  rectangular a →
  shape0 (impute a) = shape0 a ∧ shape1 (impute a) = shape1 a
  ∧ rectangular (impute a).
Proof.
  intros Hrect. split; [apply impute_shape0|]. split; [apply impute_shape1|].
  unfold rectangular in *. rewrite impute_shape1, impute_rows.
  apply Forall_map. eapply Forall_impl; [exact Hrect|].
  intros r Hr. cbn. unfold imputed_row. by rewrite length_imap.
Qed.

(** X2. A matrix with no -1 in any of its columns comes out of the imputer
    as it went in. *)
Theorem impute_without_sentinel a :
  (∀ i, i < shape1 a → sentinel_free (column a i)) → impute a = a.
Proof.
  intros Hfree. apply ndarray_eq; [apply impute_shape1|].
  rewrite impute_rows. rewrite <- (map_id (nd_rows a)) at 2.
  apply map_ext_in. intros r Hr. unfold imputed_row.
  apply list_eq; intros j. rewrite list_lookup_imap.
  destruct (r !! j) as [x|] eqn:Hx; [|done].
  cbn [fmap option_fmap option_map]. f_equal.
  destruct (j <? shape1 a)%nat eqn:Hj; [|done]. apply Nat.ltb_lt in Hj.
  specialize (Hfree j Hj). unfold sentinel_free, column in Hfree.
  rewrite Forall_map, Forall_forall in Hfree.
  specialize (Hfree r (proj2 (list_elem_of_In _ _) Hr)).
  cbn in Hfree. rewrite Hx in Hfree. cbn in Hfree. by rewrite Hfree.
Qed.

(** X3. When a column holds a NaN its median is NaN, and the imputer
    overwrites every -1 of that column with NaN. *)
Theorem impute_nan_column a i :
  i < shape1 a →
  Exists (λ x, isnan x = true) (column a i) →
  median (column a i) = nan
  ∧ column (impute a) i
    = map (λ x, if x =? sentinel then nan else x) (column a i).
Proof.
  intros Hi Hnan. pose proof (median_nan _ Hnan) as Hmed.
  split; [done|]. rewrite impute_column_spec by done. by rewrite Hmed.
Qed.

(** X4. A column with nothing but -1 entries has median -1 and is left as
    it is: a feature missing in every row stays missing. *)
Theorem impute_all_missing a i :
  i < shape1 a →
  Forall (λ x, (x =? sentinel) = true) (column a i) →
  column (impute a) i = column a i.
Proof.
  intros Hi Hall. rewrite impute_column_spec by done.
  apply Forall_sentinel_repeat in Hall.
  destruct (length (column a i)) as [|n] eqn:Hlen.
  - apply nil_length_inv in Hlen. by rewrite Hlen.
  - rewrite Hall at 1. rewrite median_repeat_sentinel.
    rewrite (map_ext _ id) by apply fill_sentinel. apply map_id.
Qed.

End ImputerExtras.

Lemma impute_keeps_shape_witness :
  shape0 (impute (NDArray 2 [[4; -1]; [-1; 10]; [8; 40]])) = 3%nat
  ∧ shape1 (impute (NDArray 2 [[4; -1]; [-1; 10]; [8; 40]])) = 2%nat
  ∧ rectangular (impute (NDArray 2 [[4; -1]; [-1; 10]; [8; 40]])).
Proof.
  apply (impute_keeps_shape (NDArray 2 [[4; -1]; [-1; 10]; [8; 40]])).
  repeat constructor.
Defined.

Lemma impute_without_sentinel_witness :
  impute (NDArray 2 [[4; 1]; [6; 10]]) = NDArray 2 [[4; 1]; [6; 10]].
Proof.
  apply (impute_without_sentinel (NDArray 2 [[4; 1]; [6; 10]])).
  intros i Hi. cbn in Hi.
  destruct i as [|[|i]]; [repeat constructor .. | lia].
Defined.

Lemma impute_nan_column_witness :
  median (column (NDArray 1 [[-1]; [nan]; [5]]) 0) = nan
  ∧ column (impute (NDArray 1 [[-1]; [nan]; [5]])) 0
    = map (λ x, if x =? sentinel then nan else x)
          (column (NDArray 1 [[-1]; [nan]; [5]]) 0).
Proof.
  apply (impute_nan_column (NDArray 1 [[-1]; [nan]; [5]]) 0); [cbn; lia|].
  apply Exists_cons_tl, Exists_cons_hd. reflexivity.
Defined.

Lemma impute_all_missing_witness :
  column (impute (NDArray 2 [[-1; 3]; [-1; 4]])) 0
  = column (NDArray 2 [[-1; 3]; [-1; 4]]) 0.
Proof.
  apply (impute_all_missing (NDArray 2 [[-1; 3]; [-1; 4]]) 0); [cbn; lia|].
  repeat constructor.
Defined.

(** ** The data loader: what it returns and how it fails *)

Section LoaderExtras.
Context (E : Externals).
Local Open Scope nat_scope.
Implicit Types (w : world) (path : string) (db : list (list (cell E)))
  (cn : list string).

(** Lines 26-33 once both tables are in hand. *)
Definition assemble db1 cn1 db2 cn2
  : outcome (ndarray (cell E) * ndarray float * list string) :=
  meta ← cols_to 4 <$> two_dim (np_array db1);
  numeric_1 ← (a ← two_dim (np_array db1); astype E (cols_from 4 a));
  numeric_2 ← (a ← two_dim (np_array db2); astype E (cols_from 4 a));
  features ← hstack numeric_1 numeric_2;
  Ok (meta, features, cn1 ++ drop 4 cn2).

(** With a connection the loader reads both tables, in order, and then
    only computes. *)
Lemma get_features_data_connected path (c : conn E) db1 cn1 db2 cn2 w :
  create_connection E path = Some c →
  fetch_table E c "qc_features_1" = (db1, cn1) →
  fetch_table E c "qc_features_2" = (db2, cn2) →
  get_features_data E path w
  = (assemble db1 cn1 db2 cn2,
     mkWorld (trace w ++ [DbRead "qc_features_1"; DbRead "qc_features_2"])
             (files w) (dirs w)).
Proof.
  intros Hc Hf1 Hf2. unfold get_features_data, assemble. rewrite Hc.
  unfold mbind at 1, py_bind at 1, fetch at 1. rewrite Hf1.
  unfold mbind at 1, py_bind at 1, fetch at 1. rewrite Hf2.
  cbn [trace files]. rewrite <- app_assoc. cbn [app].
  unfold mbind, py_bind, lift, mret, py_ret, outcome_bind, outcome_ret.
  repeat case_match; by simplify_eq.
Qed.

Lemma astype_outcome (a : ndarray (cell E)) :
  (∃ rows, astype E a = Ok (NDArray (shape1 a) rows)
           ∧ mapM (mapM (astype_float E)) (nd_rows a) = Some rows
           ∧ castable E a)
  ∨ (astype E a = Raise ValueError ∧ ¬ castable E a).
Proof.
  unfold astype.
  destruct (mapM (mapM (astype_float E)) (nd_rows a)) as [rows|] eqn:Hrows.
  - left. exists rows. split; [done|]. split; [done|].
    apply mapM_Some in Hrows. apply Forall_forall. intros r Hr.
    apply list_elem_of_lookup in Hr as [k Hk].
    destruct (Forall2_lookup_l _ _ _ _ _ Hrows Hk) as (s & _ & Hs).
    apply mapM_is_Some. by exists s.
  - right. split; [done|]. intros Hc.
    destruct (astype_castable E a Hc) as (rows & Ha & _).
    unfold astype in Ha. by rewrite Hrows in Ha.
Qed.

Lemma assemble_raises db1 cn1 db2 cn2 (e : exn) :
  assemble db1 cn1 db2 cn2 = Raise e → e = ValueError ∨ e = IndexError.
Proof.
  unfold assemble, two_dim, hstack.
  destruct (np_array db1) as [a1|]; cbn; [|intros [= <-]; by right].
  destruct (astype_outcome (cols_from 4 a1)) as [(r1 & -> & _)|[-> _]]; cbn;
    [|intros [= <-]; by left].
  destruct (np_array db2) as [a2|]; cbn; [|intros [= <-]; by right].
  destruct (astype_outcome (cols_from 4 a2)) as [(r2 & -> & _)|[-> _]]; cbn;
    [|intros [= <-]; by left].
  case_match; cbn; [done|]. intros [= <-]. by left.
Qed.

(** X5. Whatever the store holds, a loader that fails raises [ValueError]
    or [IndexError] and nothing else, and has changed no file. *)
Theorem loader_raises_only path w (e : exn) w' :
  get_features_data E path w = (Raise e, w') →
  (e = ValueError ∨ e = IndexError) ∧ files w' = files w.
Proof.
  intros Hrun. split; [|by eapply get_features_data_quiet].
  destruct (create_connection E path) as [c|] eqn:Hc.
  - destruct (fetch_table E c "qc_features_1") as [db1 cn1] eqn:Hf1.
    destruct (fetch_table E c "qc_features_2") as [db2 cn2] eqn:Hf2.
    rewrite (get_features_data_connected _ _ _ _ _ _ _ Hc Hf1 Hf2) in Hrun.
    injection Hrun as Hrun _. by eapply assemble_raises.
  - unfold get_features_data in Hrun. rewrite Hc in Hrun.
    injection Hrun as <- _. by left.
Qed.

(** X6. Two castable tables with rows but not equally many make the loader
    raise [ValueError], after both tables have been read. *)
Theorem loader_row_mismatch path (c : conn E) db1 cn1 db2 cn2 (n1 n2 : nat) w :
  create_connection E path = Some c →
  fetch_table E c "qc_features_1" = (db1, cn1) →
  fetch_table E c "qc_features_2" = (db2, cn2) →
  db1 ≠ [] → db2 ≠ [] →
  Forall (λ r, length r = n1) db1 → Forall (λ r, length r = n2) db2 →
  castable E (cols_from 4 (NDArray n1 db1)) →
  castable E (cols_from 4 (NDArray n2 db2)) →
  length db1 ≠ length db2 →
  get_features_data E path w
  = (Raise ValueError,
     mkWorld (trace w ++ [DbRead "qc_features_1"; DbRead "qc_features_2"])
             (files w) (dirs w)).
Proof.
  intros Hc Hf1 Hf2 Hne1 Hne2 Hr1 Hr2 Hc1 Hc2 Hlen.
  rewrite (get_features_data_connected _ _ _ _ _ _ _ Hc Hf1 Hf2). f_equal.
  unfold assemble.
  rewrite (np_array_rectangular db1 n1), (np_array_rectangular db2 n2) by done.
  destruct (astype_castable E _ Hc1) as (rows1 & Ha1 & Hl1).
  destruct (astype_castable E _ Hc2) as (rows2 & Ha2 & Hl2).
  cbn [two_dim or_raise fmap outcome_fmap mbind outcome_bind].
  rewrite Ha1, Ha2. cbn [mbind outcome_bind].
  apply Forall2_length in Hl1, Hl2. cbn [cols_from nd_rows] in Hl1, Hl2.
  rewrite length_map in Hl1, Hl2.
  unfold hstack, shape0. cbn [nd_rows].
  rewrite (proj2 (Nat.eqb_neq _ _)) by congruence. done.
Qed.

(** X7. A value from the fifth column on that cannot be cast, in either
    table, makes the loader raise [ValueError]. *)
Theorem loader_uncastable path (c : conn E) db1 cn1 db2 cn2 (n1 n2 : nat) w :
  create_connection E path = Some c →
  fetch_table E c "qc_features_1" = (db1, cn1) →
  fetch_table E c "qc_features_2" = (db2, cn2) →
  db1 ≠ [] → db2 ≠ [] →
  Forall (λ r, length r = n1) db1 → Forall (λ r, length r = n2) db2 →
  ¬ castable E (cols_from 4 (NDArray n1 db1))
  ∨ ¬ castable E (cols_from 4 (NDArray n2 db2)) →
  (get_features_data E path w).1 = Raise ValueError.
Proof.
  intros Hc Hf1 Hf2 Hne1 Hne2 Hr1 Hr2 Hbad.
  rewrite (get_features_data_connected _ _ _ _ _ _ _ Hc Hf1 Hf2). cbn [fst].
  unfold assemble.
  rewrite (np_array_rectangular db1 n1), (np_array_rectangular db2 n2) by done.
  cbn [two_dim or_raise fmap outcome_fmap mbind outcome_bind].
  destruct (astype_outcome (cols_from 4 (NDArray n1 db1)))
    as [(r1 & -> & _ & Hc1)|[-> _]]; [|done].
  cbn [mbind outcome_bind].
  destruct (astype_outcome (cols_from 4 (NDArray n2 db2)))
    as [(r2 & _ & _ & Hc2)|[-> _]]; [|done].
  by destruct Hbad.
Qed.

(** X8. A first table without rows makes the loader raise [IndexError] at
    the metadata slice; so does a second table without rows once the first
    has been cast. *)
Theorem loader_table_without_rows path (c : conn E) db1 cn1 db2 cn2
    (n1 : nat) w :
  create_connection E path = Some c →
  fetch_table E c "qc_features_1" = (db1, cn1) →
  fetch_table E c "qc_features_2" = (db2, cn2) →
  db1 = []
  ∨ (db2 = [] ∧ db1 ≠ [] ∧ Forall (λ r, length r = n1) db1
     ∧ castable E (cols_from 4 (NDArray n1 db1))) →
  (get_features_data E path w).1 = Raise IndexError.
Proof.
  intros Hc Hf1 Hf2 Hempty.
  rewrite (get_features_data_connected _ _ _ _ _ _ _ Hc Hf1 Hf2). cbn [fst].
  unfold assemble. destruct Hempty as [-> | (-> & Hne & Hr1 & Hc1)]; [done|].
  rewrite (np_array_rectangular db1 n1) by done.
  destruct (astype_castable E _ Hc1) as (rows1 & Ha1 & _).
  cbn [two_dim or_raise fmap outcome_fmap mbind outcome_bind].
  by rewrite Ha1.
Qed.

(** Column [k] of a table, cast. *)
Definition cast_column db (k : nat) : list float :=
  map (λ r, default nan (r !! k ≫= astype_float E)) db.

Lemma assemble_Ok db1 cn1 db2 cn2 (n1 n2 : nat) :
  db1 ≠ [] → length db1 = length db2 →
  Forall (λ r, length r = n1) db1 → Forall (λ r, length r = n2) db2 →
  castable E (cols_from 4 (NDArray n1 db1)) →
  castable E (cols_from 4 (NDArray n2 db2)) →
  ∃ rows1 rows2,
    assemble db1 cn1 db2 cn2
    = Ok (cols_to 4 (NDArray n1 db1),
          NDArray (n1 - 4 + (n2 - 4)) (zip_with app rows1 rows2),
          cn1 ++ drop 4 cn2)
    ∧ mapM (mapM (astype_float E)) (map (drop 4) db1) = Some rows1
    ∧ mapM (mapM (astype_float E)) (map (drop 4) db2) = Some rows2.
Proof.
  intros Hne Hlen Hr1 Hr2 Hc1 Hc2.
  assert (db2 ≠ []) as Hne2 by (destruct db1, db2; done).
  destruct (astype_outcome (cols_from 4 (NDArray n1 db1)))
    as [(rows1 & Ha1 & Hm1 & _)|[_ ?]]; [|done].
  destruct (astype_outcome (cols_from 4 (NDArray n2 db2)))
    as [(rows2 & Ha2 & Hm2 & _)|[_ ?]]; [|done].
  exists rows1, rows2. split; [|done].
  unfold assemble.
  rewrite (np_array_rectangular db1 n1), (np_array_rectangular db2 n2) by done.
  cbn [two_dim or_raise fmap outcome_fmap mbind outcome_bind].
  rewrite Ha1, Ha2. cbn [mbind outcome_bind cols_from shape1].
  apply length_mapM in Hm1, Hm2. cbn [cols_from nd_rows] in Hm1, Hm2.
  rewrite length_map in Hm1, Hm2.
  unfold hstack, shape0. cbn [nd_rows shape1].
  by rewrite (proj2 (Nat.eqb_eq _ _)) by congruence.
Qed.

(** The entry [j] of a cast row is the cast of entry [4 + j]. *)
Lemma cast_row_lookup (r : list (cell E)) (r' : list float) (j : nat) :
  mapM (astype_float E) (drop 4 r) = Some r' →
  4 + j < length r →
  default nan (r' !! j) = default nan (r !! (4 + j) ≫= astype_float E)
  ∧ j < length r'.
Proof.
  intros Hm Hj. apply mapM_Some in Hm.
  destruct (lookup_lt_is_Some_2 r (4 + j) Hj) as [x Hx].
  assert (drop 4 r !! j = Some x) as Hd by (by rewrite lookup_drop).
  destruct (Forall2_lookup_l _ _ _ _ _ Hm Hd) as (y & Hy & Hxy).
  rewrite Hy, Hx. cbn. rewrite Hxy. split; [done|]. by eapply lookup_lt_Some.
Qed.

(** The feature matrix column by column: the cast columns of table 1 from
    its fifth on, then those of table 2. *)
Lemma assembled_columns db1 cn1 db2 cn2 (n1 n2 : nat) :
  db1 ≠ [] → length db1 = length db2 →
  Forall (λ r, length r = n1) db1 → Forall (λ r, length r = n2) db2 →
  4 ≤ n1 →
  castable E (cols_from 4 (NDArray n1 db1)) →
  castable E (cols_from 4 (NDArray n2 db2)) →
  ∃ features,
    assemble db1 cn1 db2 cn2
    = Ok (cols_to 4 (NDArray n1 db1), features, cn1 ++ drop 4 cn2)
    ∧ shape1 features = n1 - 4 + (n2 - 4)
    ∧ (∀ j, 4 + j < n1 → column features j = cast_column db1 (4 + j))
    ∧ (∀ j, 4 + j < n2 →
         column features (n1 - 4 + j) = cast_column db2 (4 + j)).
Proof.
  intros Hne Hlen Hr1 Hr2 Hn1 Hc1 Hc2.
  destruct (assemble_Ok db1 cn1 db2 cn2 n1 n2 Hne Hlen Hr1 Hr2 Hc1 Hc2)
    as (rows1 & rows2 & -> & Hm1 & Hm2).
  eexists. split; [reflexivity|]. split; [done|].
  apply mapM_Some in Hm1, Hm2.
  pose proof (Forall2_length _ _ _ Hm1) as Hl1.
  pose proof (Forall2_length _ _ _ Hm2) as Hl2.
  rewrite length_map in Hl1, Hl2.
  rewrite Forall_lookup in Hr1, Hr2.
  assert (∀ k r1 r2, rows1 !! k = Some r1 → rows2 !! k = Some r2 →
            ∃ t1 t2, db1 !! k = Some t1 ∧ db2 !! k = Some t2
                     ∧ mapM (astype_float E) (drop 4 t1) = Some r1
                     ∧ mapM (astype_float E) (drop 4 t2) = Some r2) as Hrows.
  { intros k r1 r2 Hk1 Hk2.
    destruct (Forall2_lookup_r _ _ _ _ _ Hm1 Hk1) as (s1 & Hs1 & Hx1).
    destruct (Forall2_lookup_r _ _ _ _ _ Hm2 Hk2) as (s2 & Hs2 & Hx2).
    apply list_lookup_fmap_Some in Hs1 as (t1 & -> & Ht1).
    apply list_lookup_fmap_Some in Hs2 as (t2 & -> & Ht2).
    by exists t1, t2. }
  split.
  - intros j Hj.
    unfold column, cast_column. cbn [nd_rows].
    apply list_eq; intros k. rewrite !list_lookup_fmap, lookup_zip_with.
    destruct (rows1 !! k) as [r1|] eqn:Hk1; cbn.
    + destruct (lookup_lt_is_Some_2 rows2 k) as [r2 Hk2].
      { apply lookup_lt_Some in Hk1. lia. }
      rewrite Hk2. cbn.
      destruct (Hrows k r1 r2 Hk1 Hk2) as (t1 & t2 & Ht1 & Ht2 & Hx1 & Hx2).
      rewrite Ht1. cbn. f_equal.
      destruct (cast_row_lookup t1 r1 j Hx1) as [Heq Hlt].
      { rewrite (Hr1 _ _ Ht1). lia. }
      cbn in Heq. rewrite <- Heq. by rewrite lookup_app_l.
    + apply lookup_ge_None in Hk1.
      by rewrite (proj2 (lookup_ge_None db1 k)) by lia.
  - intros j Hj.
    unfold column, cast_column. cbn [nd_rows].
    apply list_eq; intros k. rewrite !list_lookup_fmap, lookup_zip_with.
    destruct (rows1 !! k) as [r1|] eqn:Hk1; cbn.
    + destruct (lookup_lt_is_Some_2 rows2 k) as [r2 Hk2].
      { apply lookup_lt_Some in Hk1. lia. }
      rewrite Hk2. cbn.
      destruct (Hrows k r1 r2 Hk1 Hk2) as (t1 & t2 & Ht1 & Ht2 & Hx1 & Hx2).
      rewrite Ht2. cbn. f_equal.
      destruct (cast_row_lookup t2 r2 j Hx2) as [Heq Hlt].
      { rewrite (Hr2 _ _ Ht2). lia. }
      cbn in Heq. rewrite <- Heq.
      apply length_mapM in Hx1. rewrite length_drop, (Hr1 _ _ Ht1) in Hx1.
      rewrite lookup_app_r by lia. do 2 f_equal. lia.
    + apply lookup_ge_None in Hk1.
      by rewrite (proj2 (lookup_ge_None db2 k)) by lia.
Qed.

(** X9. The column names the loader returns line up with the feature
    matrix: name [4 + j] is the name of the table column whose cast values
    fill feature column [j], first the columns of table 1 from its fifth
    on, then those of table 2. *)
Theorem loader_names_match_columns path (c : conn E) db1 cn1 db2 cn2
    (n1 n2 : nat) w :
  create_connection E path = Some c →
  fetch_table E c "qc_features_1" = (db1, cn1) →
  fetch_table E c "qc_features_2" = (db2, cn2) →
  db1 ≠ [] → length db1 = length db2 →
  Forall (λ r, length r = n1) db1 → Forall (λ r, length r = n2) db2 →
  4 ≤ n1 → length cn1 = n1 →
  castable E (cols_from 4 (NDArray n1 db1)) →
  castable E (cols_from 4 (NDArray n2 db2)) →
  ∃ meta features colnames,
    (get_features_data E path w).1 = Ok (meta, features, colnames)
    ∧ (∀ j, 4 + j < n1 →
         colnames !! (4 + j) = cn1 !! (4 + j)
         ∧ column features j = cast_column db1 (4 + j))
    ∧ (∀ j, 4 + j < n2 →
         colnames !! (n1 + j) = cn2 !! (4 + j)
         ∧ column features (n1 - 4 + j) = cast_column db2 (4 + j)).
Proof.
  intros Hc Hf1 Hf2 Hne Hlen Hr1 Hr2 Hn1 Hcn1 Hc1 Hc2.
  rewrite (get_features_data_connected _ _ _ _ _ _ _ Hc Hf1 Hf2). cbn [fst].
  destruct (assembled_columns db1 cn1 db2 cn2 n1 n2 Hne Hlen Hr1 Hr2 Hn1 Hc1 Hc2)
    as (features & -> & _ & Hcol1 & Hcol2).
  eexists _, _, _. split; [reflexivity|]. split.
  - intros j Hj. split; [apply lookup_app_l; lia|by apply Hcol1].
  - intros j Hj. split; [|by apply Hcol2].
    rewrite lookup_app_r by lia. rewrite lookup_drop. f_equal. lia.
Qed.

End LoaderExtras.

(** Stores for the failures of the loader: a second table one row short,
    and a table with a value that is no number. *)
Definition short_table_store : Externals :=
  Fixture.store_with (λ _, Some ()) Fixture.table_1
    ([[0; 0; 0; 0; 10]; [1; 0; 0; 0; 20]], Fixture.table_2.2) ["a"; "c"].

Definition text_store : Externals := {|
  conn := unit;
  cell := option float;
  create_connection := λ _, Some ();
  fetch_table := λ _ name,
    if String.eqb name "qc_features_1"
    then ([[Some 0; Some 0; Some 0; Some 0; None]],
          ["id"; "date"; "quality"; "batch"; "a"])
    else ([[Some 0; Some 0; Some 0; Some 0; Some 1]],
          ["id"; "date"; "quality"; "batch"; "c"]);
  astype_float := id;
  signal_features_names := ["a"; "c"];
  train_test_split := λ X y _ _, Ok (X, X, y, y);
  fitted := nat;
  grid_search_fit := λ _ grid _ _ _ _ _, Ok (length grid);
  best_score_ := λ g, - (Fixture.float_of_nat (S g) / 8);
  best_params_ := λ _, [];
  predict := λ _ _, Ok [];
  r2_score := λ _ _, Ok 0.75
|}.

Lemma loader_raises_only_witness :
  (IndexError = ValueError ∨ IndexError = IndexError)
  ∧ files Fixture.loaded = files Fixture.empty_world.
Proof.
  apply (loader_raises_only Fixture.no_rows "metrics.sqlite"
           Fixture.empty_world IndexError Fixture.loaded).
  reflexivity.
Defined.

Lemma loader_row_mismatch_witness :
  get_features_data short_table_store "metrics.sqlite" Fixture.empty_world
  = (Raise ValueError,
     mkWorld (trace Fixture.empty_world
              ++ [DbRead "qc_features_1"; DbRead "qc_features_2"])
             (files Fixture.empty_world) (dirs Fixture.empty_world)).
Proof.
  apply (loader_row_mismatch short_table_store "metrics.sqlite" ()
           Fixture.table_1.1 Fixture.table_1.2
           [[0; 0; 0; 0; 10]; [1; 0; 0; 0; 20]] Fixture.table_2.2
           6 5 Fixture.empty_world);
    try reflexivity; try discriminate; try (cbn; lia);
    repeat (constructor; try by eexists).
Defined.

Lemma loader_uncastable_witness :
  (get_features_data text_store "metrics.sqlite" Fixture.empty_world).1
  = Raise ValueError.
Proof.
  apply (loader_uncastable text_store "metrics.sqlite" ()
           [[Some 0; Some 0; Some 0; Some 0; None]]
           ["id"; "date"; "quality"; "batch"; "a"]
           [[Some 0; Some 0; Some 0; Some 0; Some 1]]
           ["id"; "date"; "quality"; "batch"; "c"]
           5 5 Fixture.empty_world);
    [reflexivity | reflexivity | reflexivity | discriminate | discriminate
    | repeat constructor | repeat constructor | ].
  left. intros Hc. apply Forall_inv, Forall_inv in Hc.
  destruct Hc as [x Hx]. discriminate Hx.
Defined.

Lemma loader_table_without_rows_witness :
  (get_features_data Fixture.no_rows "metrics.sqlite" Fixture.empty_world).1
  = Raise IndexError.
Proof.
  apply (loader_table_without_rows Fixture.no_rows "metrics.sqlite" ()
           [] Fixture.table_1.2 [] Fixture.table_2.2 6 Fixture.empty_world);
    try reflexivity.
  by left.
Defined.

Lemma loader_names_match_columns_witness :
  ∃ meta features colnames,
    (get_features_data Fixture.store "metrics.sqlite" Fixture.empty_world).1
    = Ok (meta, features, colnames)
    ∧ (∀ j : nat, (4 + j < 6)%nat →
         colnames !! (4 + j)%nat = Fixture.table_1.2 !! (4 + j)%nat
         ∧ column features j
           = cast_column Fixture.store Fixture.table_1.1 (4 + j))
    ∧ (∀ j : nat, (4 + j < 5)%nat →
         colnames !! (6 + j)%nat = Fixture.table_2.2 !! (4 + j)%nat
         ∧ column features (6 - 4 + j)
           = cast_column Fixture.store Fixture.table_2.1 (4 + j)).
Proof.
  apply (loader_names_match_columns Fixture.store "metrics.sqlite" ()
           Fixture.table_1.1 Fixture.table_1.2
           Fixture.table_2.1 Fixture.table_2.2 6 5 Fixture.empty_world);
    try reflexivity; try discriminate; try (cbn; lia);
    repeat (constructor; try by eexists).
Defined.

(** ** The feature selector: shape, failures and the columns it picks *)

Section SelectorExtras.
Context (E : Externals).
Local Open Scope nat_scope.
Implicit Types (names : list string) (f g : string) (features : ndarray float).

Lemma list_index_None_inv names f : list_index names f = None → f ∉ names.
Proof.
  induction names as [|g names IH]; cbn; [intros _; apply not_elem_of_nil|].
  destruct (String.eqb_spec g f) as [->|Hne]; [done|].
  destruct (list_index names f); [done|]. intros _.
  apply not_elem_of_cons. split; [done|]. by apply IH.
Qed.

Lemma list_index_lt names f (k : nat) :
  list_index names f = Some k → names !! k = Some f ∧ k < length names.
Proof.
  intros H. apply list_index_Some in H as [H _]. split; [done|].
  by eapply lookup_lt_Some.
Qed.

Lemma mapM_outcome_inv {A B} (m : A → outcome B) (l : list A) :
  match mapM m l with
  | Ok k => Forall2 (λ x y, m x = Ok y) l k
  | Raise e => Exists (λ x, m x = Raise e) l
  end.
Proof.
  induction l as [|x l IH]; cbn; [constructor|].
  destruct (m x) as [y|e] eqn:Hx; cbn; [|by apply Exists_cons_hd].
  destruct (mapM m l) as [k|e]; cbn.
  - by constructor.
  - by apply Exists_cons_tl.
Qed.

(** X10. A selection that returns has one column per declared name, the
    rows of the feature matrix, and every row complete. *)
Theorem select_shape features names (sf : ndarray float) :
  select_signal_features E features names = Ok sf →
  shape1 sf = length (signal_features_names E)
  ∧ shape0 sf = shape0 features
  ∧ rectangular sf.
Proof.
  unfold select_signal_features. intros Hsel.
  destruct (mapM _ (signal_features_names E)) as [idx|] eqn:Hidx; [|done].
  apply mapM_outcome_length in Hidx. cbn in Hsel. unfold take_columns in Hsel.
  destruct idx as [|z idx]; [done|].
  destruct (mapM _ (z :: idx)) as [js|] eqn:Hjs; [|done].
  injection Hsel as <-. apply length_mapM in Hjs.
  unfold shape0, rectangular. cbn [shape1 nd_rows].
  split; [congruence|]. split; [by rewrite length_map|].
  apply Forall_map, Forall_forall. intros r _. cbn. by rewrite length_map.
Qed.

(** X11. A selection that fails raises [ValueError] when a declared name
    is not among the column names, and [IndexError] when all are; it
    raises nothing else. *)
Theorem select_raises_only features names (e : exn) :
  select_signal_features E features names = Raise e →
  (e = ValueError ∧ Exists (λ f, f ∉ names) (signal_features_names E))
  ∨ (e = IndexError ∧ Forall (λ f, f ∈ names) (signal_features_names E)).
Proof.
  unfold select_signal_features. intros Hsel.
  pose proof (mapM_outcome_inv (feature_offset names) (signal_features_names E))
    as Hinv.
  destruct (mapM _ (signal_features_names E)) as [idx|e'] eqn:Hidx.
  - right. cbn in Hsel. split.
    + unfold take_columns in Hsel. destruct idx; [by injection Hsel|].
      destruct (mapM _ (_ :: _)); [done|]. by injection Hsel.
    + eapply Forall2_Forall_l; [exact Hinv|]. apply Forall_true.
      intros y f Hf. unfold feature_offset in Hf.
      destruct (list_index names f) as [k|] eqn:Hk; [|done].
      apply list_index_lt in Hk as [Hk _]. by eapply list_elem_of_lookup_2.
  - left. cbn in Hsel. injection Hsel as ->.
    assert (Exists (λ f, e = ValueError ∧ f ∉ names) (signal_features_names E))
      as Hex.
    { eapply Exists_impl; [exact Hinv|]. intros f Hf. cbn in Hf.
      unfold feature_offset in Hf.
      destruct (list_index names f) eqn:Hk; [done|]. cbn in Hf.
      split; [congruence|]. by apply list_index_None_inv. }
    split.
    + apply Exists_exists in Hex as (f & _ & He & _). done.
    + eapply Exists_impl; [exact Hex|]. by intros f [_ ?].
Qed.

Lemma take_columns_Ok features (idx : list Z) (js : list nat) :
  idx ≠ [] → mapM (wrap_index (shape1 features)) idx = Some js →
  take_columns features idx
  = Ok (NDArray (length js)
          (map (λ r, map (λ j, default nan (r !! j)) js) (nd_rows features))).
Proof.
  intros Hne Hjs. unfold take_columns. rewrite Hjs. by destruct idx.
Qed.

(** With every declared name present and every offset in range, the
    selection returns and column [p] is the one the offset of name [p]
    points at. *)
Lemma select_in_range features names :
  signal_features_names E ≠ [] →
  Forall (λ g, ∃ j, list_index names g = Some j
                    ∧ 4 ≤ j + shape1 features ∧ j < 4 + shape1 features)
         (signal_features_names E) →
  ∃ sf, select_signal_features E features names = Ok sf
        ∧ ∀ (p k : nat) f,
            signal_features_names E !! p = Some f →
            list_index names f = Some k →
            column sf p = column features (selected_column (shape1 features) k).
Proof.
  intros Hne Hall.
  set (pos g := default 0 (list_index names g)).
  assert (mapM (feature_offset names) (signal_features_names E)
          = Ok (map (λ g, Z.of_nat (pos g) - 4)%Z (signal_features_names E)))
    as Hidx.
  { apply mapM_outcome_Ok. eapply Forall_impl; [exact Hall|].
    intros g (j & Hj & _). unfold feature_offset, pos. by rewrite Hj. }
  assert (mapM (wrap_index (shape1 features))
            (map (λ g, Z.of_nat (pos g) - 4)%Z (signal_features_names E))
          = Some (map (λ g, selected_column (shape1 features) (pos g))
                      (signal_features_names E))) as Hjs.
  { apply mapM_Some, Forall2_fmap, Forall_Forall2_diag.
    eapply Forall_impl; [exact Hall|].
    intros g (j & Hj & Hlo & Hhi). unfold pos. rewrite Hj. cbn [default].
    by apply wrap_index_offset. }
  unfold select_signal_features. rewrite Hidx. cbn [mbind outcome_bind].
  assert (map (λ g, Z.of_nat (pos g) - 4)%Z (signal_features_names E) ≠ [])
    as Hidx_ne by (by destruct (signal_features_names E)).
  rewrite (take_columns_Ok _ _ _ Hidx_ne Hjs).
  eexists. split; [reflexivity|].
  intros p k f Hp Hk. unfold column. cbn [nd_rows].
  rewrite map_map. apply map_ext; intros r.
  rewrite list_lookup_fmap, list_lookup_fmap, Hp.
  cbn [fmap option_fmap option_map default]. unfold pos. by rewrite Hk.
Qed.

(** X12. When every declared name is the name of a numeric column (its
    first occurrence among the column names is past the four metadata
    names), loading and selecting return, and the column selected for a
    name holds the cast values of the table column of that name: a column
    of table 1 for a position below its width, a column of table 2
    otherwise. *)
Theorem named_columns_selected path (c : conn E)
    (db1 db2 : list (list (cell E))) (cn1 cn2 : list string) (n1 n2 : nat) w :
  create_connection E path = Some c →
  fetch_table E c "qc_features_1" = (db1, cn1) →
  fetch_table E c "qc_features_2" = (db2, cn2) →
  db1 ≠ [] → length db1 = length db2 →
  Forall (λ r, length r = n1) db1 → Forall (λ r, length r = n2) db2 →
  4 ≤ n1 → 4 ≤ n2 → length cn1 = n1 → length cn2 = n2 →
  castable E (cols_from 4 (NDArray n1 db1)) →
  castable E (cols_from 4 (NDArray n2 db2)) →
  signal_features_names E ≠ [] →
  Forall (λ g, ∃ k, list_index (cn1 ++ drop 4 cn2) g = Some k ∧ 4 ≤ k)
         (signal_features_names E) →
  ∃ meta features colnames sf,
    (get_features_data E path w).1 = Ok (meta, features, colnames)
    ∧ select_signal_features E features colnames = Ok sf
    ∧ ∀ (p k : nat) f,
        signal_features_names E !! p = Some f →
        list_index colnames f = Some k →
        colnames !! k = Some f
        ∧ column sf p = if k <? n1 then cast_column E db1 k
                        else cast_column E db2 (k - n1 + 4).
Proof.
  intros Hc Hf1 Hf2 Hne Hlen Hr1 Hr2 Hn1 Hn2 Hcn1 Hcn2 Hc1 Hc2 Hdecl Hall.
  rewrite (get_features_data_connected _ _ _ _ _ _ _ _ Hc Hf1 Hf2). cbn [fst].
  destruct (assembled_columns E db1 cn1 db2 cn2 n1 n2
              Hne Hlen Hr1 Hr2 Hn1 Hc1 Hc2)
    as (features & -> & Hshape & Hcol1 & Hcol2).
  assert (length (cn1 ++ drop 4 cn2) = 4 + shape1 features) as Hnames
    by (rewrite length_app, length_drop; lia).
  destruct (select_in_range features (cn1 ++ drop 4 cn2) Hdecl)
    as (sf & Hsel & Hcols).
  { eapply Forall_impl; [exact Hall|]. intros g (k & Hk & Hk4).
    exists k. split; [done|]. apply list_index_lt in Hk as [_ Hlt]. lia. }
  exists (cols_to 4 (NDArray n1 db1)), features, (cn1 ++ drop 4 cn2), sf.
  split; [done|]. split; [done|].
  intros p k f Hp Hk.
  rewrite Forall_lookup in Hall. destruct (Hall _ _ Hp) as (k' & Hk' & Hk4).
  assert (k' = k) as -> by congruence.
  destruct (list_index_lt _ _ _ Hk) as [Hname Hlt]. split; [done|].
  rewrite (Hcols p k f Hp Hk). unfold selected_column.
  rewrite (proj2 (Nat.ltb_ge _ _)) by done.
  destruct (Nat.ltb_spec k n1).
  - replace k with (4 + (k - 4)) at 2 by lia. apply Hcol1. lia.
  - replace (k - 4) with (n1 - 4 + (k - n1)) by lia.
    replace (k - n1 + 4) with (4 + (k - n1)) by lia. apply Hcol2. lia.
Qed.

End SelectorExtras.

Lemma select_shape_witness :
  shape1 (NDArray 2 [[4; 10]; [-1; 20]; [8; 40]])
  = length (signal_features_names Fixture.store)
  ∧ shape0 (NDArray 2 [[4; 10]; [-1; 20]; [8; 40]])
    = shape0 (NDArray 3 [[4; -1; 10]; [-1; -1; 20]; [8; 6; 40]])
  ∧ rectangular (NDArray 2 [[4; 10]; [-1; 20]; [8; 40]]).
Proof.
  apply (select_shape Fixture.store
           (NDArray 3 [[4; -1; 10]; [-1; -1; 20]; [8; 6; 40]])
           ["id"; "date"; "quality"; "batch"; "a"; "b"; "c"]).
  reflexivity.
Defined.

Lemma select_raises_only_witness :
  (IndexError = ValueError
   ∧ Exists (λ f, f ∉ ["id"; "date"; "quality"; "batch"; "a"])
            (signal_features_names Fixture.narrow))
  ∨ (IndexError = IndexError
     ∧ Forall (λ f, f ∈ ["id"; "date"; "quality"; "batch"; "a"])
              (signal_features_names Fixture.narrow)).
Proof.
  apply (select_raises_only Fixture.narrow (NDArray 1 [[4]; [5]])
           ["id"; "date"; "quality"; "batch"; "a"] IndexError).
  reflexivity.
Defined.

Lemma named_columns_selected_witness :
  ∃ meta features colnames sf,
    (get_features_data Fixture.store "metrics.sqlite" Fixture.empty_world).1
    = Ok (meta, features, colnames)
    ∧ select_signal_features Fixture.store features colnames = Ok sf
    ∧ ∀ (p k : nat) f,
        signal_features_names Fixture.store !! p = Some f →
        list_index colnames f = Some k →
        colnames !! k = Some f
        ∧ column sf p
          = if (k <? 6)%nat then cast_column Fixture.store Fixture.table_1.1 k
            else cast_column Fixture.store Fixture.table_2.1 (k - 6 + 4).
Proof.
  apply (named_columns_selected Fixture.store "metrics.sqlite" ()
           Fixture.table_1.1 Fixture.table_2.1
           Fixture.table_1.2 Fixture.table_2.2 6 5 Fixture.empty_world);
    [reflexivity | reflexivity | reflexivity | discriminate | reflexivity
    | repeat constructor | repeat constructor | lia | lia
    | reflexivity | reflexivity
    | repeat (constructor; try by eexists)
    | repeat (constructor; try by eexists)
    | discriminate | ].
  constructor; [exists 4%nat; split; [reflexivity | lia]|].
  constructor; [exists 6%nat; split; [reflexivity | lia]|].
  constructor.
Defined.

(** ** The runs: failing early, and the order of the fits *)

Section RunExtras.
Context (E : Externals).
Implicit Types (w : world) (sf : ndarray float) (save_to name : string).

Lemma get_features_data_exn path w (e : exn) w' :
  get_features_data E path w = (Raise e, w') → e = ValueError ∨ e = IndexError.
Proof.
  intros Hrun.
  destruct (create_connection E path) as [c|] eqn:Hc.
  - destruct (fetch_table E c "qc_features_1") as [db1 cn1] eqn:Hf1.
    destruct (fetch_table E c "qc_features_2") as [db2 cn2] eqn:Hf2.
    rewrite (get_features_data_connected _ _ _ _ _ _ _ _ Hc Hf1 Hf2) in Hrun.
    injection Hrun as Hrun _. by eapply assemble_raises.
  - unfold get_features_data in Hrun. rewrite Hc in Hrun.
    injection Hrun as <- _. by left.
Qed.

Lemma select_signal_features_exn (features : ndarray float)
    (names : list string) (e : exn) :
  select_signal_features E features names = Raise e →
  e = ValueError ∨ e = IndexError.
Proof.
  unfold select_signal_features. intros Hsel.
  pose proof (mapM_outcome_inv (feature_offset names) (signal_features_names E))
    as Hinv.
  destruct (mapM _ (signal_features_names E)) as [idx|e'] eqn:Hidx.
  - right. cbn in Hsel. unfold take_columns in Hsel.
    destruct idx; [by injection Hsel|].
    destruct (mapM _ (_ :: _)); [done|]. by injection Hsel.
  - left. cbn in Hsel. injection Hsel as ->.
    apply Exists_exists in Hinv as (f & _ & Hf). unfold feature_offset in Hf.
    destruct (list_index names f); [done|]. cbn in Hf. congruence.
Qed.

Lemma load_signal_features_exn w (e : exn) w1 :
  load_signal_features E w = (Raise e, w1) → e = ValueError ∨ e = IndexError.
Proof.
  unfold load_signal_features, mbind at 1, py_bind at 1.
  destruct (get_features_data E qc_features_database_path w)
    as [[[[meta features] names]|e'] w0] eqn:Hload.
  - unfold mbind, py_bind, lift, mret, py_ret.
    destruct (select_signal_features E features names) eqn:Hsel; [done|].
    intros [= <- <-]. by eapply select_signal_features_exn.
  - intros [= <- <-]. by eapply get_features_data_exn.
Qed.

(** X13. When loading or selecting fails, either run stops with the same
    exception, [ValueError] or [IndexError]: nothing has been printed, no
    file has been written, and the world holds the table reads alone. *)
Theorem failed_load_stops_run save_to w (e : exn) w1 :
  load_signal_features E w = (Raise e, w1) →
  run_different_models E save_to w = (Raise e, w1)
  ∧ run_different_pipelines E save_to w = (Raise e, w1)
  ∧ (e = ValueError ∨ e = IndexError)
  ∧ files w1 = files w
  ∧ ∃ tables, trace w1 = trace w ++ map DbRead tables.
Proof.
  intros Hload.
  split; [by apply run_different_models_raises|].
  split; [by apply run_different_pipelines_raises|].
  split; [by eapply load_signal_features_exn|].
  by eapply load_signal_features_quiet.
Qed.

(** The fits announced on the console: candidate (in capitals) and
    feature, in the order of the announcements. *)
Definition fittings (t : list effect) : list (string * string) :=
  omap (λ ef, match ef with
              | Stdout (PrintFitting name feature) => Some (name, feature)
              | _ => None
              end) t.

(** The announcements of a feature-by-candidate double loop. *)
Definition announced (features candidates : list string)
  : list (string * string) :=
  concat (map (λ feature, map (λ name, (upper name, feature)) candidates)
              features).

Lemma announced_length (features candidates : list string) :
  length (announced features candidates)
  = (length candidates * length features)%nat.
Proof.
  unfold announced. induction features as [|f l IH]; cbn [map concat length].
  - lia.
  - rewrite length_app, IH, length_map. lia.
Qed.

Lemma fittings_app (t t' : list effect) :
  fittings (t ++ t') = fittings t ++ fittings t'.
Proof. apply omap_app. Qed.

Lemma fittings_DbRead (tables : list string) : fittings (map DbRead tables) = [].
Proof. by induction tables. Qed.

Lemma fittings_concat (ls : list (list event)) :
  fittings (map Stdout (concat ls))
  = concat (map (λ l, fittings (map Stdout l)) ls).
Proof.
  induction ls as [|l ls IH]; [done|].
  cbn [concat map]. by rewrite map_app, fittings_app, IH.
Qed.

Lemma map_seq_lookup {A B} (l : list A) (h : nat → B) (h' : A → B) :
  (∀ i x, l !! i = Some x → h i = h' x) →
  map h (seq 0 (length l)) = map h' l.
Proof.
  intros Hh. apply list_eq; intros i. rewrite !list_lookup_fmap.
  destruct (l !! i) as [x|] eqn:Hx.
  - rewrite lookup_seq_lt by (by eapply lookup_lt_Some). cbn.
    by rewrite (Hh i x).
  - apply lookup_ge_None in Hx. by rewrite lookup_seq_ge.
Qed.

Lemma fittings_loop (names : list string) (ev : string → list event)
    (feature : string) :
  (∀ name, name ∈ names →
     fittings (map Stdout (ev name)) = [(upper name, feature)]) →
  fittings (map Stdout (concat (map ev names)))
  = map (λ name, (upper name, feature)) names.
Proof.
  induction names as [|name names IH]; intros Hev; [done|].
  cbn [map concat]. rewrite map_app, fittings_app.
  rewrite Hev by left. rewrite IH by (intros; apply Hev; by right). done.
Qed.

Lemma model_console_fittings sf (scores : list (list float)) :
  shape1 sf = length (signal_features_names E) →
  model_scores E sf = Ok scores →
  fittings (map Stdout (model_console E sf))
  = announced (signal_features_names E) models_names.
Proof.
  intros Hshape Hscores. unfold model_console, announced.
  rewrite fittings_concat, map_map, Hshape.
  f_equal. apply map_seq_lookup. intros i feature Hi.
  apply fittings_loop. intros name [j Hj]%list_elem_of_lookup.
  apply lookup_lt_Some in Hi as Hlt. rewrite <- Hshape in Hlt.
  destruct (scores_lookup _ _ _ _ i j name Hscores Hlt Hj) as (v & Hv & _).
  unfold model_score in Hv. unfold model_events. rewrite Hi.
  by destruct (fit_model E sf i name).
Qed.

Lemma pipeline_console_fittings sf (scores : list (list float)) :
  shape1 sf = length (signal_features_names E) →
  pipeline_scores E sf = Ok scores →
  fittings (map Stdout (pipeline_console E sf))
  = announced (signal_features_names E) pipe_names.
Proof.
  intros Hshape Hscores. unfold pipeline_console, announced.
  rewrite fittings_concat, map_map, Hshape.
  f_equal. apply map_seq_lookup. intros i feature Hi.
  apply fittings_loop. intros name [j Hj]%list_elem_of_lookup.
  apply lookup_lt_Some in Hi as Hlt. rewrite <- Hshape in Hlt.
  destruct (scores_lookup _ _ _ _ i j name Hscores Hlt Hj) as (v & Hv & _).
  unfold pipeline_score in Hv. unfold pipeline_events. rewrite Hi.
  destruct (fit_pipeline E sf i name) as [grid|]; [|done]. cbn in Hv.
  by destruct (held_out_r2 E sf i grid).
Qed.

(** X14. A run that returns has announced one fit per declared feature
    and candidate, the features in their declared order and, under each,
    the candidates in ascending order of name: five announcements per
    feature in Mode A, nine in Mode B. *)
Theorem fits_in_loop_order save_to w :
  (∀ w2,
     run_different_models E save_to w = (Ok (), w2) →
     fittings (trace w2)
     = fittings (trace w) ++ announced (signal_features_names E) models_names)
  ∧ (∀ w2,
     run_different_pipelines E save_to w = (Ok (), w2) →
     fittings (trace w2)
     = fittings (trace w) ++ announced (signal_features_names E) pipe_names)
  ∧ length (announced (signal_features_names E) models_names)
    = (5 * length (signal_features_names E))%nat
  ∧ length (announced (signal_features_names E) pipe_names)
    = (9 * length (signal_features_names E))%nat.
Proof.
  split; [|split].
  - intros w2 (sf & w1 & scores & Hload & Hscores & _ & ->)
      %run_different_models_returns.
    pose proof (load_signal_features_shape1 E _ _ _ Hload) as Hshape.
    destruct (load_signal_features_quiet E _ _ _ Hload)
      as [_ [tables Htrace]].
    cbn [trace]. rewrite Htrace, !fittings_app, fittings_DbRead.
    rewrite (model_console_fittings sf scores) by done.
    cbn [fittings omap]. by rewrite !app_nil_r.
  - intros w2 (sf & w1 & scores & Hload & Hscores & _ & ->)
      %run_different_pipelines_returns.
    pose proof (load_signal_features_shape1 E _ _ _ Hload) as Hshape.
    destruct (load_signal_features_quiet E _ _ _ Hload)
      as [_ [tables Htrace]].
    cbn [trace]. rewrite Htrace, !fittings_app, fittings_DbRead.
    rewrite (pipeline_console_fittings sf scores) by done.
    cbn [fittings omap]. by rewrite !app_nil_r.
  - by rewrite !announced_length, models_names_eq, pipe_names_eq.
Qed.

(** What the loader returns does not depend on the world it starts in. *)
Lemma get_features_data_world path w v :
  (get_features_data E path v).1 = (get_features_data E path w).1.
Proof.
  destruct (create_connection E path) as [c|] eqn:Hc.
  - destruct (fetch_table E c "qc_features_1") as [db1 cn1] eqn:Hf1.
    destruct (fetch_table E c "qc_features_2") as [db2 cn2] eqn:Hf2.
    by rewrite !(get_features_data_connected _ _ _ _ _ _ _ _ Hc Hf1 Hf2).
  - unfold get_features_data. by rewrite Hc.
Qed.

Lemma load_signal_features_unfold w :
  load_signal_features E w
  = ((get_features_data E qc_features_database_path w).1
     ≫= (λ '(_, features, names),
           impute <$> select_signal_features E features names),
     (get_features_data E qc_features_database_path w).2).
Proof.
  unfold load_signal_features, mbind at 1, py_bind at 1.
  destruct (get_features_data E qc_features_database_path w)
    as [[[[meta features] names]|e] w0]; [|done].
  unfold mbind, py_bind, lift, mret, py_ret. cbn.
  by destruct (select_signal_features E features names).
Qed.

Lemma load_signal_features_world w v :
  (load_signal_features E v).1 = (load_signal_features E w).1.
Proof.
  rewrite !load_signal_features_unfold. cbn [fst].
  by rewrite (get_features_data_world qc_features_database_path w v).
Qed.

Lemma append_inj_r (s a b : string) : s +:+ a = s +:+ b → a = b.
Proof. induction s as [|c s IH]; cbn; [done|]. intros [= H]. by apply IH. Qed.

(** X15. When Mode A and then Mode B, run with the same output path, both
    return, both result files are there: the two file names differ, and
    Mode B has added its own file without touching the one Mode A
    wrote. *)
Theorem both_modes_keep_both_files save_to w wA wB :
  run_different_models E save_to w = (Ok (), wA) →
  run_different_pipelines E save_to wA = (Ok (), wB) →
  ∃ dfA dfB,
    save_to +:+ "grid_search_results.csv"
    ≠ save_to +:+ "grid_search_pipelines_results.csv"
    ∧ files wA !! (save_to +:+ "grid_search_results.csv") = Some dfA
    ∧ files wB !! (save_to +:+ "grid_search_results.csv") = Some dfA
    ∧ files wB !! (save_to +:+ "grid_search_pipelines_results.csv") = Some dfB
    ∧ files wB
      = <[save_to +:+ "grid_search_pipelines_results.csv" := dfB]> (files wA).
Proof.
  intros (sf & w1 & scores & Hload & Hscores & _ & ->)
    %run_different_models_returns.
  intros (sf' & w1' & scores' & Hload' & Hscores' & _ & ->)
    %run_different_pipelines_returns.
  destruct (load_signal_features_quiet E _ _ _ Hload') as [Hfiles _].
  cbn [files] in Hfiles |- *. rewrite Hfiles.
  assert (save_to +:+ "grid_search_results.csv"
          ≠ save_to +:+ "grid_search_pipelines_results.csv") as Hne
    by (by intros ?%append_inj_r).
  eexists _, _. split; [done|].
  split; [by rewrite lookup_insert_eq|].
  split; [by rewrite lookup_insert_ne, lookup_insert_eq|].
  split; [by rewrite lookup_insert_eq|done].
Qed.

(** X21. When the first fit of a run raises, the run stops with that
    exception: the tables have been read, the one fit has been announced,
    and nothing else has been printed or written. *)
Theorem failed_fit_stops_run save_to w sf w1 feature split (e : exn) :
  load_signal_features E w = (Ok sf, w1) →
  signal_features_names E !! 0%nat = Some feature →
  split_target E sf 0 = Ok split →
  (fit_model E sf 0 "bayes_ridge" = Raise e →
   run_different_models E save_to w
   = (Raise e, printed w1 [PrintFitting "BAYES_RIDGE" feature]))
  ∧ (fit_pipeline E sf 0 "min_max" = Raise e →
     run_different_pipelines E save_to w
     = (Raise e, printed w1 [PrintFitting "MIN_MAX" feature])).
Proof.
  intros Hload Hfeature Hsplit.
  pose proof (load_signal_features_shape1 E _ _ _ Hload) as Hshape.
  assert (seq 0 (shape1 sf) = 0%nat :: seq 1 (shape1 sf - 1)) as Hseq.
  { apply lookup_lt_Some in Hfeature. rewrite <- Hshape in Hfeature.
    destruct (shape1 sf); [lia|]. cbn. by rewrite Nat.sub_0_r. }
  destruct split as [[[X_train X_test] y_train] y_test].
  unfold split_target in Hsplit.
  split; intros Hfit.
  - rewrite run_different_models_unfold. unfold mbind at 1, py_bind at 1.
    rewrite Hload. unfold search_models.
    rewrite (surjective_pairing (get_models_and_parameters RANDOM_STATE)).
    cbv beta iota zeta. fold models_names.
    rewrite Hseq, models_names_eq.
    unfold mbind at 1, py_bind at 1. rewrite for_each_cons.
    unfold mbind at 1, py_bind at 1, lift at 1. rewrite Hsplit.
    rewrite for_each_cons.
    unfold fit_model, split_target in Hfit. rewrite Hsplit in Hfit.
    cbn in Hfit.
    unfold mbind, py_bind, lift, print. cbn. rewrite Hfeature. cbn.
    by rewrite Hfit.
  - rewrite run_different_pipelines_unfold. unfold mbind at 1, py_bind at 1.
    rewrite Hload. unfold search_pipelines.
    rewrite (surjective_pairing (get_elastic_pipelines RANDOM_STATE)).
    cbv beta iota zeta. fold pipe_names.
    rewrite Hseq, pipe_names_eq.
    unfold mbind at 1, py_bind at 1. rewrite for_each_cons.
    unfold mbind at 1, py_bind at 1, lift at 1. rewrite Hsplit.
    rewrite for_each_cons.
    unfold fit_pipeline, split_target in Hfit. rewrite Hsplit in Hfit.
    cbn in Hfit.
    unfold mbind, py_bind, lift, print. cbn. rewrite Hfeature. cbn.
    by rewrite Hfit.
Qed.

(** X22. When every fit has returned and the directory of the output path
    does not exist, the run raises [OSError] at the very end: everything
    has been printed and no file has been written. *)
Theorem missing_directory_stops_run save_to w sf w1 :
  load_signal_features E w = (Ok sf, w1) →
  (∀ scores,
     model_scores E sf = Ok scores →
     can_create w (save_to +:+ "grid_search_results.csv") = false →
     run_different_models E save_to w
     = (Raise OSError, printed w1 (model_console E sf)))
  ∧ (∀ scores,
     pipeline_scores E sf = Ok scores →
     can_create w (save_to +:+ "grid_search_pipelines_results.csv") = false →
     run_different_pipelines E save_to w
     = (Raise OSError, printed w1 (pipeline_console E sf))).
Proof.
  intros Hload.
  pose proof (load_signal_features_shape1 E _ _ _ Hload) as Hshape.
  pose proof (load_signal_features_dirs E _ _ _ Hload) as Hdirs.
  split; intros scores Hscores Hdir.
  - rewrite run_different_models_unfold. unfold mbind at 1, py_bind at 1.
    rewrite Hload.
    pose proof (search_models_outcome E save_to sf w1 Hshape) as Hsearch.
    rewrite Hscores in Hsearch. rewrite Hsearch. unfold to_csv.
    replace (can_create (printed w1 (model_console E sf)) _) with false;
      [done|].
    symmetry. etrans; [|exact Hdir].
    unfold can_create, printed. cbn [dirs]. by rewrite Hdirs.
  - rewrite run_different_pipelines_unfold. unfold mbind at 1, py_bind at 1.
    rewrite Hload.
    pose proof (search_pipelines_outcome E save_to sf w1 Hshape) as Hsearch.
    rewrite Hscores in Hsearch. rewrite Hsearch. unfold to_csv.
    replace (can_create (printed w1 (pipeline_console E sf)) _) with false;
      [done|].
    symmetry. etrans; [|exact Hdir].
    unfold can_create, printed. cbn [dirs]. by rewrite Hdirs.
Qed.

End RunExtras.

(** A store on which every fit raises [ValueError] (as a three-fold
    cross-validation of two training rows does). *)
Definition failing_fit_store : Externals :=
  mkExternals (conn Fixture.store) (cell Fixture.store)
    (create_connection Fixture.store) (fetch_table Fixture.store)
    (astype_float Fixture.store) (signal_features_names Fixture.store)
    (train_test_split Fixture.store) (fitted Fixture.store)
    (λ _ _ _ _ _ _ _, Raise ValueError)
    (best_score_ Fixture.store) (best_params_ Fixture.store)
    (predict Fixture.store) (r2_score Fixture.store).

Lemma failed_fit_stops_run_witness :
  run_different_models failing_fit_store "out/" Fixture.empty_world
  = (Raise ValueError, printed Fixture.loaded [PrintFitting "BAYES_RIDGE" "a"])
  ∧ run_different_pipelines failing_fit_store "out/" Fixture.empty_world
    = (Raise ValueError, printed Fixture.loaded [PrintFitting "MIN_MAX" "a"]).
Proof.
  destruct (failed_fit_stops_run failing_fit_store "out/" Fixture.empty_world
              Fixture.prepared Fixture.loaded "a"
              (delete_column Fixture.prepared 0,
               delete_column Fixture.prepared 0,
               column Fixture.prepared 0, column Fixture.prepared 0)
              ValueError) as [HA HB]; [reflexivity..|].
  split; [apply HA | apply HB]; reflexivity.
Defined.

Lemma missing_directory_stops_run_witness :
  run_different_models Fixture.store "nowhere/" Fixture.empty_world
  = (Raise OSError,
     printed Fixture.loaded (model_console Fixture.store Fixture.prepared))
  ∧ run_different_pipelines Fixture.store "nowhere/" Fixture.empty_world
    = (Raise OSError,
       printed Fixture.loaded (pipeline_console Fixture.store Fixture.prepared)).
Proof.
  destruct (missing_directory_stops_run Fixture.store "nowhere/"
              Fixture.empty_world Fixture.prepared Fixture.loaded)
    as [HA HB]; [reflexivity|].
  split; [eapply HA | eapply HB]; vm_compute; reflexivity.
Defined.

Lemma failed_load_stops_run_witness :
  run_different_models Fixture.narrow "out/" Fixture.empty_world
  = (Raise IndexError, Fixture.loaded)
  ∧ run_different_pipelines Fixture.narrow "out/" Fixture.empty_world
    = (Raise IndexError, Fixture.loaded)
  ∧ (IndexError = ValueError ∨ IndexError = IndexError)
  ∧ files Fixture.loaded = files Fixture.empty_world
  ∧ ∃ tables, trace Fixture.loaded
              = trace Fixture.empty_world ++ map DbRead tables.
Proof.
  apply (failed_load_stops_run Fixture.narrow "out/" Fixture.empty_world
           IndexError Fixture.loaded).
  reflexivity.
Defined.

Lemma fits_in_loop_order_witness :
  ∃ wA wB,
    run_different_models Fixture.store "out/" Fixture.empty_world = (Ok (), wA)
    ∧ run_different_pipelines Fixture.store "out/" Fixture.empty_world
      = (Ok (), wB)
    ∧ fittings (trace wA)
      = fittings (trace Fixture.empty_world)
        ++ announced (signal_features_names Fixture.store) models_names
    ∧ fittings (trace wB)
      = fittings (trace Fixture.empty_world)
        ++ announced (signal_features_names Fixture.store) pipe_names
    ∧ length (announced (signal_features_names Fixture.store) models_names)
      = (5 * length (signal_features_names Fixture.store))%nat
    ∧ length (announced (signal_features_names Fixture.store) pipe_names)
      = (9 * length (signal_features_names Fixture.store))%nat.
Proof.
  destruct (fits_in_loop_order Fixture.store "out/" Fixture.empty_world)
    as (HA & HB & HlenA & HlenB).
  eexists _, _.
  split; [vm_compute; reflexivity|]. split; [vm_compute; reflexivity|].
  split; [apply HA; vm_compute; reflexivity|].
  split; [apply HB; vm_compute; reflexivity|].
  split; [exact HlenA | exact HlenB].
Defined.

Lemma both_modes_keep_both_files_witness :
  ∃ wA wB,
    run_different_models Fixture.store "out/" Fixture.empty_world = (Ok (), wA)
    ∧ run_different_pipelines Fixture.store "out/" wA = (Ok (), wB)
    ∧ ∃ dfA dfB,
        "out/" +:+ "grid_search_results.csv"
        ≠ "out/" +:+ "grid_search_pipelines_results.csv"
        ∧ files wA !! ("out/" +:+ "grid_search_results.csv") = Some dfA
        ∧ files wB !! ("out/" +:+ "grid_search_results.csv") = Some dfA
        ∧ files wB !! ("out/" +:+ "grid_search_pipelines_results.csv")
          = Some dfB
        ∧ files wB
          = <["out/" +:+ "grid_search_pipelines_results.csv" := dfB]>
              (files wA).
Proof.
  eexists _, _.
  split; [vm_compute; reflexivity|]. split; [vm_compute; reflexivity|].
  apply (both_modes_keep_both_files Fixture.store "out/" Fixture.empty_world);
    vm_compute; reflexivity.
Defined.

(** ** The candidate order, the predictors and the catalogs *)

Section OrderExtras.
Implicit Types (l : list string) (x y z : string).

Lemma leb_iff x y :
  String.leb x y = true ↔ x = y ∨ OrderedTypeEx.String_as_OT.lt x y.
Proof.
  unfold String.leb.
  pose proof (OrderedTypeEx.String_as_OT.cmp_eq x y) as Heq.
  pose proof (OrderedTypeEx.String_as_OT.cmp_lt x y) as Hlt.
  unfold OrderedTypeEx.String_as_OT.cmp in *.
  destruct (String.compare x y); split; try done.
  - intros _. left. by apply Heq.
  - intros _. right. by apply Hlt.
  - intros [H|H]; [by apply Heq in H|by apply Hlt in H].
Qed.

Lemma leb_trans x y z :
  String.leb x y = true → String.leb y z = true → String.leb x z = true.
Proof.
  rewrite !leb_iff. intros [->|Hxy] [->|Hyz]; eauto.
  right. by eapply OrderedTypeEx.String_as_OT.lt_trans.
Qed.

(** The order [sorted] sorts by. *)
Definition str_le x y : Prop := String.leb x y = true.

Lemma sorted_insert_StronglySorted x l :
  StronglySorted str_le l → StronglySorted str_le (sorted_insert x l).
Proof.
  induction 1 as [|y l Hl IH Hy]; cbn.
  - repeat constructor.
  - destruct (String.leb x y) eqn:Hxy.
    + constructor; [by constructor|]. constructor; [done|].
      eapply Forall_impl; [exact Hy|]. intros z Hz. by eapply leb_trans.
    + constructor; [done|].
      assert (str_le y x) as Hyx
        by (unfold str_le; destruct (String.leb_total x y); congruence).
      apply Forall_forall. intros z Hz.
      rewrite sorted_insert_Permutation in Hz.
      apply elem_of_cons in Hz as [->|Hz]; [done|].
      rewrite Forall_forall in Hy. by apply Hy.
Qed.

Lemma sorted_StronglySorted l : StronglySorted str_le (sorted l).
Proof.
  induction l as [|x l IH]; [constructor|].
  cbn. by apply sorted_insert_StronglySorted.
Qed.

(** X16. The sorted candidate names depend on which names there are, not
    on the order the catalog lists them in. *)
Theorem sorted_ignores_order l l' : l ≡ₚ l' → sorted l = sorted l'.
Proof.
  intros Hperm.
  assert (AntiSymm (=) str_le) as Hanti
    by (intros x y Hxy Hyx; by apply String.leb_antisym).
  apply (StronglySorted_unique str_le); [apply sorted_StronglySorted ..|].
  by rewrite !sorted_Permutation.
Qed.

End OrderExtras.

Lemma sorted_ignores_order_witness :
  sorted ["ridge"; "lars"; "elastic"] = sorted ["elastic"; "ridge"; "lars"].
Proof.
  apply (sorted_ignores_order ["ridge"; "lars"; "elastic"]
           ["elastic"; "ridge"; "lars"]).
  exact (Permutation_app_comm ["ridge"; "lars"] ["elastic"]).
Defined.

(** X17. The predictors of target [i] are the other columns in their order:
    deleting column [i] keeps the rows, leaves one column less, and column
    [j] of the result is column [j] of the matrix before [i] and column
    [j + 1] from [i] on. *)
Theorem delete_column_leaves_one_out (sf : ndarray float) (i : nat) :
  rectangular sf → i < shape1 sf →
  shape0 (delete_column sf i) = shape0 sf
  ∧ S (shape1 (delete_column sf i)) = shape1 sf
  ∧ rectangular (delete_column sf i)
  ∧ ∀ j, column (delete_column sf i) j
         = column sf (if (j <? i)%nat then j else S j).
Proof.
  intros Hrect Hi. unfold delete_column, shape0, rectangular, column in *.
  cbn [nd_rows shape1].
  split; [by rewrite length_map|]. split; [lia|]. split.
  - apply Forall_map. eapply Forall_impl; [exact Hrect|].
    intros r Hr. cbn in Hr |- *. rewrite length_delete.
    + lia.
    + apply lookup_lt_is_Some. lia.
  - intros j. rewrite map_map. apply map_ext; intros r. f_equal.
    destruct (Nat.ltb_spec j i).
    + by apply list_lookup_delete_lt.
    + by apply list_lookup_delete_ge.
Qed.

Lemma delete_column_leaves_one_out_witness :
  shape0 (delete_column Fixture.prepared 0) = shape0 Fixture.prepared
  ∧ S (shape1 (delete_column Fixture.prepared 0)) = shape1 Fixture.prepared
  ∧ rectangular (delete_column Fixture.prepared 0)
  ∧ ∀ j, column (delete_column Fixture.prepared 0) j
         = column Fixture.prepared (if (j <? 0)%nat then j else S j).
Proof.
  apply (delete_column_leaves_one_out Fixture.prepared 0).
  - repeat constructor.
  - cbn. lia.
Defined.

(** ** The catalogs *)

(** The step a grid key [step__parameter] addresses: what stands before
    the first double underscore. *)
Fixpoint step_of (key : string) : string :=
  match key with
  | EmptyString => EmptyString
  | String c rest =>
    if String.prefix "__" key then EmptyString
    else String c (step_of rest)
  end.

(** The steps of the pipeline Mode A builds around every model. *)
Definition model_pipeline_steps : list string := ["scaler"; "selector"; "model"].

(** X18. Whatever the random state, the catalog of Mode A lists its
    models and its grids under the same names in the same order, no name
    twice, and every grid key addresses a step of the pipeline Mode A
    builds (scaler, selector, model): no lookup by name can fail in the
    loop. *)
Theorem models_catalog_consistent (random_state : Z) :
  keys (get_models_and_parameters random_state).1
  = keys (get_models_and_parameters random_state).2
  ∧ NoDup (keys (get_models_and_parameters random_state).1)
  ∧ Forall (λ entry, NoDup (keys entry.2)
                     ∧ Forall (λ key, step_of key ∈ model_pipeline_steps)
                              (keys entry.2))
           (get_models_and_parameters random_state).2.
Proof.
  split; [reflexivity|]. split.
  - apply (bool_decide_unpack _). by vm_compute.
  - apply (bool_decide_unpack _). by vm_compute.
Qed.

(** X19. Whatever the random state, the catalog of Mode B lists its
    pipelines and its grids under the same names in the same order, no
    name twice; every grid key addresses a step its own pipeline has (a
    pipeline without selector has no selector key), and every pipeline
    ends in the same elastic net, with 5000 iterations and the given
    random state. *)
Theorem pipelines_catalog_consistent (random_state : Z) :
  NoDup (keys (get_elastic_pipelines random_state).1)
  ∧ Forall2 (λ pipeline grid,
               pipeline.1 = grid.1
               ∧ NoDup (keys grid.2)
               ∧ Forall (λ key, step_of key ∈ keys pipeline.2) (keys grid.2)
               ∧ List.last pipeline.2 ("", Scaler MinMaxScaler)
                 = ("model", Model (ElasticNet 5000 random_state)))
            (get_elastic_pipelines random_state).1
            (get_elastic_pipelines random_state).2.
Proof.
  split.
  - apply (bool_decide_unpack _). by vm_compute.
  - cbn [get_elastic_pipelines fst snd].
    repeat (apply List.Forall2_cons; [cbn [fst snd]; split; [reflexivity|];
      split; [apply (bool_decide_unpack _); by vm_compute|];
      split; [apply (bool_decide_unpack _); by vm_compute|reflexivity]|]).
    apply List.Forall2_nil.
Qed.

(** ** What the metadata columns do not do *)

(** The same externals with other tables behind [fetch_table]. *)
Definition with_fetch_table (E : Externals)
    (tables : conn E → string → list (list (cell E)) * list string)
  : Externals :=
  mkExternals (conn E) (cell E) (create_connection E) tables
    (astype_float E) (signal_features_names E) (train_test_split E)
    (fitted E) (grid_search_fit E) (best_score_ E) (best_params_ E)
    (predict E) (r2_score E).

(** Two tables with the same column names and the same width, at least
    four, whose rows agree from the fifth column on. *)
Definition same_past_metadata {A} (t t' : list (list A) * list string) : Prop :=
  t.2 = t'.2
  ∧ map (drop 4) t.1 = map (drop 4) t'.1
  ∧ ∃ n : nat, (4 ≤ n)%nat ∧ Forall (λ r, length r = n) t.1
               ∧ Forall (λ r, length r = n) t'.1.

Section MetadataExtras.
Context (E : Externals).
Context (tables : conn E → string → list (list (cell E)) * list string).
Implicit Types (w : world) (save_to : string).

Let E' : Externals := with_fetch_table E tables.

(** The loader's result without the metadata matrix. *)
Definition numeric_part {M}
    (o : outcome (M * ndarray float * list string))
  : outcome (ndarray float * list string) :=
  (λ '(_, features, names), (features, names)) <$> o.

Lemma np_array_same_width {A} (db db' : list (list A)) (n : nat) :
  map (drop 4) db = map (drop 4) db' →
  Forall (λ r, length r = n) db → Forall (λ r, length r = n) db' →
  (db = [] ∧ db' = [])
  ∨ (np_array db = Some (NDArray n db) ∧ np_array db' = Some (NDArray n db')).
Proof.
  intros Hmap H H'. destruct db as [|r db], db' as [|r' db']; try done.
  - by left.
  - right. split; by apply np_array_rectangular.
Qed.

Lemma assemble_numeric_part (db1 db2 db1' db2' : list (list (cell E)))
    (cn1 cn2 cn1' cn2' : list string) :
  same_past_metadata (db1, cn1) (db1', cn1') →
  same_past_metadata (db2, cn2) (db2', cn2') →
  numeric_part (assemble E' db1' cn1' db2' cn2')
  = numeric_part (assemble E db1 cn1 db2 cn2).
Proof.
  intros (Hcn1 & Hd1 & n1 & _ & Hr1 & Hr1') (Hcn2 & Hd2 & n2 & _ & Hr2 & Hr2').
  cbn [fst snd] in *. subst cn1' cn2'.
  unfold assemble, astype. unfold E', with_fetch_table. cbn [cell astype_float].
  destruct (np_array_same_width db1 db1' n1 Hd1 Hr1 Hr1')
    as [[-> ->]|[-> ->]]; [done|].
  cbn [two_dim or_raise fmap outcome_fmap mbind outcome_bind
       cols_from shape1 nd_rows].
  rewrite <- Hd1.
  destruct (mapM (mapM (astype_float E)) (map (drop 4) db1)) as [rows1|];
    [|done].
  cbn [or_raise fmap option_fmap option_map mbind outcome_bind].
  destruct (np_array_same_width db2 db2' n2 Hd2 Hr2 Hr2')
    as [[-> ->]|[-> ->]]; [done|].
  cbn [two_dim or_raise fmap outcome_fmap mbind outcome_bind
       cols_from shape1 nd_rows].
  rewrite <- Hd2.
  destruct (mapM (mapM (astype_float E)) (map (drop 4) db2)) as [rows2|];
    [|done].
  cbn [or_raise fmap option_fmap option_map mbind outcome_bind].
  by destruct (hstack _ _).
Qed.

Lemma load_signal_features_same_past_metadata w :
  (∀ c name, same_past_metadata (fetch_table E c name) (tables c name)) →
  load_signal_features E' w = load_signal_features E w.
Proof.
  intros Hsame. rewrite !load_signal_features_unfold.
  destruct (create_connection E qc_features_database_path) as [c|] eqn:Hc.
  - destruct (fetch_table E c "qc_features_1") as [db1 cn1] eqn:Hf1.
    destruct (fetch_table E c "qc_features_2") as [db2 cn2] eqn:Hf2.
    destruct (tables c "qc_features_1") as [db1' cn1'] eqn:Hf1'.
    destruct (tables c "qc_features_2") as [db2' cn2'] eqn:Hf2'.
    rewrite (get_features_data_connected E _ c db1 cn1 db2 cn2 w Hc Hf1 Hf2).
    rewrite (get_features_data_connected E' _ c db1' cn1' db2' cn2' w Hc Hf1' Hf2').
    cbn [fst snd]. f_equal.
    assert (same_past_metadata (db1, cn1) (db1', cn1')) as H1
      by (rewrite <- Hf1, <- Hf1'; apply Hsame).
    assert (same_past_metadata (db2, cn2) (db2', cn2')) as H2
      by (rewrite <- Hf2, <- Hf2'; apply Hsame).
    pose proof (assemble_numeric_part db1 db2 db1' db2' cn1 cn2 cn1' cn2' H1 H2)
      as Hn.
    unfold numeric_part in Hn.
    destruct (assemble E' db1' cn1' db2' cn2') as [[[m' f'] n']|e'];
      destruct (assemble E db1 cn1 db2 cn2) as [[[m f] n]|e];
      cbn in Hn; try done.
    + by injection Hn as -> ->.
    + by injection Hn as ->.
  - unfold get_features_data.
    change (create_connection E' qc_features_database_path)
      with (create_connection E qc_features_database_path).
    by rewrite Hc.
Qed.

(** X20. The metadata columns play no part in a run: with other values in
    the first four columns of either table (same names, same widths, the
    same values from the fifth column on) both modes do exactly the same:
    the same outcome, the same prints and the same file. *)
Theorem metadata_not_used save_to w :
  (∀ c name, same_past_metadata (fetch_table E c name) (tables c name)) →
  run_different_models (with_fetch_table E tables) save_to w
  = run_different_models E save_to w
  ∧ run_different_pipelines (with_fetch_table E tables) save_to w
    = run_different_pipelines E save_to w.
Proof.
  intros Hsame. fold E'.
  pose proof (load_signal_features_same_past_metadata w Hsame) as Hload.
  rewrite !run_different_models_unfold, !run_different_pipelines_unfold.
  unfold mbind, py_bind. rewrite Hload.
  by destruct (load_signal_features E w) as [[sf|e] w1].
Qed.

End MetadataExtras.

(** The tables of [Fixture.store] with other metadata. *)
Definition relabelled_tables (_ : ()) (name : string) : Fixture.table :=
  if String.eqb name "qc_features_1"
  then ([[9; 9; 9; 9; 4; -1]; [7; 7; 7; 7; -1; -1]; [5; 5; 5; 5; 8; 6]],
        Fixture.table_1.2)
  else ([[3; 1; 3; 1; 10]; [2; 2; 2; 2; 20]; [6; 6; 6; 6; 40]],
        Fixture.table_2.2).

Lemma metadata_not_used_witness :
  run_different_models (with_fetch_table Fixture.store relabelled_tables)
    "out/" Fixture.empty_world
  = run_different_models Fixture.store "out/" Fixture.empty_world
  ∧ run_different_pipelines (with_fetch_table Fixture.store relabelled_tables)
      "out/" Fixture.empty_world
    = run_different_pipelines Fixture.store "out/" Fixture.empty_world.
Proof.
  apply (metadata_not_used Fixture.store relabelled_tables "out/"
           Fixture.empty_world).
  intros c name. unfold relabelled_tables. cbn [fetch_table Fixture.store
    Fixture.store_with].
  destruct (String.eqb name "qc_features_1").
  - split; [reflexivity|]. split; [reflexivity|].
    exists 6%nat. split; [lia|]. split; repeat constructor.
  - split; [reflexivity|]. split; [reflexivity|].
    exists 5%nat. split; [lia|]. split; repeat constructor.
Defined.
